(** * Movie-rating backend: retry decorator, rating repository, movie service

    A shallow embedding of
      - [backend/db/repositories/rating_repository.py]
        ([retry_on_connection_error], [RatingRepository]),
      - [backend/services/movie_service.py] ([MovieService]) and
      - [backend/api/v1/endpoints/movies.py] ([get_movie],
        [get_movie_ratings]),
    together with the properties of the data-access layer.

    Conventions of the embedding.
      - A Python [str] is represented by the bytes of its UTF-8 encoding
        (a Rocq [string]); [bytes.decode('utf-8')] validates the bytes and
        [str.encode('utf-8')] is the identity.  Equality, [in],
        [split('_')] and the ordering of [str] agree with the same
        operations on the encodings.  [strip], [isdigit], [lower] and
        [repr] work on the code points and consult the character database
        of the interpreter (Python 3.11, Unicode 14.0.0).
      - The floats of the ratings are binary64 numbers ([spec_float] of the
        standard library) with the rounding of IEEE 754; [float(s)] reads
        what Python reads.  The floats of the movie repository, whose
        records are not part of the sources, are only compared and negated;
        they are kept as the rationals they stand for.
      - A Python exception is its class name and its message ([str(e)]);
        a computation either returns a value or raises.
      - Calls to the logger are omitted. *)

From Stdlib Require Import ZArith QArith Qround String Ascii List Lia Lqa
  Permutation Sorted DecimalString SpecFloat.
From stdpp Require Import base decidable option list strings gmap fin_maps.

Import ListNotations.
Local Open Scope string_scope.
Local Open Scope list_scope.
Local Open Scope Z_scope.

(** ** Python values: exceptions, results, strings *)

Module Py.

Record exn : Type := Exn { exn_class : string; exn_msg : string }.

Inductive result (A : Type) : Type :=
| Ok (a : A)
| Raise (e : exn).
Arguments Ok {A} a.
Arguments Raise {A} e.

Definition is_ok {A} (r : result A) : bool :=
  match r with Ok _ => true | Raise _ => false end.

(** [s.startswith(p)] *)
Fixpoint startswith (p s : string) : bool :=
  match p, s with
  | EmptyString, _ => true
  | String a p', String b s' => if Ascii.eqb a b then startswith p' s' else false
  | String _ _, EmptyString => false
  end.

(** [sub in s] *)
Fixpoint contains (sub s : string) : bool :=
  startswith sub s ||
  match s with
  | EmptyString => false
  | String _ s' => contains sub s'
  end.

End Py.
Export Py.

(** ** Text: code points *)

(** A [str] is kept as the bytes of its UTF-8 encoding; the methods of
    [str] that look at characters work on its code points. *)

Definition continuation_bits (c : ascii) : N := (N_of_ascii c mod 64)%N.

(** The code points of a UTF-8 text.  A byte that starts no sequence, or a
    sequence cut short by the end of the text, stands for itself; neither
    occurs in a [str]. *)
Fixpoint code_points (s : string) : list N :=
  match s with
  | EmptyString => []
  | String c0 s1 =>
      let b0 := N_of_ascii c0 in
      if (b0 <? 192)%N then b0 :: code_points s1
      else if (b0 <? 224)%N then
        match s1 with
        | String c1 s2 =>
            ((b0 - 192) * 64 + continuation_bits c1)%N :: code_points s2
        | _ => b0 :: code_points s1
        end
      else if (b0 <? 240)%N then
        match s1 with
        | String c1 (String c2 s3) =>
            ((b0 - 224) * 4096 + continuation_bits c1 * 64
             + continuation_bits c2)%N :: code_points s3
        | _ => b0 :: code_points s1
        end
      else if (b0 <? 248)%N then
        match s1 with
        | String c1 (String c2 (String c3 s4)) =>
            ((b0 - 240) * 262144 + continuation_bits c1 * 4096
             + continuation_bits c2 * 64 + continuation_bits c3)%N
            :: code_points s4
        | _ => b0 :: code_points s1
        end
      else b0 :: code_points s1
  end.

(** The UTF-8 encoding of one code point. *)
Definition utf8_encode_cp (n : N) : string :=
  if (n <? 128)%N then String (ascii_of_N n) ""
  else if (n <? 2048)%N then
    String (ascii_of_N (192 + n / 64))
      (String (ascii_of_N (128 + n mod 64)) "")
  else if (n <? 65536)%N then
    String (ascii_of_N (224 + n / 4096))
      (String (ascii_of_N (128 + (n / 64) mod 64))
         (String (ascii_of_N (128 + n mod 64)) ""))
  else
    String (ascii_of_N (240 + n / 262144))
      (String (ascii_of_N (128 + (n / 4096) mod 64))
         (String (ascii_of_N (128 + (n / 64) mod 64))
            (String (ascii_of_N (128 + n mod 64)) ""))).

Fixpoint utf8_encode (l : list N) : string :=
  match l with
  | [] => ""
  | n :: l' => String.append (utf8_encode_cp n) (utf8_encode l')
  end.

(** ** Text: the character database *)

(** The properties of characters that [str] consults, for the Unicode
    version 14.0.0 of the interpreter's [unicodedata]. *)
Module Unicode.

Definition in_range (c : N) (r : N * N) : bool :=
  ((fst r <=? c) && (c <=? snd r))%N.

Definition in_ranges (ranges : list (N * N)) (c : N) : bool :=
  existsb (in_range c) ranges.

(** The code points of which [str.isspace] holds. *)
Definition space_ranges : list (N * N) :=
  [(9, 13); (28, 32); (133, 133); (160, 160); (5760, 5760); (8192, 8202);
   (8232, 8233); (8239, 8239); (8287, 8287); (12288, 12288)]%N.

(** The code points of which [str.isdigit] holds (Numeric_Type Digit or
    Decimal). *)
Definition digit_ranges : list (N * N) :=
  [(48, 57); (178, 179); (185, 185); (1632, 1641); (1776, 1785);
   (1984, 1993); (2406, 2415); (2534, 2543); (2662, 2671); (2790, 2799);
   (2918, 2927); (3046, 3055); (3174, 3183); (3302, 3311); (3430, 3439);
   (3558, 3567); (3664, 3673); (3792, 3801); (3872, 3881); (4160, 4169);
   (4240, 4249); (4969, 4977); (6112, 6121); (6160, 6169); (6470, 6479);
   (6608, 6618); (6784, 6793); (6800, 6809); (6992, 7001); (7088, 7097);
   (7232, 7241); (7248, 7257); (8304, 8304); (8308, 8313); (8320, 8329);
   (9312, 9320); (9332, 9340); (9352, 9360); (9450, 9450); (9461, 9469);
   (9471, 9471); (10102, 10110); (10112, 10120); (10122, 10130);
   (42528, 42537); (43216, 43225); (43264, 43273); (43472, 43481);
   (43504, 43513); (43600, 43609); (44016, 44025); (65296, 65305);
   (66720, 66729); (68160, 68163); (68912, 68921); (69216, 69224);
   (69714, 69722); (69734, 69743); (69872, 69881); (69942, 69951);
   (70096, 70105); (70384, 70393); (70736, 70745); (70864, 70873);
   (71248, 71257); (71360, 71369); (71472, 71481); (71904, 71913);
   (72016, 72025); (72784, 72793); (73040, 73049); (73120, 73129);
   (92768, 92777); (92864, 92873); (93008, 93017); (120782, 120831);
   (123200, 123209); (123632, 123641); (125264, 125273); (127232, 127242);
   (130032, 130041)]%N.

(** The decimal digits (category Nd) above the ASCII range, in runs of ten:
    the code point at offset [i] of a run is the digit [i mod 10]. *)
Definition decimal_ranges : list (N * N) :=
  [(1632, 1641); (1776, 1785); (1984, 1993); (2406, 2415); (2534, 2543);
   (2662, 2671); (2790, 2799); (2918, 2927); (3046, 3055); (3174, 3183);
   (3302, 3311); (3430, 3439); (3558, 3567); (3664, 3673); (3792, 3801);
   (3872, 3881); (4160, 4169); (4240, 4249); (6112, 6121); (6160, 6169);
   (6470, 6479); (6608, 6617); (6784, 6793); (6800, 6809); (6992, 7001);
   (7088, 7097); (7232, 7241); (7248, 7257); (42528, 42537); (43216, 43225);
   (43264, 43273); (43472, 43481); (43504, 43513); (43600, 43609);
   (44016, 44025); (65296, 65305); (66720, 66729); (68912, 68921);
   (69734, 69743); (69872, 69881); (69942, 69951); (70096, 70105);
   (70384, 70393); (70736, 70745); (70864, 70873); (71248, 71257);
   (71360, 71369); (71472, 71481); (71904, 71913); (72016, 72025);
   (72784, 72793); (73040, 73049); (73120, 73129); (92768, 92777);
   (92864, 92873); (93008, 93017); (120782, 120831); (123200, 123209);
   (123632, 123641); (125264, 125273); (130032, 130041)]%N.

(** The code points above the ASCII range of which [str.isprintable] does
    not hold. *)
Definition unprintable_ranges : list (N * N) :=
  [(128, 160); (173, 173); (888, 889); (896, 899); (907, 907); (909, 909);
   (930, 930); (1328, 1328); (1367, 1368); (1419, 1420); (1424, 1424);
   (1480, 1487); (1515, 1518); (1525, 1541); (1564, 1564); (1757, 1757);
   (1806, 1807); (1867, 1868); (1970, 1983); (2043, 2044); (2094, 2095);
   (2111, 2111); (2140, 2141); (2143, 2143); (2155, 2159); (2191, 2199);
   (2274, 2274); (2436, 2436); (2445, 2446); (2449, 2450); (2473, 2473);
   (2481, 2481); (2483, 2485); (2490, 2491); (2501, 2502); (2505, 2506);
   (2511, 2518); (2520, 2523); (2526, 2526); (2532, 2533); (2559, 2560);
   (2564, 2564); (2571, 2574); (2577, 2578); (2601, 2601); (2609, 2609);
   (2612, 2612); (2615, 2615); (2618, 2619); (2621, 2621); (2627, 2630);
   (2633, 2634); (2638, 2640); (2642, 2648); (2653, 2653); (2655, 2661);
   (2679, 2688); (2692, 2692); (2702, 2702); (2706, 2706); (2729, 2729);
   (2737, 2737); (2740, 2740); (2746, 2747); (2758, 2758); (2762, 2762);
   (2766, 2767); (2769, 2783); (2788, 2789); (2802, 2808); (2816, 2816);
   (2820, 2820); (2829, 2830); (2833, 2834); (2857, 2857); (2865, 2865);
   (2868, 2868); (2874, 2875); (2885, 2886); (2889, 2890); (2894, 2900);
   (2904, 2907); (2910, 2910); (2916, 2917); (2936, 2945); (2948, 2948);
   (2955, 2957); (2961, 2961); (2966, 2968); (2971, 2971); (2973, 2973);
   (2976, 2978); (2981, 2983); (2987, 2989); (3002, 3005); (3011, 3013);
   (3017, 3017); (3022, 3023); (3025, 3030); (3032, 3045); (3067, 3071);
   (3085, 3085); (3089, 3089); (3113, 3113); (3130, 3131); (3141, 3141);
   (3145, 3145); (3150, 3156); (3159, 3159); (3163, 3164); (3166, 3167);
   (3172, 3173); (3184, 3190); (3213, 3213); (3217, 3217); (3241, 3241);
   (3252, 3252); (3258, 3259); (3269, 3269); (3273, 3273); (3278, 3284);
   (3287, 3292); (3295, 3295); (3300, 3301); (3312, 3312); (3315, 3327);
   (3341, 3341); (3345, 3345); (3397, 3397); (3401, 3401); (3408, 3411);
   (3428, 3429); (3456, 3456); (3460, 3460); (3479, 3481); (3506, 3506);
   (3516, 3516); (3518, 3519); (3527, 3529); (3531, 3534); (3541, 3541);
   (3543, 3543); (3552, 3557); (3568, 3569); (3573, 3584); (3643, 3646);
   (3676, 3712); (3715, 3715); (3717, 3717); (3723, 3723); (3748, 3748);
   (3750, 3750); (3774, 3775); (3781, 3781); (3783, 3783); (3790, 3791);
   (3802, 3803); (3808, 3839); (3912, 3912); (3949, 3952); (3992, 3992);
   (4029, 4029); (4045, 4045); (4059, 4095); (4294, 4294); (4296, 4300);
   (4302, 4303); (4681, 4681); (4686, 4687); (4695, 4695); (4697, 4697);
   (4702, 4703); (4745, 4745); (4750, 4751); (4785, 4785); (4790, 4791);
   (4799, 4799); (4801, 4801); (4806, 4807); (4823, 4823); (4881, 4881);
   (4886, 4887); (4955, 4956); (4989, 4991); (5018, 5023); (5110, 5111);
   (5118, 5119); (5760, 5760); (5789, 5791); (5881, 5887); (5910, 5918);
   (5943, 5951); (5972, 5983); (5997, 5997); (6001, 6001); (6004, 6015);
   (6110, 6111); (6122, 6127); (6138, 6143); (6158, 6158); (6170, 6175);
   (6265, 6271); (6315, 6319); (6390, 6399); (6431, 6431); (6444, 6447);
   (6460, 6463); (6465, 6467); (6510, 6511); (6517, 6527); (6572, 6575);
   (6602, 6607); (6619, 6621); (6684, 6685); (6751, 6751); (6781, 6782);
   (6794, 6799); (6810, 6815); (6830, 6831); (6863, 6911); (6989, 6991);
   (7039, 7039); (7156, 7163); (7224, 7226); (7242, 7244); (7305, 7311);
   (7355, 7356); (7368, 7375); (7419, 7423); (7958, 7959); (7966, 7967);
   (8006, 8007); (8014, 8015); (8024, 8024); (8026, 8026); (8028, 8028);
   (8030, 8030); (8062, 8063); (8117, 8117); (8133, 8133); (8148, 8149);
   (8156, 8156); (8176, 8177); (8181, 8181); (8191, 8207); (8232, 8239);
   (8287, 8303); (8306, 8307); (8335, 8335); (8349, 8351); (8385, 8399);
   (8433, 8447); (8588, 8591); (9255, 9279); (9291, 9311); (11124, 11125);
   (11158, 11158); (11508, 11512); (11558, 11558); (11560, 11564);
   (11566, 11567); (11624, 11630); (11633, 11646); (11671, 11679);
   (11687, 11687); (11695, 11695); (11703, 11703); (11711, 11711);
   (11719, 11719); (11727, 11727); (11735, 11735); (11743, 11743);
   (11870, 11903); (11930, 11930); (12020, 12031); (12246, 12271);
   (12284, 12288); (12352, 12352); (12439, 12440); (12544, 12548);
   (12592, 12592); (12687, 12687); (12772, 12783); (12831, 12831);
   (42125, 42127); (42183, 42191); (42540, 42559); (42744, 42751);
   (42955, 42959); (42962, 42962); (42964, 42964); (42970, 42993);
   (43053, 43055); (43066, 43071); (43128, 43135); (43206, 43213);
   (43226, 43231); (43348, 43358); (43389, 43391); (43470, 43470);
   (43482, 43485); (43519, 43519); (43575, 43583); (43598, 43599);
   (43610, 43611); (43715, 43738); (43767, 43776); (43783, 43784);
   (43791, 43792); (43799, 43807); (43815, 43815); (43823, 43823);
   (43884, 43887); (44014, 44015); (44026, 44031); (55204, 55215);
   (55239, 55242); (55292, 63743); (64110, 64111); (64218, 64255);
   (64263, 64274); (64280, 64284); (64311, 64311); (64317, 64317);
   (64319, 64319); (64322, 64322); (64325, 64325); (64451, 64466);
   (64912, 64913); (64968, 64974); (64976, 65007); (65050, 65055);
   (65107, 65107); (65127, 65127); (65132, 65135); (65141, 65141);
   (65277, 65280); (65471, 65473); (65480, 65481); (65488, 65489);
   (65496, 65497); (65501, 65503); (65511, 65511); (65519, 65531);
   (65534, 65535); (65548, 65548); (65575, 65575); (65595, 65595);
   (65598, 65598); (65614, 65615); (65630, 65663); (65787, 65791);
   (65795, 65798); (65844, 65846); (65935, 65935); (65949, 65951);
   (65953, 65999); (66046, 66175); (66205, 66207); (66257, 66271);
   (66300, 66303); (66340, 66348); (66379, 66383); (66427, 66431);
   (66462, 66462); (66500, 66503); (66518, 66559); (66718, 66719);
   (66730, 66735); (66772, 66775); (66812, 66815); (66856, 66863);
   (66916, 66926); (66939, 66939); (66955, 66955); (66963, 66963);
   (66966, 66966); (66978, 66978); (66994, 66994); (67002, 67002);
   (67005, 67071); (67383, 67391); (67414, 67423); (67432, 67455);
   (67462, 67462); (67505, 67505); (67515, 67583); (67590, 67591);
   (67593, 67593); (67638, 67638); (67641, 67643); (67645, 67646);
   (67670, 67670); (67743, 67750); (67760, 67807); (67827, 67827);
   (67830, 67834); (67868, 67870); (67898, 67902); (67904, 67967);
   (68024, 68027); (68048, 68049); (68100, 68100); (68103, 68107);
   (68116, 68116); (68120, 68120); (68150, 68151); (68155, 68158);
   (68169, 68175); (68185, 68191); (68256, 68287); (68327, 68330);
   (68343, 68351); (68406, 68408); (68438, 68439); (68467, 68471);
   (68498, 68504); (68509, 68520); (68528, 68607); (68681, 68735);
   (68787, 68799); (68851, 68857); (68904, 68911); (68922, 69215);
   (69247, 69247); (69290, 69290); (69294, 69295); (69298, 69375);
   (69416, 69423); (69466, 69487); (69514, 69551); (69580, 69599);
   (69623, 69631); (69710, 69713); (69750, 69758); (69821, 69821);
   (69827, 69839); (69865, 69871); (69882, 69887); (69941, 69941);
   (69960, 69967); (70007, 70015); (70112, 70112); (70133, 70143);
   (70162, 70162); (70207, 70271); (70279, 70279); (70281, 70281);
   (70286, 70286); (70302, 70302); (70314, 70319); (70379, 70383);
   (70394, 70399); (70404, 70404); (70413, 70414); (70417, 70418);
   (70441, 70441); (70449, 70449); (70452, 70452); (70458, 70458);
   (70469, 70470); (70473, 70474); (70478, 70479); (70481, 70486);
   (70488, 70492); (70500, 70501); (70509, 70511); (70517, 70655);
   (70748, 70748); (70754, 70783); (70856, 70863); (70874, 71039);
   (71094, 71095); (71134, 71167); (71237, 71247); (71258, 71263);
   (71277, 71295); (71354, 71359); (71370, 71423); (71451, 71452);
   (71468, 71471); (71495, 71679); (71740, 71839); (71923, 71934);
   (71943, 71944); (71946, 71947); (71956, 71956); (71959, 71959);
   (71990, 71990); (71993, 71994); (72007, 72015); (72026, 72095);
   (72104, 72105); (72152, 72153); (72165, 72191); (72264, 72271);
   (72355, 72367); (72441, 72703); (72713, 72713); (72759, 72759);
   (72774, 72783); (72813, 72815); (72848, 72849); (72872, 72872);
   (72887, 72959); (72967, 72967); (72970, 72970); (73015, 73017);
   (73019, 73019); (73022, 73022); (73032, 73039); (73050, 73055);
   (73062, 73062); (73065, 73065); (73103, 73103); (73106, 73106);
   (73113, 73119); (73130, 73439); (73465, 73647); (73649, 73663);
   (73714, 73726); (74650, 74751); (74863, 74863); (74869, 74879);
   (75076, 77711); (77811, 77823); (78895, 82943); (83527, 92159);
   (92729, 92735); (92767, 92767); (92778, 92781); (92863, 92863);
   (92874, 92879); (92910, 92911); (92918, 92927); (92998, 93007);
   (93018, 93018); (93026, 93026); (93048, 93052); (93072, 93759);
   (93851, 93951); (94027, 94030); (94088, 94094); (94112, 94175);
   (94181, 94191); (94194, 94207); (100344, 100351); (101590, 101631);
   (101641, 110575); (110580, 110580); (110588, 110588); (110591, 110591);
   (110883, 110927); (110931, 110947); (110952, 110959); (111356, 113663);
   (113771, 113775); (113789, 113791); (113801, 113807); (113818, 113819);
   (113824, 118527); (118574, 118575); (118599, 118607); (118724, 118783);
   (119030, 119039); (119079, 119080); (119155, 119162); (119275, 119295);
   (119366, 119519); (119540, 119551); (119639, 119647); (119673, 119807);
   (119893, 119893); (119965, 119965); (119968, 119969); (119971, 119972);
   (119975, 119976); (119981, 119981); (119994, 119994); (119996, 119996);
   (120004, 120004); (120070, 120070); (120075, 120076); (120085, 120085);
   (120093, 120093); (120122, 120122); (120127, 120127); (120133, 120133);
   (120135, 120137); (120145, 120145); (120486, 120487); (120780, 120781);
   (121484, 121498); (121504, 121504); (121520, 122623); (122655, 122879);
   (122887, 122887); (122905, 122906); (122914, 122914); (122917, 122917);
   (122923, 123135); (123181, 123183); (123198, 123199); (123210, 123213);
   (123216, 123535); (123567, 123583); (123642, 123646); (123648, 124895);
   (124903, 124903); (124908, 124908); (124911, 124911); (124927, 124927);
   (125125, 125126); (125143, 125183); (125260, 125263); (125274, 125277);
   (125280, 126064); (126133, 126208); (126270, 126463); (126468, 126468);
   (126496, 126496); (126499, 126499); (126501, 126502); (126504, 126504);
   (126515, 126515); (126520, 126520); (126522, 126522); (126524, 126529);
   (126531, 126534); (126536, 126536); (126538, 126538); (126540, 126540);
   (126544, 126544); (126547, 126547); (126549, 126550); (126552, 126552);
   (126554, 126554); (126556, 126556); (126558, 126558); (126560, 126560);
   (126563, 126563); (126565, 126566); (126571, 126571); (126579, 126579);
   (126584, 126584); (126589, 126589); (126591, 126591); (126602, 126602);
   (126620, 126624); (126628, 126628); (126634, 126634); (126652, 126703);
   (126706, 126975); (127020, 127023); (127124, 127135); (127151, 127152);
   (127168, 127168); (127184, 127184); (127222, 127231); (127406, 127461);
   (127491, 127503); (127548, 127551); (127561, 127567); (127570, 127583);
   (127590, 127743); (128728, 128732); (128749, 128751); (128765, 128767);
   (128884, 128895); (128985, 128991); (129004, 129007); (129009, 129023);
   (129036, 129039); (129096, 129103); (129114, 129119); (129160, 129167);
   (129198, 129199); (129202, 129279); (129620, 129631); (129646, 129647);
   (129653, 129655); (129661, 129663); (129671, 129679); (129709, 129711);
   (129723, 129727); (129734, 129743); (129754, 129759); (129768, 129775);
   (129783, 129791); (129939, 129939); (129995, 130031); (130042, 131071);
   (173792, 173823); (177977, 177983); (178206, 178207); (183970, 183983);
   (191457, 194559); (195102, 196607); (201547, 917759); (918000, 1114111)]%N.

(** The lower-case mappings onto one code point: [c] with [lo <= c <= hi]
    and [(c - lo) mod step = 0] maps to [c + delta]. *)
Definition lower_runs : list (N * N * N * Z) :=
  [(65, 90, 1, (32)%Z); (192, 214, 1, (32)%Z); (216, 222, 1, (32)%Z);
   (256, 302, 2, (1)%Z); (306, 310, 2, (1)%Z); (313, 327, 2, (1)%Z);
   (330, 374, 2, (1)%Z); (376, 376, 1, (-121)%Z); (377, 381, 2, (1)%Z);
   (385, 385, 1, (210)%Z); (386, 388, 2, (1)%Z); (390, 390, 1, (206)%Z);
   (391, 391, 1, (1)%Z); (393, 394, 1, (205)%Z); (395, 395, 1, (1)%Z);
   (398, 398, 1, (79)%Z); (399, 399, 1, (202)%Z); (400, 400, 1, (203)%Z);
   (401, 401, 1, (1)%Z); (403, 403, 1, (205)%Z); (404, 404, 1, (207)%Z);
   (406, 406, 1, (211)%Z); (407, 407, 1, (209)%Z); (408, 408, 1, (1)%Z);
   (412, 412, 1, (211)%Z); (413, 413, 1, (213)%Z); (415, 415, 1, (214)%Z);
   (416, 420, 2, (1)%Z); (422, 422, 1, (218)%Z); (423, 423, 1, (1)%Z);
   (425, 425, 1, (218)%Z); (428, 428, 1, (1)%Z); (430, 430, 1, (218)%Z);
   (431, 431, 1, (1)%Z); (433, 434, 1, (217)%Z); (435, 437, 2, (1)%Z);
   (439, 439, 1, (219)%Z); (440, 440, 1, (1)%Z); (444, 444, 1, (1)%Z);
   (452, 452, 1, (2)%Z); (453, 453, 1, (1)%Z); (455, 455, 1, (2)%Z);
   (456, 456, 1, (1)%Z); (458, 458, 1, (2)%Z); (459, 475, 2, (1)%Z);
   (478, 494, 2, (1)%Z); (497, 497, 1, (2)%Z); (498, 500, 2, (1)%Z);
   (502, 502, 1, (-97)%Z); (503, 503, 1, (-56)%Z); (504, 542, 2, (1)%Z);
   (544, 544, 1, (-130)%Z); (546, 562, 2, (1)%Z); (570, 570, 1, (10795)%Z);
   (571, 571, 1, (1)%Z); (573, 573, 1, (-163)%Z); (574, 574, 1, (10792)%Z);
   (577, 577, 1, (1)%Z); (579, 579, 1, (-195)%Z); (580, 580, 1, (69)%Z);
   (581, 581, 1, (71)%Z); (582, 590, 2, (1)%Z); (880, 882, 2, (1)%Z);
   (886, 886, 1, (1)%Z); (895, 895, 1, (116)%Z); (902, 902, 1, (38)%Z);
   (904, 906, 1, (37)%Z); (908, 908, 1, (64)%Z); (910, 911, 1, (63)%Z);
   (913, 929, 1, (32)%Z); (932, 939, 1, (32)%Z); (975, 975, 1, (8)%Z);
   (984, 1006, 2, (1)%Z); (1012, 1012, 1, (-60)%Z); (1015, 1015, 1, (1)%Z);
   (1017, 1017, 1, (-7)%Z); (1018, 1018, 1, (1)%Z);
   (1021, 1023, 1, (-130)%Z); (1024, 1039, 1, (80)%Z);
   (1040, 1071, 1, (32)%Z); (1120, 1152, 2, (1)%Z); (1162, 1214, 2, (1)%Z);
   (1216, 1216, 1, (15)%Z); (1217, 1229, 2, (1)%Z); (1232, 1326, 2, (1)%Z);
   (1329, 1366, 1, (48)%Z); (4256, 4293, 1, (7264)%Z);
   (4295, 4295, 1, (7264)%Z); (4301, 4301, 1, (7264)%Z);
   (5024, 5103, 1, (38864)%Z); (5104, 5109, 1, (8)%Z);
   (7312, 7354, 1, (-3008)%Z); (7357, 7359, 1, (-3008)%Z);
   (7680, 7828, 2, (1)%Z); (7838, 7838, 1, (-7615)%Z);
   (7840, 7934, 2, (1)%Z); (7944, 7951, 1, (-8)%Z); (7960, 7965, 1, (-8)%Z);
   (7976, 7983, 1, (-8)%Z); (7992, 7999, 1, (-8)%Z);
   (8008, 8013, 1, (-8)%Z); (8025, 8031, 2, (-8)%Z);
   (8040, 8047, 1, (-8)%Z); (8072, 8079, 1, (-8)%Z);
   (8088, 8095, 1, (-8)%Z); (8104, 8111, 1, (-8)%Z);
   (8120, 8121, 1, (-8)%Z); (8122, 8123, 1, (-74)%Z);
   (8124, 8124, 1, (-9)%Z); (8136, 8139, 1, (-86)%Z);
   (8140, 8140, 1, (-9)%Z); (8152, 8153, 1, (-8)%Z);
   (8154, 8155, 1, (-100)%Z); (8168, 8169, 1, (-8)%Z);
   (8170, 8171, 1, (-112)%Z); (8172, 8172, 1, (-7)%Z);
   (8184, 8185, 1, (-128)%Z); (8186, 8187, 1, (-126)%Z);
   (8188, 8188, 1, (-9)%Z); (8486, 8486, 1, (-7517)%Z);
   (8490, 8490, 1, (-8383)%Z); (8491, 8491, 1, (-8262)%Z);
   (8498, 8498, 1, (28)%Z); (8544, 8559, 1, (16)%Z); (8579, 8579, 1, (1)%Z);
   (9398, 9423, 1, (26)%Z); (11264, 11311, 1, (48)%Z);
   (11360, 11360, 1, (1)%Z); (11362, 11362, 1, (-10743)%Z);
   (11363, 11363, 1, (-3814)%Z); (11364, 11364, 1, (-10727)%Z);
   (11367, 11371, 2, (1)%Z); (11373, 11373, 1, (-10780)%Z);
   (11374, 11374, 1, (-10749)%Z); (11375, 11375, 1, (-10783)%Z);
   (11376, 11376, 1, (-10782)%Z); (11378, 11378, 1, (1)%Z);
   (11381, 11381, 1, (1)%Z); (11390, 11391, 1, (-10815)%Z);
   (11392, 11490, 2, (1)%Z); (11499, 11501, 2, (1)%Z);
   (11506, 11506, 1, (1)%Z); (42560, 42604, 2, (1)%Z);
   (42624, 42650, 2, (1)%Z); (42786, 42798, 2, (1)%Z);
   (42802, 42862, 2, (1)%Z); (42873, 42875, 2, (1)%Z);
   (42877, 42877, 1, (-35332)%Z); (42878, 42886, 2, (1)%Z);
   (42891, 42891, 1, (1)%Z); (42893, 42893, 1, (-42280)%Z);
   (42896, 42898, 2, (1)%Z); (42902, 42920, 2, (1)%Z);
   (42922, 42922, 1, (-42308)%Z); (42923, 42923, 1, (-42319)%Z);
   (42924, 42924, 1, (-42315)%Z); (42925, 42925, 1, (-42305)%Z);
   (42926, 42926, 1, (-42308)%Z); (42928, 42928, 1, (-42258)%Z);
   (42929, 42929, 1, (-42282)%Z); (42930, 42930, 1, (-42261)%Z);
   (42931, 42931, 1, (928)%Z); (42932, 42946, 2, (1)%Z);
   (42948, 42948, 1, (-48)%Z); (42949, 42949, 1, (-42307)%Z);
   (42950, 42950, 1, (-35384)%Z); (42951, 42953, 2, (1)%Z);
   (42960, 42960, 1, (1)%Z); (42966, 42968, 2, (1)%Z);
   (42997, 42997, 1, (1)%Z); (65313, 65338, 1, (32)%Z);
   (66560, 66599, 1, (40)%Z); (66736, 66771, 1, (40)%Z);
   (66928, 66938, 1, (39)%Z); (66940, 66954, 1, (39)%Z);
   (66956, 66962, 1, (39)%Z); (66964, 66965, 1, (39)%Z);
   (68736, 68786, 1, (64)%Z); (71840, 71871, 1, (32)%Z);
   (93760, 93791, 1, (32)%Z); (125184, 125217, 1, (34)%Z)]%N.

(** The cased code points that are not case-ignorable. *)
Definition cased_ranges : list (N * N) :=
  [(65, 90); (97, 122); (170, 170); (181, 181); (186, 186); (192, 214);
   (216, 246); (248, 442); (444, 447); (452, 659); (661, 687); (880, 883);
   (886, 887); (891, 893); (895, 895); (902, 902); (904, 906); (908, 908);
   (910, 929); (931, 1013); (1015, 1153); (1162, 1327); (1329, 1366);
   (1376, 1416); (4256, 4293); (4295, 4295); (4301, 4301); (4304, 4346);
   (4349, 4351); (5024, 5109); (5112, 5117); (7296, 7304); (7312, 7354);
   (7357, 7359); (7424, 7467); (7531, 7543); (7545, 7578); (7680, 7957);
   (7960, 7965); (7968, 8005); (8008, 8013); (8016, 8023); (8025, 8025);
   (8027, 8027); (8029, 8029); (8031, 8061); (8064, 8116); (8118, 8124);
   (8126, 8126); (8130, 8132); (8134, 8140); (8144, 8147); (8150, 8155);
   (8160, 8172); (8178, 8180); (8182, 8188); (8450, 8450); (8455, 8455);
   (8458, 8467); (8469, 8469); (8473, 8477); (8484, 8484); (8486, 8486);
   (8488, 8488); (8490, 8493); (8495, 8500); (8505, 8505); (8508, 8511);
   (8517, 8521); (8526, 8526); (8544, 8575); (8579, 8580); (9398, 9449);
   (11264, 11387); (11390, 11492); (11499, 11502); (11506, 11507);
   (11520, 11557); (11559, 11559); (11565, 11565); (42560, 42605);
   (42624, 42651); (42786, 42863); (42865, 42887); (42891, 42894);
   (42896, 42954); (42960, 42961); (42963, 42963); (42965, 42969);
   (42997, 42998); (43002, 43002); (43824, 43866); (43872, 43880);
   (43888, 43967); (64256, 64262); (64275, 64279); (65313, 65338);
   (65345, 65370); (66560, 66639); (66736, 66771); (66776, 66811);
   (66928, 66938); (66940, 66954); (66956, 66962); (66964, 66965);
   (66967, 66977); (66979, 66993); (66995, 67001); (67003, 67004);
   (68736, 68786); (68800, 68850); (71840, 71903); (93760, 93823);
   (119808, 119892); (119894, 119964); (119966, 119967); (119970, 119970);
   (119973, 119974); (119977, 119980); (119982, 119993); (119995, 119995);
   (119997, 120003); (120005, 120069); (120071, 120074); (120077, 120084);
   (120086, 120092); (120094, 120121); (120123, 120126); (120128, 120132);
   (120134, 120134); (120138, 120144); (120146, 120485); (120488, 120512);
   (120514, 120538); (120540, 120570); (120572, 120596); (120598, 120628);
   (120630, 120654); (120656, 120686); (120688, 120712); (120714, 120744);
   (120746, 120770); (120772, 120779); (122624, 122633); (122635, 122654);
   (125184, 125251); (127280, 127305); (127312, 127337); (127344, 127369)]%N.

(** The case-ignorable code points. *)
Definition case_ignorable_ranges : list (N * N) :=
  [(39, 39); (46, 46); (58, 58); (94, 94); (96, 96); (168, 168); (173, 173);
   (175, 175); (180, 180); (183, 184); (688, 879); (884, 885); (890, 890);
   (900, 901); (903, 903); (1155, 1161); (1369, 1369); (1375, 1375);
   (1425, 1469); (1471, 1471); (1473, 1474); (1476, 1477); (1479, 1479);
   (1524, 1524); (1536, 1541); (1552, 1562); (1564, 1564); (1600, 1600);
   (1611, 1631); (1648, 1648); (1750, 1757); (1759, 1768); (1770, 1773);
   (1807, 1807); (1809, 1809); (1840, 1866); (1958, 1968); (2027, 2037);
   (2042, 2042); (2045, 2045); (2070, 2093); (2137, 2139); (2184, 2184);
   (2192, 2193); (2200, 2207); (2249, 2306); (2362, 2362); (2364, 2364);
   (2369, 2376); (2381, 2381); (2385, 2391); (2402, 2403); (2417, 2417);
   (2433, 2433); (2492, 2492); (2497, 2500); (2509, 2509); (2530, 2531);
   (2558, 2558); (2561, 2562); (2620, 2620); (2625, 2626); (2631, 2632);
   (2635, 2637); (2641, 2641); (2672, 2673); (2677, 2677); (2689, 2690);
   (2748, 2748); (2753, 2757); (2759, 2760); (2765, 2765); (2786, 2787);
   (2810, 2815); (2817, 2817); (2876, 2876); (2879, 2879); (2881, 2884);
   (2893, 2893); (2901, 2902); (2914, 2915); (2946, 2946); (3008, 3008);
   (3021, 3021); (3072, 3072); (3076, 3076); (3132, 3132); (3134, 3136);
   (3142, 3144); (3146, 3149); (3157, 3158); (3170, 3171); (3201, 3201);
   (3260, 3260); (3263, 3263); (3270, 3270); (3276, 3277); (3298, 3299);
   (3328, 3329); (3387, 3388); (3393, 3396); (3405, 3405); (3426, 3427);
   (3457, 3457); (3530, 3530); (3538, 3540); (3542, 3542); (3633, 3633);
   (3636, 3642); (3654, 3662); (3761, 3761); (3764, 3772); (3782, 3782);
   (3784, 3789); (3864, 3865); (3893, 3893); (3895, 3895); (3897, 3897);
   (3953, 3966); (3968, 3972); (3974, 3975); (3981, 3991); (3993, 4028);
   (4038, 4038); (4141, 4144); (4146, 4151); (4153, 4154); (4157, 4158);
   (4184, 4185); (4190, 4192); (4209, 4212); (4226, 4226); (4229, 4230);
   (4237, 4237); (4253, 4253); (4348, 4348); (4957, 4959); (5906, 5908);
   (5938, 5939); (5970, 5971); (6002, 6003); (6068, 6069); (6071, 6077);
   (6086, 6086); (6089, 6099); (6103, 6103); (6109, 6109); (6155, 6159);
   (6211, 6211); (6277, 6278); (6313, 6313); (6432, 6434); (6439, 6440);
   (6450, 6450); (6457, 6459); (6679, 6680); (6683, 6683); (6742, 6742);
   (6744, 6750); (6752, 6752); (6754, 6754); (6757, 6764); (6771, 6780);
   (6783, 6783); (6823, 6823); (6832, 6862); (6912, 6915); (6964, 6964);
   (6966, 6970); (6972, 6972); (6978, 6978); (7019, 7027); (7040, 7041);
   (7074, 7077); (7080, 7081); (7083, 7085); (7142, 7142); (7144, 7145);
   (7149, 7149); (7151, 7153); (7212, 7219); (7222, 7223); (7288, 7293);
   (7376, 7378); (7380, 7392); (7394, 7400); (7405, 7405); (7412, 7412);
   (7416, 7417); (7468, 7530); (7544, 7544); (7579, 7679); (8125, 8125);
   (8127, 8129); (8141, 8143); (8157, 8159); (8173, 8175); (8189, 8190);
   (8203, 8207); (8216, 8217); (8228, 8228); (8231, 8231); (8234, 8238);
   (8288, 8292); (8294, 8303); (8305, 8305); (8319, 8319); (8336, 8348);
   (8400, 8432); (11388, 11389); (11503, 11505); (11631, 11631);
   (11647, 11647); (11744, 11775); (11823, 11823); (12293, 12293);
   (12330, 12333); (12337, 12341); (12347, 12347); (12441, 12446);
   (12540, 12542); (40981, 40981); (42232, 42237); (42508, 42508);
   (42607, 42610); (42612, 42621); (42623, 42623); (42652, 42655);
   (42736, 42737); (42752, 42785); (42864, 42864); (42888, 42890);
   (42994, 42996); (43000, 43001); (43010, 43010); (43014, 43014);
   (43019, 43019); (43045, 43046); (43052, 43052); (43204, 43205);
   (43232, 43249); (43263, 43263); (43302, 43309); (43335, 43345);
   (43392, 43394); (43443, 43443); (43446, 43449); (43452, 43453);
   (43471, 43471); (43493, 43494); (43561, 43566); (43569, 43570);
   (43573, 43574); (43587, 43587); (43596, 43596); (43632, 43632);
   (43644, 43644); (43696, 43696); (43698, 43700); (43703, 43704);
   (43710, 43711); (43713, 43713); (43741, 43741); (43756, 43757);
   (43763, 43764); (43766, 43766); (43867, 43871); (43881, 43883);
   (44005, 44005); (44008, 44008); (44013, 44013); (64286, 64286);
   (64434, 64450); (65024, 65039); (65043, 65043); (65056, 65071);
   (65106, 65106); (65109, 65109); (65279, 65279); (65287, 65287);
   (65294, 65294); (65306, 65306); (65342, 65342); (65344, 65344);
   (65392, 65392); (65438, 65439); (65507, 65507); (65529, 65531);
   (66045, 66045); (66272, 66272); (66422, 66426); (67456, 67461);
   (67463, 67504); (67506, 67514); (68097, 68099); (68101, 68102);
   (68108, 68111); (68152, 68154); (68159, 68159); (68325, 68326);
   (68900, 68903); (69291, 69292); (69446, 69456); (69506, 69509);
   (69633, 69633); (69688, 69702); (69744, 69744); (69747, 69748);
   (69759, 69761); (69811, 69814); (69817, 69818); (69821, 69821);
   (69826, 69826); (69837, 69837); (69888, 69890); (69927, 69931);
   (69933, 69940); (70003, 70003); (70016, 70017); (70070, 70078);
   (70089, 70092); (70095, 70095); (70191, 70193); (70196, 70196);
   (70198, 70199); (70206, 70206); (70367, 70367); (70371, 70378);
   (70400, 70401); (70459, 70460); (70464, 70464); (70502, 70508);
   (70512, 70516); (70712, 70719); (70722, 70724); (70726, 70726);
   (70750, 70750); (70835, 70840); (70842, 70842); (70847, 70848);
   (70850, 70851); (71090, 71093); (71100, 71101); (71103, 71104);
   (71132, 71133); (71219, 71226); (71229, 71229); (71231, 71232);
   (71339, 71339); (71341, 71341); (71344, 71349); (71351, 71351);
   (71453, 71455); (71458, 71461); (71463, 71467); (71727, 71735);
   (71737, 71738); (71995, 71996); (71998, 71998); (72003, 72003);
   (72148, 72151); (72154, 72155); (72160, 72160); (72193, 72202);
   (72243, 72248); (72251, 72254); (72263, 72263); (72273, 72278);
   (72281, 72283); (72330, 72342); (72344, 72345); (72752, 72758);
   (72760, 72765); (72767, 72767); (72850, 72871); (72874, 72880);
   (72882, 72883); (72885, 72886); (73009, 73014); (73018, 73018);
   (73020, 73021); (73023, 73029); (73031, 73031); (73104, 73105);
   (73109, 73109); (73111, 73111); (73459, 73460); (78896, 78904);
   (92912, 92916); (92976, 92982); (92992, 92995); (94031, 94031);
   (94095, 94111); (94176, 94177); (94179, 94180); (110576, 110579);
   (110581, 110587); (110589, 110590); (113821, 113822); (113824, 113827);
   (118528, 118573); (118576, 118598); (119143, 119145); (119155, 119170);
   (119173, 119179); (119210, 119213); (119362, 119364); (121344, 121398);
   (121403, 121452); (121461, 121461); (121476, 121476); (121499, 121503);
   (121505, 121519); (122880, 122886); (122888, 122904); (122907, 122913);
   (122915, 122916); (122918, 122922); (123184, 123197); (123566, 123566);
   (123628, 123631); (125136, 125142); (125252, 125259); (127995, 127999);
   (917505, 917505); (917536, 917631); (917760, 917999)]%N.

Definition isspace (c : N) : bool := in_ranges space_ranges c.

Definition isdigit (c : N) : bool := in_ranges digit_ranges c.

(** The value of a decimal digit above the ASCII range. *)
Definition decimal (c : N) : option N :=
  match List.find (in_range c) decimal_ranges with
  | Some r => Some ((c - fst r) mod 10)%N
  | None => None
  end.

Definition isprintable (c : N) : bool :=
  if (c <? 128)%N then ((32 <=? c) && (c <? 127))%N
  else negb (in_ranges unprintable_ranges c).

Definition in_run (c : N) (r : N * N * N * Z) : bool :=
  let '(lo, hi, step, _) := r in
  ((lo <=? c) && (c <=? hi) && ((c - lo) mod step =? 0))%N.

(** The lower-case form of one code point out of context.  U+0130 is the
    one code point whose form has two. *)
Definition tolower (c : N) : list N :=
  if (c =? 304)%N then [105; 775]%N
  else
    match List.find (in_run c) lower_runs with
    | Some (_, _, _, delta) => [Z.to_N (Z.of_N c + delta)]
    | None => [c]
    end.

Definition case_ignorable (c : N) : bool := in_ranges case_ignorable_ranges c.

(** Looked at only for code points that are not case-ignorable. *)
Definition cased (c : N) : bool := in_ranges cased_ranges c.

End Unicode.

(** ** Text: the methods of [str] *)

Fixpoint lstrip_points (l : list N) : list N :=
  match l with
  | [] => []
  | c :: l' => if Unicode.isspace c then lstrip_points l' else l
  end.

Fixpoint rstrip_points (l : list N) : list N :=
  match l with
  | [] => []
  | c :: l' =>
      match rstrip_points l' with
      | [] => if Unicode.isspace c then [] else [c]
      | t => c :: t
      end
  end.

(** [s.strip()] *)
Definition strip (s : string) : string :=
  utf8_encode (rstrip_points (lstrip_points (code_points s))).

(** [s.isdigit()] *)
Definition isdigit (s : string) : bool :=
  match code_points s with
  | [] => false
  | l => forallb Unicode.isdigit l
  end.

(** The first code point of [l] that is not case-ignorable, if it is
    cased. *)
Fixpoint meets_cased (l : list N) : bool :=
  match l with
  | [] => false
  | c :: l' => if Unicode.case_ignorable c then meets_cased l' else Unicode.cased c
  end.

(** The capital sigma U+03A3 becomes the final sigma U+03C2 when a cased
    letter stands before it and none after it, case-ignorable code points
    aside; [before] holds the code points before it, the nearest first. *)
Definition lower_sigma (before after : list N) : N :=
  if meets_cased before && negb (meets_cased after) then 962%N else 963%N.

Fixpoint lower_points (before l : list N) : list N :=
  match l with
  | [] => []
  | c :: l' =>
      (if (c =? 931)%N then [lower_sigma before l'] else Unicode.tolower c)
      ++ lower_points (c :: before) l'
  end.

(** [s.lower()] *)
Definition lower (s : string) : string :=
  utf8_encode (lower_points [] (code_points s)).

(** [str(n)] for an [int]. *)
Definition str_of_int (n : Z) : string := NilZero.string_of_int (Z.to_int n).

Definition hex_digit (n : N) : ascii :=
  ascii_of_N (if (n <? 10)%N then 48 + n else 87 + n)%N.

(** [n] in hexadecimal on [width] digits. *)
Fixpoint hex (width : nat) (n : N) : string :=
  match width with
  | O => ""
  | Datatypes.S w =>
      String.append (hex w (n / 16)%N) (String (hex_digit (n mod 16)%N) "")
  end.

Definition backslash : ascii := ascii_of_N 92.

(** One character of [repr(s)] between the quotes. *)
Definition repr_point (quote c : N) : string :=
  if ((c =? quote) || (c =? 92))%N then String backslash (utf8_encode_cp c)
  else if (c =? 9)%N then String backslash "t"
  else if (c =? 10)%N then String backslash "n"
  else if (c =? 13)%N then String backslash "r"
  else if Unicode.isprintable c then utf8_encode_cp c
  else if (c <? 256)%N then String backslash (String "x" (hex 2 c))
  else if (c <? 65536)%N then String backslash (String "u" (hex 4 c))
  else String backslash (String "U" (hex 8 c)).

(** [repr(s)]: in double quotes when [s] has a single quote and no double
    quote, in single quotes otherwise. *)
Definition repr (s : string) : string :=
  let l := code_points s in
  let quote :=
    if existsb (N.eqb 39) l && negb (existsb (N.eqb 34) l) then 34%N
    else 39%N in
  String.append (utf8_encode_cp quote)
    (String.append (String.concat "" (List.map (repr_point quote) l))
       (utf8_encode_cp quote)).

(** ** Computations with state and exceptions *)

(** [M S A]: a computation over a state [S] that returns an [A] or raises. *)
Definition M (S A : Type) : Type := S -> result A * S.

Definition ret {S A} (a : A) : M S A := fun s => (Ok a, s).

Definition raise {S A} (e : exn) : M S A := fun s => (Raise e, s).

Definition bind {S A B} (m : M S A) (k : A -> M S B) : M S B :=
  fun s =>
    match m s with
    | (Ok a, s') => k a s'
    | (Raise e, s') => (Raise e, s')
    end.

(** [try: m except Exception as e: h e] *)
Definition try_except {S A} (m : M S A) (h : exn -> M S A) : M S A :=
  fun s =>
    match m s with
    | (Ok a, s') => (Ok a, s')
    | (Raise e, s') => h e s'
    end.

Declare Scope py_scope.
Delimit Scope py_scope with py.
Notation "x <- m ;; k" := (bind m (fun x => k))
  (at level 100, m at next level, right associativity) : py_scope.
Notation "m ;;; k" := (bind m (fun _ => k))
  (at level 100, right associativity) : py_scope.

(** Bind of the exception monad without state. *)
Definition rbind {A B} (r : result A) (k : A -> result B) : result B :=
  match r with
  | Ok a => k a
  | Raise e => Raise e
  end.
Notation "x <~ r ;; k" := (rbind r (fun x => k))
  (at level 100, r at next level, right associativity) : py_scope.

Definition lift {S A} (r : result A) : M S A := fun s => (r, s).

(** ** The retry decorator *)

(** The test of line 26 on [str(e).lower()]. *)
Definition is_connection_error (e : exn) : bool :=
  let error_msg := lower (exn_msg e) in
  contains "connection" error_msg
  || contains "broken pipe" error_msg
  || contains "10053" error_msg.

(** [raise last_error] with [last_error = None]. *)
Definition raise_None : exn :=
  Exn "TypeError" "exceptions must derive from BaseException".

Section Retry.
Context {S T : Type}.

(** [self._refresh_table], when [self] has the attribute. *)
Variable refresh_table : option (M S unit).
(** The decorated method applied to its arguments. *)
Variable func : M S T.

Definition attempt_once : M S T :=
  (match refresh_table with
   | Some refresh => refresh
   | None => ret tt
   end ;;; func)%py.

(** The [for attempt in range(max_retries)] loop; [todo] counts the
    iterations left, [attempt] is the loop variable. *)
Fixpoint retry_loop (max_retries : Z) (todo : nat) (attempt : Z)
    (last_error : option exn) : M S T :=
  match todo with
  | O =>
      match last_error with
      | Some e => raise e
      | None => raise raise_None
      end
  | Datatypes.S todo' =>
      try_except attempt_once (fun e =>
        if is_connection_error e && (attempt <? max_retries - 1)
        then retry_loop max_retries todo' (attempt + 1) (Some e)
        else raise e)
  end.

Definition retry_on_connection_error (max_retries : Z) : M S T :=
  retry_loop max_retries (Z.to_nat max_retries) 0 None.

End Retry.

(** Instrumentation: a computation that records each of its calls in a log
    kept next to the state. *)
Inductive event : Type := Reacquire | Attempt.

Definition event_eqb (a b : event) : bool :=
  match a, b with
  | Reacquire, Reacquire | Attempt, Attempt => true
  | _, _ => false
  end.

Definition logged {S A} (ev : event) (m : M S A) : M (list event * S) A :=
  fun '(log, s) =>
    let '(r, s') := m s in (r, (log ++ [ev], s')).

Definition count_event (ev : event) (log : list event) : nat :=
  length (List.filter (event_eqb ev) log).

(** ** Bytes and text *)

Definition byte_in (lo hi : N) (c : ascii) : bool :=
  ((lo <=? N_of_ascii c) && (N_of_ascii c <=? hi))%N.

(** Well-formed UTF-8: no overlong forms, no surrogates, nothing above
    U+10FFFF. *)
Fixpoint utf8_valid (b : string) : bool :=
  match b with
  | EmptyString => true
  | String c0 b1 =>
      if byte_in 0 127 c0 then utf8_valid b1
      else if byte_in 194 223 c0 then
        match b1 with
        | String c1 b2 => byte_in 128 191 c1 && utf8_valid b2
        | _ => false
        end
      else if byte_in 224 239 c0 then
        match b1 with
        | String c1 (String c2 b3) =>
            (if byte_in 224 224 c0 then byte_in 160 191 c1
             else if byte_in 237 237 c0 then byte_in 128 159 c1
             else byte_in 128 191 c1)
            && byte_in 128 191 c2 && utf8_valid b3
        | _ => false
        end
      else if byte_in 240 244 c0 then
        match b1 with
        | String c1 (String c2 (String c3 b4)) =>
            (if byte_in 240 240 c0 then byte_in 144 191 c1
             else if byte_in 244 244 c0 then byte_in 128 143 c1
             else byte_in 128 191 c1)
            && byte_in 128 191 c2 && byte_in 128 191 c3 && utf8_valid b4
        | _ => false
        end
      else false
  end.

(** What the decoder reports about bytes that are not UTF-8: the bytes
    from [fault_start] to [fault_end] (exclusive) and a reason. *)
Record utf8_fault : Type := Utf8Fault {
  fault_byte : ascii;
  fault_start : N;
  fault_end : N;
  fault_reason : string
}.

(** The second byte of a sequence of three, and of four, that [lead]
    starts may be [c]. *)
Definition second_of_three (lead c : ascii) : bool :=
  if byte_in 224 224 lead then byte_in 160 191 c
  else if byte_in 237 237 lead then byte_in 128 159 c
  else byte_in 128 191 c.

Definition second_of_four (lead c : ascii) : bool :=
  if byte_in 240 240 lead then byte_in 144 191 c
  else if byte_in 244 244 lead then byte_in 128 143 c
  else byte_in 128 191 c.

(** A fault in the sequence that the byte [c] starts at the offset [pos],
    [n] bytes long. *)
Definition fault (c : ascii) (pos n : N) (reason : string) : option utf8_fault :=
  Some (Utf8Fault c pos (pos + n) reason).

Definition invalid_start : string := "invalid start byte".
Definition invalid_continuation : string := "invalid continuation byte".
Definition cut_short : string := "unexpected end of data".

(** The first fault of [b], whose first byte is at the offset [pos]. *)
Fixpoint first_fault (b : string) (pos : N) : option utf8_fault :=
  match b with
  | EmptyString => None
  | String c0 b1 =>
      if byte_in 0 127 c0 then first_fault b1 (pos + 1)
      else if byte_in 194 223 c0 then
        match b1 with
        | EmptyString => fault c0 pos 1 cut_short
        | String c1 b2 =>
            if byte_in 128 191 c1 then first_fault b2 (pos + 2)
            else fault c0 pos 1 invalid_continuation
        end
      else if byte_in 224 239 c0 then
        match b1 with
        | EmptyString => fault c0 pos 1 cut_short
        | String c1 b2 =>
            if negb (second_of_three c0 c1)
            then fault c0 pos 1 invalid_continuation
            else
              match b2 with
              | EmptyString => fault c0 pos 2 cut_short
              | String c2 b3 =>
                  if byte_in 128 191 c2 then first_fault b3 (pos + 3)
                  else fault c0 pos 2 invalid_continuation
              end
        end
      else if byte_in 240 244 c0 then
        match b1 with
        | EmptyString => fault c0 pos 1 cut_short
        | String c1 b2 =>
            if negb (second_of_four c0 c1)
            then fault c0 pos 1 invalid_continuation
            else
              match b2 with
              | EmptyString => fault c0 pos 2 cut_short
              | String c2 b3 =>
                  if negb (byte_in 128 191 c2)
                  then fault c0 pos 2 invalid_continuation
                  else
                    match b3 with
                    | EmptyString => fault c0 pos 3 cut_short
                    | String c3 b4 =>
                        if byte_in 128 191 c3 then first_fault b4 (pos + 4)
                        else fault c0 pos 3 invalid_continuation
                    end
              end
        end
      else fault c0 pos 1 invalid_start
  end.

(** [str(e)] for the [UnicodeDecodeError] of a fault. *)
Definition fault_message (f : utf8_fault) : string :=
  if (fault_end f =? fault_start f + 1)%N then
    String.concat ""
      ["'utf-8' codec can't decode byte 0x"; hex 2 (N_of_ascii (fault_byte f));
       " in position "; str_of_int (Z.of_N (fault_start f)); ": ";
       fault_reason f]
  else
    String.concat ""
      ["'utf-8' codec can't decode bytes in position ";
       str_of_int (Z.of_N (fault_start f)); "-";
       str_of_int (Z.of_N (fault_end f - 1)); ": "; fault_reason f].

(** [b.decode('utf-8')] *)
Definition decode_utf8 (b : string) : result string :=
  match first_fault b 0 with
  | None => Ok b
  | Some f => Raise (Exn "UnicodeDecodeError" (fault_message f))
  end.

(** [s.split(sep)] for a separator of one character. *)
Fixpoint split (sep : ascii) (s : string) : list string :=
  match s with
  | EmptyString => [EmptyString]
  | String c s' =>
      if Ascii.eqb c sep then EmptyString :: split sep s'
      else
        match split sep s' with
        | p :: ps => String c p :: ps
        | [] => [String c EmptyString]
        end
  end.

(** ** Floats *)

(** A [float] is a binary64 number; sums and quotients are rounded to the
    nearest, ties to even. *)
Definition float : Type := spec_float.

Definition float_add (x y : float) : float := SFadd 53 1024 x y.

(** [x / y] *)
Definition float_div (x y : float) : result float :=
  match y with
  | S754_zero _ => Raise (Exn "ZeroDivisionError" "float division by zero")
  | _ => Ok (SFdiv 53 1024 x y)
  end.

(** The float nearest to an [int] of at most 1024 bits, as is the length
    of a list. *)
Definition float_of_int (n : Z) : float := binary_normalize 53 1024 n 0 false.

(** The number that a finite float stands for. *)
Definition float_rational (x : float) : Q :=
  match x with
  | S754_finite s m e =>
      match e with
      | Zneg p => Qmake (cond_Zopp s (Zpos m)) (2 ^ p)
      | _ => inject_Z (cond_Zopp s (Zpos m) * 2 ^ e)
      end
  | _ => 0
  end.

(** [x >= n] for a float and an [int], which Python compares exactly. *)
Definition float_geb_int (x : float) (n : Z) : bool :=
  match x with
  | S754_nan => false
  | S754_infinity s => negb s
  | _ => Qle_bool (inject_Z n) (float_rational x)
  end.

(** [int(x)]: rounds toward zero. *)
Definition int_of_float (x : float) : result Z :=
  match x with
  | S754_nan => Raise (Exn "ValueError" "cannot convert float NaN to integer")
  | S754_infinity _ =>
      Raise (Exn "OverflowError" "cannot convert float infinity to integer")
  | _ => Ok (Z.quot (Qnum (float_rational x)) (Zpos (Qden (float_rational x))))
  end.

(** *** Reading a float *)

Definition is_ascii_digit (c : N) : bool := ((48 <=? c) && (c <=? 57))%N.

(** The blanks of the C locale. *)
Definition is_c_space (c : N) : bool := ((9 <=? c) && (c <=? 13) || (c =? 32))%N.

(** In a text outside the ASCII range, [float] reads every blank as a
    space and every decimal digit as its ASCII digit, and cuts the text at
    the first other code point above 126, which it replaces with "?". *)
Fixpoint to_ascii_digits (l : list N) : list N :=
  match l with
  | [] => []
  | c :: l' =>
      if (c <? 127)%N then c :: to_ascii_digits l'
      else if Unicode.isspace c then 32%N :: to_ascii_digits l'
      else
        match Unicode.decimal c with
        | Some d => (48 + d)%N :: to_ascii_digits l'
        | None => [63%N]
        end
  end.

Definition float_text (s : string) : list N :=
  let l := code_points s in
  if forallb (fun c => (c <? 128)%N) l then l else to_ascii_digits l.

(** Underscores may stand between two digits and nowhere else; [prev] is
    the character before [l]. *)
Fixpoint drop_underscores (prev : N) (l : list N) : option (list N) :=
  match l with
  | [] => if (prev =? 95)%N then None else Some []
  | c :: l' =>
      if (c =? 95)%N then
        if is_ascii_digit prev then drop_underscores c l' else None
      else if (prev =? 95)%N && negb (is_ascii_digit c) then None
      else option_map (cons c) (drop_underscores c l')
  end.

Fixpoint lstrip_c (l : list N) : list N :=
  match l with
  | c :: l' => if is_c_space c then lstrip_c l' else l
  | [] => []
  end.

Fixpoint rstrip_c (l : list N) : list N :=
  match l with
  | [] => []
  | c :: l' =>
      match rstrip_c l' with
      | [] => if is_c_space c then [] else [c]
      | t => c :: t
      end
  end.

(** The leading digits of [l] and the rest. *)
Fixpoint read_digits (l : list N) : list N * list N :=
  match l with
  | c :: l' =>
      if is_ascii_digit c
      then let '(ds, rest) := read_digits l' in (c :: ds, rest)
      else ([], l)
  | [] => ([], [])
  end.

Definition read_sign (l : list N) : bool * list N :=
  match l with
  | 45%N :: l' => (true, l')
  | 43%N :: l' => (false, l')
  | _ => (false, l)
  end.

(** The number that a sequence of digits writes. *)
Definition digits_value (ds : list N) : Z :=
  fold_left (fun acc d => 10 * acc + (Z.of_N d - 48)) ds 0.

Fixpoint drop_zeros (ds : list N) : list N :=
  match ds with
  | 48%N :: ds' => drop_zeros ds'
  | _ => ds
  end.

(** The float nearest to [digits * 10 ^ e10], ties to even; [digits] has
    no leading zero.  A number of 310 or more digits before the point is
    beyond the largest float, one with 330 or more zeros after the point
    is below half of the smallest. *)
Definition float_of_decimal (neg : bool) (digits : list N) (e10 : Z) : float :=
  let m := digits_value digits in
  let magnitude := e10 + Z.of_nat (length digits) in
  if m =? 0 then S754_zero neg
  else if 310 <? magnitude then S754_infinity neg
  else if magnitude <? -330 then S754_zero neg
  else if 0 <=? e10 then
    binary_normalize 53 1024 (cond_Zopp neg (m * 10 ^ e10)) 0 false
  else
    SFdiv 53 1024 (S754_finite neg (Z.to_pos m) 0)
      (S754_finite false (Z.to_pos (10 ^ (- e10))) 0).

(** An exponent: "e" or "E", an optional sign and at least one digit;
    anything less is left unread. *)
Definition read_exponent (l : list N) : Z * list N :=
  match l with
  | c :: l1 =>
      if ((c =? 101) || (c =? 69))%N then
        let '(neg, l2) := read_sign l1 in
        match read_digits l2 with
        | ([], _) => (0, l)
        | (ds, rest) => (cond_Zopp neg (digits_value ds), rest)
        end
      else (0, l)
  | [] => (0, [])
  end.

(** A decimal number at the head of [l]: an optional sign, digits with an
    optional point among them, an optional exponent.  At least one digit
    is required, and at most 10^9 of them are read. *)
Definition read_number (l : list N) : option (float * list N) :=
  let '(neg, l1) := read_sign l in
  let '(int_digits, l2) := read_digits l1 in
  let '(frac_digits, l3) :=
    match l2 with
    | 46%N :: l2' => read_digits l2'
    | _ => ([], l2)
    end in
  let digits := drop_zeros (int_digits ++ frac_digits) in
  if (length int_digits + length frac_digits =? 0)%nat then None
  else if (10 ^ 9 <? Z.of_nat (length digits))
          || (10 ^ 9 <? Z.of_nat (length frac_digits)) then None
  else
    let '(e, l4) := read_exponent l3 in
    Some (float_of_decimal neg digits (e - Z.of_nat (length frac_digits)), l4).

Definition ascii_lower (c : N) : N :=
  if ((65 <=? c) && (c <=? 90))%N then (c + 32)%N else c.

(** [l] without the leading [word], which is matched without regard to
    case. *)
Fixpoint skip_word (word l : list N) : option (list N) :=
  match word, l with
  | [], _ => Some l
  | w :: word', c :: l' =>
      if (ascii_lower c =? w)%N then skip_word word' l' else None
  | _ :: _, [] => None
  end.

(** "inf", "infinity" or "nan" after an optional sign. *)
Definition read_inf_nan (l : list N) : option (float * list N) :=
  let '(neg, l1) := read_sign l in
  match skip_word [105; 110; 102]%N l1 with
  | Some l2 =>
      match skip_word [105; 110; 105; 116; 121]%N l2 with
      | Some l3 => Some (S754_infinity neg, l3)
      | None => Some (S754_infinity neg, l2)
      end
  | None =>
      match skip_word [110; 97; 110]%N l1 with
      | Some l2 => Some (S754_nan, l2)
      | None => None
      end
  end.

(** [float(s)] for a [str]. *)
Definition float_of_str (s : string) : result float :=
  let bad :=
    Raise (Exn "ValueError"
             (String.append "could not convert string to float: " (repr s))) in
  match drop_underscores 0%N (float_text s) with
  | None => bad
  | Some text =>
      let text := rstrip_c (lstrip_c text) in
      match
        match read_number text with
        | Some r => Some r
        | None => read_inf_nan text
        end
      with
      | Some (x, []) => Ok x
      | _ => bad
      end
  end.

(** *** The floats of the movie repository *)

(** [-x] *)
Definition float_neg (x : Q) : Q := Qred (- x).

(** ** The ratings table *)

(** One row of a scan: the row key and the mapping from qualified column
    names to values, both as bytes. *)
Record row : Type := Row { row_key : string; row_data : gmap string string }.

(** A rating record as the repository returns it (a [dict] with these four
    keys, all [str]). *)
Record rating_dict : Type := RatingDict {
  rd_user_id : string;
  rd_movie_id : string;
  rd_rating : string;
  rd_timestamp : string
}.

(** Modelled from the spec: the table handle of the store client, which is
    not part of the repository.  A live handle scans the rows of the table
    in their stored order; a handle whose connection is gone raises when it
    is scanned. *)
Inductive table_handle : Type :=
| LiveTable (rows : list row)
| DeadTable (e : exn).

Definition in_row_range (row_start row_stop : option string) (key : string)
    : bool :=
  match row_start with
  | Some lo => String.leb lo key
  | None => true
  end &&
  match row_stop with
  | Some hi => String.ltb key hi
  | None => true
  end.

(** Modelled from the spec: [table.scan(row_start=..., row_stop=...)], the
    rows whose key lies in the byte-lexicographic range from [row_start]
    (inclusive) to [row_stop] (exclusive). *)
Definition scan (t : table_handle) (row_start row_stop : option string)
    : result (list row) :=
  match t with
  | LiveTable rows =>
      Ok (List.filter (fun r => in_row_range row_start row_stop (row_key r)) rows)
  | DeadTable e => Raise e
  end.

(** [data.get(column, default).decode('utf-8')] *)
Definition get_decoded (data : gmap string string) (column default_ : string)
    : result string :=
  decode_utf8 (default default_ (data !! column)).

(** The truth value of [limit and len(ratings) >= limit]. *)
Definition limit_reached (limit : option Z) (ratings : list rating_dict)
    : bool :=
  match limit with
  | None => false
  | Some n => negb (n =? 0) && (Z.of_nat (length ratings) >=? n)
  end.

Arguments limit_reached : simpl never.

(** The loop of [find_by_movie_id] (lines 61-76) over the scanned rows. *)
Fixpoint movie_scan_loop (movie_id : string) (limit : option Z)
    (rows : list row) (ratings : list rating_dict) : result (list rating_dict) :=
  match rows with
  | [] => Ok ratings
  | r :: rows' =>
      (key_str <~ decode_utf8 (row_key r) ;;
       match split "_" key_str with
       | [user_id; mid] =>
           if String.eqb mid movie_id then
             rating <~ get_decoded (row_data r) "data:rating" "0" ;;
             timestamp <~ get_decoded (row_data r) "data:timestamp" "" ;;
             let ratings := ratings ++ [RatingDict user_id mid rating timestamp] in
             if limit_reached limit ratings then Ok ratings
             else movie_scan_loop movie_id limit rows' ratings
           else movie_scan_loop movie_id limit rows' ratings
       | _ => movie_scan_loop movie_id limit rows' ratings
       end)%py
  end.

(** The loop of [find_by_user_id] (lines 141-155). *)
Fixpoint user_scan_loop (limit : Z) (rows : list row)
    (ratings : list rating_dict) : result (list rating_dict) :=
  match rows with
  | [] => Ok ratings
  | r :: rows' =>
      (key_str <~ decode_utf8 (row_key r) ;;
       match split "_" key_str with
       | [uid; movie_id] =>
           rating <~ get_decoded (row_data r) "data:rating" "0" ;;
           timestamp <~ get_decoded (row_data r) "data:timestamp" "" ;;
           let ratings := ratings ++ [RatingDict uid movie_id rating timestamp] in
           if Z.of_nat (length ratings) >=? limit then Ok ratings
           else user_scan_loop limit rows' ratings
       | _ => user_scan_loop limit rows' ratings
       end)%py
  end.

(** [RatingStats]: the [dict] returned by [get_rating_stats]. *)
Record rating_stats : Type := RatingStats {
  avg_rating : float;
  total_count : Z;
  rating_distribution : gmap string Z
}.

(** Line 112. *)
Definition rating_key (rating_value : float) : result string :=
  if float_geb_int rating_value 1
  then (n <~ int_of_float rating_value ;; Ok (str_of_int n))%py
  else Ok "0.5".

(** The loop of [get_rating_stats] (lines 108-113): [total] and
    [distribution] are threaded through. *)
Fixpoint stats_loop (all_ratings : list rating_dict) (total : float)
    (distribution : gmap string Z) : result (float * gmap string Z) :=
  match all_ratings with
  | [] => Ok (total, distribution)
  | r :: rest =>
      (rating_value <~ float_of_str (rd_rating r) ;;
       let total := float_add total rating_value in
       k <~ rating_key rating_value ;;
       let distribution := <[k := default 0 (distribution !! k) + 1]> distribution in
       stats_loop rest total distribution)%py
  end.

(** Lines 97-119, after the ratings were fetched. *)
Definition stats_of_ratings (all_ratings : list rating_dict)
    : result rating_stats :=
  match all_ratings with
  | [] => Ok (RatingStats (S754_zero false) 0 ∅)
  | _ =>
      (acc <~ stats_loop all_ratings (S754_zero false) ∅ ;;
       let '(total, distribution) := acc in
       let n := Z.of_nat (length all_ratings) in
       avg <~ float_div total (float_of_int n) ;;
       Ok (RatingStats avg n distribution))%py
  end.

(** ** RatingRepository *)

Section RatingRepository.
(** The state of the connection module [hbase_connection], which is not
    part of the sources, and its [get_ratings_table()]. *)
Context {C : Type}.
Variable get_ratings_table : M C table_handle.

(** A repository object ([self.table]) next to the connection. *)
Definition repo : Type := (table_handle * C)%type.

Definition _refresh_table : M repo unit :=
  fun '(table, c) =>
    match get_ratings_table c with
    | (Ok t, c') => (Ok tt, (t, c'))
    | (Raise e, c') => (Raise e, (table, c'))
    end.

Definition self_table_scan (row_start row_stop : option string)
    : M repo (list row) :=
  fun '(table, c) => (scan table row_start row_stop, (table, c)).

(** The undecorated body of [find_by_movie_id]. *)
Definition find_by_movie_id_body (movie_id : string) (limit : option Z)
    : M repo (list rating_dict) :=
  try_except
    (rows <- self_table_scan None None ;;
     lift (movie_scan_loop movie_id limit rows []))%py
    (fun e => raise e).

Definition find_by_movie_id (movie_id : string) (limit : option Z)
    : M repo (list rating_dict) :=
  retry_on_connection_error (Some _refresh_table)
    (find_by_movie_id_body movie_id limit) 2.

Definition get_rating_stats_body (movie_id : string) : M repo rating_stats :=
  try_except
    (all_ratings <- find_by_movie_id movie_id None ;;
     lift (stats_of_ratings all_ratings))%py
    (fun e => raise e).

Definition get_rating_stats (movie_id : string) : M repo rating_stats :=
  retry_on_connection_error (Some _refresh_table)
    (get_rating_stats_body movie_id) 2.

Definition find_by_user_id_body (user_id : string) (limit : Z)
    : M repo (list rating_dict) :=
  try_except
    (let start_row := String.append user_id "_" in
     let stop_row := String.append user_id "_~" in
     rows <- self_table_scan (Some start_row) (Some stop_row) ;;
     lift (user_scan_loop limit rows []))%py
    (fun e => raise e).

Definition find_by_user_id (user_id : string) (limit : Z)
    : M repo (list rating_dict) :=
  retry_on_connection_error (Some _refresh_table)
    (find_by_user_id_body user_id limit) 2.

End RatingRepository.

(** ** Lists: sorting, slicing, integer division *)

Section Sort.
Context {A : Type}.
(** [lt a b]: the key of [a] is smaller than the key of [b]. *)
Variable lt : A -> A -> bool.

(** Puts [x] in front of a sorted list of elements that came after it. *)
Fixpoint sort_insert (x : A) (l : list A) : list A :=
  match l with
  | [] => [x]
  | y :: l' => if lt y x then y :: sort_insert x l' else x :: y :: l'
  end.

(** [l.sort(key=...)]: the stable sort into ascending order of the keys,
    which leaves elements with equal keys in their original order. *)
Fixpoint py_sort (l : list A) : list A :=
  match l with
  | [] => []
  | x :: l' => sort_insert x (py_sort l')
  end.
End Sort.

(** [l.sort(key=..., reverse=True)]: every comparison is reversed, equal
    keys still keep their original order. *)
Definition py_sort_reverse {A} (lt : A -> A -> bool) (l : list A) : list A :=
  py_sort (fun a b => lt b a) l.

(** An index of a slice, clipped to the list. *)
Definition slice_index (len i : Z) : Z :=
  if i <? 0 then Z.max 0 (i + len) else Z.min i len.

(** [l[start:stop]] *)
Definition py_slice {A} (l : list A) (start stop : Z) : list A :=
  let len := Z.of_nat (length l) in
  let a := slice_index len start in
  let b := slice_index len stop in
  firstn (Z.to_nat (b - a)) (skipn (Z.to_nat a) l).

(** [a // b] on [int]. *)
Definition py_floordiv (a b : Z) : result Z :=
  if b =? 0
  then Raise (Exn "ZeroDivisionError" "integer division or modulo by zero")
  else Ok (a / b).

(** A list comprehension whose element expression may raise. *)
Fixpoint map_result {A B} (f : A -> result B) (l : list A) : result (list B) :=
  match l with
  | [] => Ok []
  | x :: l' =>
      (y <~ f x ;;
       ys <~ map_result f l' ;;
       Ok (y :: ys))%py
  end.

(** ** Domain records *)

Record Movie : Type := mkMovie {
  id : string;
  title : string;
  genres : list string;
  movie_avg_rating : Q;
  rating_count : Z
}.

Record Rating : Type := mkRating {
  user_id : string;
  movie_id : string;
  rating : float;
  timestamp : string
}.

(** Lines 115-123 and 76-84: one [Rating(...)] of the comprehension. *)
Definition rating_of_dict (r : rating_dict) : result Rating :=
  (x <~ float_of_str (rd_rating r) ;;
   Ok (mkRating (rd_user_id r) (rd_movie_id r) x (rd_timestamp r)))%py.

(** Comparison of the sort keys [(x.avg_rating, x.rating_count)]. *)
Definition score_ltb (a b : Movie) : bool :=
  match Qcompare (movie_avg_rating a) (movie_avg_rating b) with
  | Lt => true
  | Eq => rating_count a <? rating_count b
  | Gt => false
  end.

(** Comparison of the sort keys [x.timestamp]. *)
Definition timestamp_ltb (a b : Rating) : bool :=
  String.ltb (timestamp a) (timestamp b).

(** Line 200. *)
Definition title_match (query : string) (movie : Movie) : bool :=
  contains (lower query) (lower (title movie)).

(** Line 201: [(not title_match, -movie.avg_rating, -movie.rating_count)]. *)
Definition sort_key (query : string) (movie : Movie) : bool * Q * Z :=
  (negb (title_match query movie),
   float_neg (movie_avg_rating movie),
   - rating_count movie).

(** Comparison of two such tuples. *)
Definition key_ltb (k1 k2 : bool * Q * Z) : bool :=
  let '(b1, q1, n1) := k1 in
  let '(b2, q2, n2) := k2 in
  if Bool.eqb b1 b2 then
    match Qcompare q1 q2 with
    | Lt => true
    | Eq => n1 <? n2
    | Gt => false
    end
  else negb b1.

(** ** MovieService *)

Section MovieService.
(** The movie repository is not part of the sources.  Its raw records
    carry [id], [title] and [genres] and two values that are read with
    [float(...)] and [int(...)]. *)
Context {V : Type}.
Variable py_float : V -> result Q.
Variable py_int : V -> result Z.

Record raw_movie : Type := RawMovie {
  raw_id : string;
  raw_title : string;
  raw_genres : list string;
  raw_avg_rating : V;
  raw_rating_count : V
}.

(** [Movie(id=m['id'], title=m['title'], genres=m['genres'],
    avg_rating=float(m['avg_rating']), rating_count=int(m['rating_count']))] *)
Definition movie_of_raw (m : raw_movie) : result Movie :=
  (a <~ py_float (raw_avg_rating m) ;;
   n <~ py_int (raw_rating_count m) ;;
   Ok (mkMovie (raw_id m) (raw_title m) (raw_genres m) a n))%py.

(** The state behind the movie repository and its three queries. *)
Context {R : Type}.
Variable find_all : M R (list raw_movie).
Variable find_by_id : string -> M R (option raw_movie).
Variable search_by_text : string -> Z -> M R (list raw_movie).

Definition get_movies_list (page page_size : Z)
    : M R (list Movie * Z * Z) :=
  try_except
    (all_movies_data <- find_all ;;
     all_movies <- lift (map_result movie_of_raw all_movies_data) ;;
     let all_movies := py_sort_reverse score_ltb all_movies in
     let total := Z.of_nat (length all_movies) in
     total_pages <- lift (py_floordiv (total + page_size - 1) page_size) ;;
     let start_idx := (page - 1) * page_size in
     let end_idx := start_idx + page_size in
     let movies := py_slice all_movies start_idx end_idx in
     ret (movies, total, total_pages))%py
    (fun e => raise e).

Definition search_movies (query : string) (limit : Z) : M R (list Movie) :=
  try_except
    (let query := strip query in
     if String.eqb query "" then ret []
     else if isdigit query then
       (movie_data <- find_by_id query ;;
        match movie_data with
        | Some m => (mv <- lift (movie_of_raw m) ;; ret [mv])
        | None => ret []
        end)
     else
       (matched_data <- search_by_text query limit ;;
        matched_movies <- lift (map_result movie_of_raw matched_data) ;;
        ret (py_sort (fun a b => key_ltb (sort_key query a) (sort_key query b))
               matched_movies)))%py
    (fun e => raise e).

(** The rating repository as the service holds it. *)
Context {C : Type}.
Variable get_ratings_table : M C table_handle.

Definition get_movie_ratings (movie_id : string) (page page_size : Z)
    : M (@repo C) (list Rating * Z * Z) :=
  try_except
    (all_ratings_data <- find_by_movie_id get_ratings_table movie_id None ;;
     all_ratings <- lift (map_result rating_of_dict all_ratings_data) ;;
     let all_ratings := py_sort_reverse timestamp_ltb all_ratings in
     let total := Z.of_nat (length all_ratings) in
     total_pages <-
       (if total >? 0
        then lift (py_floordiv (total + page_size - 1) page_size)
        else ret 0) ;;
     let start_idx := (page - 1) * page_size in
     let end_idx := start_idx + page_size in
     let ratings := py_slice all_ratings start_idx end_idx in
     ret (ratings, total, total_pages))%py
    (fun e => raise e).

(** [MovieService.get_rating_stats] *)
Definition service_get_rating_stats (movie_id : string)
    : M (@repo C) rating_stats :=
  try_except (get_rating_stats get_ratings_table movie_id) (fun e => raise e).

End MovieService.

(** ** Instrumented runs of the decorator *)

(** The events that the log shows between the first and the second
    attempt. *)
Fixpoint until_attempt (log : list event) : list event :=
  match log with
  | [] => []
  | Attempt :: _ => []
  | ev :: log' => ev :: until_attempt log'
  end.

Fixpoint between_attempts (log : list event) : list event :=
  match log with
  | [] => []
  | Attempt :: log' => until_attempt log'
  | _ :: log' => between_attempts log'
  end.

(** A method decorated with [@retry_on_connection_error(max_retries=2)] on
    an object that has [_refresh_table], every reacquisition and every
    attempt being recorded. *)
Definition decorated_logged {S T} (refresh : M S unit) (func : M S T)
    : M (list event * S) T :=
  retry_on_connection_error (Some (logged Reacquire refresh))
    (logged Attempt func) 2.

(** The kind under which the specification wants exhausted retries to be
    reported. *)
Definition ConnectionExhausted : string := "ConnectionExhausted".

(** Two operations to run the decorator on: one whose first call loses the
    connection and whose later calls return 42 (the state counts the
    calls), and one that fails on every call. *)
Definition reset_by_peer : exn :=
  Exn "ConnectionResetError" "[Errno 104] Connection reset by peer".

Definition flaky_once : M nat Z :=
  fun calls =>
    match calls with
    | O => (Raise reset_by_peer, Datatypes.S calls)
    | _ => (Ok 42, Datatypes.S calls)
    end.

Definition broken_pipe : exn := Exn "BrokenPipeError" "[Errno 32] Broken pipe".

Definition always_down : M nat Z :=
  fun calls => (Raise broken_pipe, Datatypes.S calls).

(** ** The repository in the words of the specification *)

(** A row key that splits on the delimiter into exactly two non-empty
    parts. *)
Definition two_nonempty_parts (key : string) : bool :=
  match split "_" key with
  | [a; b] => negb (String.eqb a "") && negb (String.eqb b "")
  | _ => false
  end.

(** A key and the values of the two columns that are valid UTF-8. *)
Definition row_decodable (r : row) : bool :=
  utf8_valid (row_key r)
  && utf8_valid (default "0" (row_data r !! "data:rating"))
  && utf8_valid (default "" (row_data r !! "data:timestamp")).

(** The rating that a row with a key of two parts stands for, with the
    defaults for missing columns. *)
Definition row_rating (r : row) : option rating_dict :=
  match split "_" (row_key r) with
  | [a; b] =>
      Some (RatingDict a b
              (default "0" (row_data r !! "data:rating"))
              (default "" (row_data r !! "data:timestamp")))
  | _ => None
  end.

(** The ratings of a movie: those of the rows whose second key component is
    the movie, in the order of the scan. *)
Definition ratings_of_movie (movie_id : string) (rows : list row)
    : list rating_dict :=
  List.filter (fun d => String.eqb (rd_movie_id d) movie_id)
    (omap row_rating rows).

(** A float that is a number: neither an infinity nor a NaN. *)
Definition is_finite (x : float) : bool :=
  match x with
  | S754_zero _ | S754_finite _ _ _ => true
  | _ => false
  end.

(** The bucket of a rating: the floor of the rating as text, and "0.5" for
    a rating that is not 1 or more. *)
Definition bucket_label (r : float) : string :=
  if float_geb_int r 1 then str_of_int (Qfloor (float_rational r)) else "0.5".

(** The sum of floats, added from the left to 0.0. *)
Definition sum_floats (l : list float) : float :=
  fold_left float_add l (S754_zero false).

(** The number of ratings in a bucket. *)
Definition bucket_count (label : string) (values : list float) : Z :=
  Z.of_nat (length (List.filter (fun v => String.eqb (bucket_label v) label) values)).

(** The sum of the counts of a distribution. *)
Definition sum_counts (distribution : gmap string Z) : Z :=
  map_fold (fun _ n acc => n + acc) 0 distribution.

(** A connection that hands out a live handle on the same rows at every
    call. *)
Definition serving (rows : list row) : M unit table_handle :=
  ret (LiveTable rows).

(** The two rows of the scenario: [u1_m1] rated 5 and [u2_m1] rated 3. *)
Definition scenario_rows : list row :=
  [Row "u1_m1" {["data:rating" := "5"]}; Row "u2_m1" {["data:rating" := "3"]}].

(** A table with ratings of the users [u1], [u10] and [u2]. *)
Definition users_rows : list row :=
  [Row "u10_m1" {["data:rating" := "2"]};
   Row "u1_m1" {["data:rating" := "5"]};
   Row "u1_m2" {["data:rating" := "4.5"]};
   Row "u2_m1" {["data:rating" := "3"]}].

(** ** The service seen from outside *)

(** The items of the page that a call returned. *)
Definition page_items {S A} (r : result (list A * Z * Z) * S) : list A :=
  match fst r with
  | Ok (items, _, _) => items
  | Raise _ => []
  end.

(** The page numbers 1, ..., [total_pages]. *)
Definition page_numbers (total_pages : Z) : list Z :=
  List.map (fun i => Z.of_nat i + 1) (seq 0 (Z.to_nat total_pages)).

(** Instrumentation: the queries that reach the movie repository. *)
Inductive store_call : Type :=
| CallFindById (movie_id : string)
| CallSearchByText (query : string) (limit : Z).

Definition traced {S A} (call : store_call) (m : M S A)
    : M (list store_call * S) A :=
  fun '(log, s) =>
    let '(r, s') := m s in (r, (log ++ [call], s')).

(** [search_movies] on a movie repository whose queries are recorded. *)
Definition search_movies_traced {V R : Type}
    (py_float : V -> result Q) (py_int : V -> result Z)
    (find_by_id : string -> M R (option (@raw_movie V)))
    (search_by_text : string -> Z -> M R (list (@raw_movie V)))
    (query : string) (limit : Z) : M (list store_call * R) (list Movie) :=
  search_movies py_float py_int
    (fun q => traced (CallFindById q) (find_by_id q))
    (fun q n => traced (CallSearchByText q n) (search_by_text q n))
    query limit.

(** The order of the results of a text search: [a] may stand before [b]. *)
Definition ranks_before (query : string) (a b : Movie) : bool :=
  negb (key_ltb (sort_key query b) (sort_key query a)).

(** The order of the movie list: [a] may stand before [b]. *)
Definition score_geb (a b : Movie) : bool := negb (score_ltb a b).

(** The order of the rating list: [a] may stand before [b]. *)
Definition timestamp_geb (a b : Rating) : bool := negb (timestamp_ltb a b).

(** A small movie repository to run the service on.  Its raw values are
    floats already: [float(x)] is [x] and [int(x)] rounds toward zero.
    [store_search_by_text] is modelled from the spec: a text match over
    titles and genres, bounded by [limit]. *)
Definition float_value (x : Q) : result Q := Ok x.
Definition int_value (x : Q) : result Z :=
  Ok (Z.quot (Qnum x) (Zpos (Qden x))).

Definition dark_city : @raw_movie Q :=
  RawMovie "7" "Dark City" ["Matrix-like"] (9 # 2) (50 # 1).
Definition the_matrix : @raw_movie Q :=
  RawMovie "42" "The Matrix" ["Action"; "Sci-Fi"] (87 # 20) (1000 # 1).
Definition heat : @raw_movie Q :=
  RawMovie "3" "Heat" ["Crime"] (87 # 20) (1200 # 1).

Definition movie_store : list (@raw_movie Q) := [dark_city; the_matrix; heat].

Definition store_find_all : M unit (list (@raw_movie Q)) := ret movie_store.

Definition store_find_by_id (movie_id : string)
    : M unit (option (@raw_movie Q)) :=
  ret (List.find (fun m => String.eqb (raw_id m) movie_id) movie_store).

Definition text_matches (query : string) (m : @raw_movie Q) : bool :=
  contains (lower query) (lower (raw_title m))
  || existsb (fun g => contains (lower query) (lower g)) (raw_genres m).

Definition store_search_by_text (query : string) (limit : Z)
    : M unit (list (@raw_movie Q)) :=
  ret (firstn (Z.to_nat limit) (List.filter (text_matches query) movie_store)).

(** Three rated rows with timestamps. *)
Definition dated_rows : list row :=
  [Row "u1_m1" {["data:rating" := "5"; "data:timestamp" := "2024-01-02"]};
   Row "u2_m1" {["data:rating" := "3"; "data:timestamp" := "2024-03-01"]};
   Row "u3_m2" {["data:rating" := "4"; "data:timestamp" := "2024-02-01"]}].

(** A connection that counts its calls and hands out a dead handle every
    time. *)
Definition counting_dead : M nat table_handle :=
  fun calls => (Ok (DeadTable broken_pipe), Datatypes.S calls).

(** ** Further instrumented runs *)

(** A method decorated with [@retry_on_connection_error(max_retries)] for
    any [max_retries], on an object with or without [_refresh_table],
    every reacquisition and every attempt being recorded. *)
Definition decorated_logged_n {S T} (refresh : option (M S unit))
    (func : M S T) (max_retries : Z) : M (list event * S) T :=
  retry_on_connection_error (option_map (logged Reacquire) refresh)
    (logged Attempt func) max_retries.

(** The state in which the attempt number [k] (counted from 0) of a
    decorated call starts, the call having started in [s]: every attempt
    before it has run and has left its state behind. *)
Fixpoint attempt_state {S T} (refresh : option (M S unit)) (func : M S T)
    (k : nat) (s : S) : S :=
  match k with
  | O => s
  | Datatypes.S k' =>
      attempt_state refresh func k' (snd (attempt_once refresh func s))
  end.

(** A record stems from a row: its two ids joined by the delimiter are the
    key of the row, and its rating and timestamp are the values of the
    columns of the row, or the defaults. *)
Definition record_of_row (d : rating_dict) (r : row) : Prop :=
  row_key r = String.append (rd_user_id d) (String "_" (rd_movie_id d))
  /\ rd_rating d = default "0" (row_data r !! "data:rating")
  /\ rd_timestamp d = default "" (row_data r !! "data:timestamp").

(** ** MovieService, continued: [get_movie_by_id] *)

Record MovieDetail : Type := mkMovieDetail {
  detail_id : string;
  detail_title : string;
  detail_genres : list string;
  detail_avg_rating : Q;
  detail_rating_count : Z;
  recent_ratings : list Rating
}.

(** The service holds two repositories; a method of one of them leaves the
    state of the other alone. *)
Definition on_movies {R S A} (m : M R A) : M (R * S) A :=
  fun '(r, s) => let '(res, r') := m r in (res, (r', s)).

Definition on_ratings {R S A} (m : M S A) : M (R * S) A :=
  fun '(r, s) => let '(res, s') := m s in (res, (r, s')).

Section MovieDetailService.
Context {V R C : Type}.
Variable py_float : V -> result Q.
Variable py_int : V -> result Z.
Variable find_by_id : string -> M R (option (@raw_movie V)).
Variable get_ratings_table : M C table_handle.

(** Lines 59-97. *)
Definition get_movie_by_id (movie_id : string)
    : M (R * @repo C) (option MovieDetail) :=
  try_except
    (movie_data <- on_movies (find_by_id movie_id) ;;
     match movie_data with
     | None => ret None
     | Some m =>
         (ratings_data <-
            on_ratings (find_by_movie_id get_ratings_table movie_id (Some 10)) ;;
          ratings <- lift (map_result rating_of_dict ratings_data) ;;
          a <- lift (py_float (raw_avg_rating m)) ;;
          n <- lift (py_int (raw_rating_count m)) ;;
          ret (Some (mkMovieDetail (raw_id m) (raw_title m) (raw_genres m)
                       a n ratings)))
     end)%py
    (fun e => raise e).

End MovieDetailService.

(** Two ratings of the movie 42, the older one first in the table. *)
Definition rows_of_42 : list row :=
  [Row "u1_42" {["data:rating" := "5"; "data:timestamp" := "2024-01-02"]};
   Row "u2_42" {["data:rating" := "3"; "data:timestamp" := "2024-03-01"]}].

(** Two movies with the same sort key [(avg_rating, rating_count)]. *)
Definition same_score (x a : Movie) : bool :=
  negb (score_ltb a x) && negb (score_ltb x a).

(** ** The endpoints of [api/v1/endpoints/movies.py] *)

(** What an endpoint hands to the framework: a response or an
    [HTTPException]. *)
Inductive http_result (A : Type) : Type :=
| Respond (a : A)
| HTTPException (status_code : Z) (detail : string).
Arguments Respond {A} a.
Arguments HTTPException {A} status_code detail.

(** An endpoint over a state [S]. *)
Definition Endpoint (S A : Type) : Type := S -> http_result A * S.

Section Endpoints.
Context {V R C : Type}.
Variable py_float : V -> result Q.
Variable py_int : V -> result Z.
Variable find_by_id : string -> M R (option (@raw_movie V)).
Variable get_ratings_table : M C table_handle.

(** The response models of [backend.models.schemas] are not part of the
    sources; building one may raise.
    [detail_schema movie rating_stats] is the expression of lines 68-79,
    [rating_list_response ratings total page page_size total_pages] is
    lines 102-117. *)
Context {DetailSchema RatingListResponse : Type}.
Variable detail_schema : MovieDetail -> rating_stats -> result DetailSchema.
Variable rating_list_response :
  list Rating -> Z -> Z -> Z -> Z -> result RatingListResponse.

(** [isinstance(e, ValueError)]; the classes that derive from [ValueError]
    are not all known to the embedding. *)
Variable isinstance_ValueError : exn -> bool.

(** The endpoint [get_movie], lines 57-84.  Nothing below the endpoint raises an [HTTPException], so
    the one that the [try] block raises itself is the only one that
    [except HTTPException: raise] passes on; every other exception becomes
    the status 500. *)
Definition endpoint_get_movie (movie_id : string)
    : Endpoint (R * @repo C) DetailSchema :=
  fun s =>
    match get_movie_by_id py_float py_int find_by_id get_ratings_table
            movie_id s with
    | (Raise _, s1) => (HTTPException 500 "获取电影详情失败", s1)
    | (Ok None, s1) => (HTTPException 404 "电影不存在", s1)
    | (Ok (Some movie), s1) =>
        match on_ratings (service_get_rating_stats get_ratings_table movie_id)
                s1 with
        | (Raise _, s2) => (HTTPException 500 "获取电影详情失败", s2)
        | (Ok rating_stats, s2) =>
            match detail_schema movie rating_stats with
            | Ok response => (Respond response, s2)
            | Raise _ => (HTTPException 500 "获取电影详情失败", s2)
            end
        end
    end.

(** The two [except] clauses of lines 122-127. *)
Definition ratings_error (e : exn) : http_result RatingListResponse :=
  if isinstance_ValueError e
  then HTTPException 422 (String.append "参数错误: " (exn_msg e))
  else HTTPException 500 "获取评分列表失败".

(** The endpoint [get_movie_ratings], lines 87-127. *)
Definition endpoint_get_movie_ratings (movie_id : string) (page page_size : Z)
    : Endpoint (@repo C) RatingListResponse :=
  fun s =>
    match get_movie_ratings get_ratings_table movie_id page
            page_size s with
    | (Raise e, s1) => (ratings_error e, s1)
    | (Ok (ratings, total, total_pages), s1) =>
        match rating_list_response ratings total page page_size total_pages with
        | Ok response => (Respond response, s1)
        | Raise e => (ratings_error e, s1)
        end
    end.

End Endpoints.

(** Response models that accept everything, to run the endpoints on. *)
Definition plain_detail_schema (movie : MovieDetail) (stats : rating_stats)
    : result (MovieDetail * rating_stats) :=
  Ok (movie, stats).

Definition plain_rating_list (ratings : list Rating)
    (total page page_size total_pages : Z)
    : result (list Rating * Z * Z * Z * Z) :=
  Ok (ratings, total, page, page_size, total_pages).

(** [isinstance(e, ValueError)] for the built-in classes. *)
Definition builtin_ValueError (e : exn) : bool :=
  existsb (String.eqb (exn_class e))
    ["ValueError"; "UnicodeError"; "UnicodeDecodeError";
     "UnicodeEncodeError"; "UnicodeTranslateError"].

(** A movie with one rating whose text is no number. *)
Definition rows_with_bad_rating : list row :=
  [Row "u1_m1" {["data:rating" := "5"]};
   Row "u2_m1" {["data:rating" := "abc"]}].

(** A table whose second row has a key that is no UTF-8 (the byte FF). *)
Definition rows_with_bad_key : list row :=
  [Row "u1_m1" {["data:rating" := "5"]};
   Row (String (ascii_of_N 255) "_m1") {["data:rating" := "4"]};
   Row "u3_m1" {["data:rating" := "3"]}].

(* ################################################################# *)
(** * Properties *)

(** ** The retry decorator *)

Lemma try_except_reraise {S A} (m : M S A) (s : S) :
  try_except m (fun e => raise e) s = m s.
Proof.
  unfold try_except, raise. destruct (m s) as [[a | e] s']; reflexivity.
Qed.

Section RetryProperties.
Context {S T : Type}.
Variable refresh : M S unit.
Variable func : M S T.

Local Abbreviation run := (decorated_logged refresh func).

Lemma run_unfold (s : S) :
  run ([], s) =
  match refresh s with
  | (Raise e, s1) =>
      if is_connection_error e then
        match refresh s1 with
        | (Raise e', s2) => (Raise e', ([Reacquire; Reacquire], s2))
        | (Ok _, s2) =>
            (fst (func s2), ([Reacquire; Reacquire; Attempt], snd (func s2)))
        end
      else (Raise e, ([Reacquire], s1))
  | (Ok _, s1) =>
      match func s1 with
      | (Ok v, s2) => (Ok v, ([Reacquire; Attempt], s2))
      | (Raise e, s2) =>
          if is_connection_error e then
            match refresh s2 with
            | (Raise e', s3) =>
                (Raise e', ([Reacquire; Attempt; Reacquire], s3))
            | (Ok _, s3) =>
                (fst (func s3),
                 ([Reacquire; Attempt; Reacquire; Attempt], snd (func s3)))
            end
          else (Raise e, ([Reacquire; Attempt], s2))
      end
  end.
Proof.
  unfold run, decorated_logged, retry_on_connection_error. simpl.
  unfold try_except, attempt_once, bind, logged, raise. simpl.
  destruct (refresh s) as [[[] | e] s1]; simpl.
  - destruct (func s1) as [[v | e] s2]; simpl; [reflexivity |].
    destruct (is_connection_error e); simpl; [| reflexivity].
    destruct (refresh s2) as [[[] | e'] s3]; simpl.
    + destruct (func s3) as [[v | e'] s4]; simpl; [reflexivity |].
      destruct (is_connection_error e'); reflexivity.
    + destruct (is_connection_error e'); reflexivity.
  - destruct (is_connection_error e); simpl; [| reflexivity].
    destruct (refresh s1) as [[[] | e'] s2]; simpl.
    + destruct (func s2) as [[v | e'] s3]; simpl; [reflexivity |].
      destruct (is_connection_error e'); reflexivity.
    + destruct (is_connection_error e'); reflexivity.
Qed.

(** C1. A method decorated with [max_retries=2] is attempted at most
    twice.  An error is transient exactly when its lower-cased message
    contains "connection", "broken pipe" or "10053".  A first attempt
    that raises any other error ends the call after that one attempt
    with the same error.  A first attempt that raises a transient error
    is followed by one reacquisition of the table and a second attempt,
    whose outcome is the outcome of the call; so when the second attempt
    succeeds its value is returned, and the log shows exactly one
    reacquisition between the two attempts. *)
Theorem retry_max_two_attempts (s : S) :
  (count_event Attempt (fst (snd (run ([], s)))) <= 2)%nat
  /\ (forall e,
        is_connection_error e = true <->
        (contains "connection" (lower (exn_msg e)) = true
         \/ contains "broken pipe" (lower (exn_msg e)) = true
         \/ contains "10053" (lower (exn_msg e)) = true))
  /\ (forall s1 e s2,
        refresh s = (Ok tt, s1) -> func s1 = (Raise e, s2) ->
        is_connection_error e = false ->
        run ([], s) = (Raise e, ([Reacquire; Attempt], s2)))
  /\ (forall s1 e s2 s3,
        refresh s = (Ok tt, s1) -> func s1 = (Raise e, s2) ->
        is_connection_error e = true ->
        refresh s2 = (Ok tt, s3) ->
        run ([], s) =
        (fst (func s3),
         ([Reacquire; Attempt; Reacquire; Attempt], snd (func s3))))
  /\ (forall s1 e s2 s3 v s4,
        refresh s = (Ok tt, s1) -> func s1 = (Raise e, s2) ->
        is_connection_error e = true ->
        refresh s2 = (Ok tt, s3) -> func s3 = (Ok v, s4) ->
        fst (run ([], s)) = Ok v
        /\ snd (snd (run ([], s))) = s4
        /\ count_event Attempt (fst (snd (run ([], s)))) = 2%nat
        /\ count_event Reacquire
             (between_attempts (fst (snd (run ([], s))))) = 1%nat).
Proof.
  split; [| split; [| split; [| split]]].
  - rewrite run_unfold. unfold count_event.
    destruct (refresh s) as [[[] | e] s1].
    + destruct (func s1) as [[v | e] s2]; [simpl; lia |].
      destruct (is_connection_error e); [| simpl; lia].
      destruct (refresh s2) as [[[] | e'] s3]; simpl; lia.
    + destruct (is_connection_error e); [| simpl; lia].
      destruct (refresh s1) as [[[] | e'] s2]; simpl; lia.
  - intros e. unfold is_connection_error. cbv zeta.
    rewrite !Bool.orb_true_iff. tauto.
  - intros s1 e s2 Hr Hf He. rewrite run_unfold, Hr, Hf, He. reflexivity.
  - intros s1 e s2 s3 Hr Hf He Hr'.
    rewrite run_unfold, Hr, Hf, He, Hr'. reflexivity.
  - intros s1 e s2 s3 v s4 Hr Hf He Hr' Hf'.
    rewrite run_unfold, Hr, Hf, He, Hr', Hf'. simpl. repeat split.
Qed.

(** C3 (amended). When both attempts raise transient errors, the call
    raises the error of the second attempt itself: the exception is
    re-raised as it is, under its own class and message. *)
Theorem retry_exhausted_reraises_last (s s1 s2 s3 s4 : S) (e1 e2 : exn) :
  refresh s = (Ok tt, s1) -> func s1 = (Raise e1, s2) ->
  is_connection_error e1 = true ->
  refresh s2 = (Ok tt, s3) -> func s3 = (Raise e2, s4) ->
  is_connection_error e2 = true ->
  run ([], s) = (Raise e2, ([Reacquire; Attempt; Reacquire; Attempt], s4)).
Proof.
  intros Hr Hf He Hr' Hf' _.
  rewrite run_unfold, Hr, Hf, He, Hr', Hf'. reflexivity.
Qed.

End RetryProperties.

Lemma retry_max_two_attempts_witness :
  fst (decorated_logged (ret tt) flaky_once ([], O)) = Ok 42
  /\ snd (snd (decorated_logged (ret tt) flaky_once ([], O))) = 2%nat
  /\ count_event Attempt
       (fst (snd (decorated_logged (ret tt) flaky_once ([], O)))) = 2%nat
  /\ count_event Reacquire
       (between_attempts
          (fst (snd (decorated_logged (ret tt) flaky_once ([], O))))) = 1%nat.
Proof.
  apply (proj2 (proj2 (proj2 (proj2
           (retry_max_two_attempts (ret tt) flaky_once O))))
         O reset_by_peer 1%nat 1%nat 42 2%nat);
    reflexivity.
Defined.

Lemma retry_exhausted_reraises_last_witness :
  decorated_logged (ret tt) always_down ([], O) =
  (Raise broken_pipe, ([Reacquire; Attempt; Reacquire; Attempt], 2%nat)).
Proof.
  apply (retry_exhausted_reraises_last (ret tt) always_down
           O O 1%nat 1%nat 2%nat broken_pipe broken_pipe);
    reflexivity.
Defined.

(** C3 as stated fails: every attempt of [always_down] raises a transient
    error, and the call ends with that [BrokenPipeError], not with an error
    of the kind [ConnectionExhausted]. *)
Lemma retry_exhausted_not_ConnectionExhausted :
  is_connection_error broken_pipe = true
  /\ count_event Attempt
       (fst (snd (decorated_logged (ret tt) always_down ([], O)))) = 2%nat
  /\ ~ (exists e,
         fst (decorated_logged (ret tt) always_down ([], O)) = Raise e
         /\ exn_class e = ConnectionExhausted).
Proof.
  split; [reflexivity | split; [reflexivity |]].
  intros [e [He Hc]]. vm_compute in He. inversion He; subst e.
  vm_compute in Hc. discriminate Hc.
Qed.

(** ** The decorator around the repository methods *)

Section RetryShape.
Context {S T : Type}.
Variable refresh : M S unit.

Lemma retry2_unfold (func : M S T) (s : S) :
  retry_on_connection_error (Some refresh) func 2 s =
  match attempt_once (Some refresh) func s with
  | (Ok v, s1) => (Ok v, s1)
  | (Raise e, s1) =>
      if is_connection_error e
      then attempt_once (Some refresh) func s1
      else (Raise e, s1)
  end.
Proof.
  unfold retry_on_connection_error. simpl. unfold try_except.
  destruct (attempt_once (Some refresh) func s) as [[v | e] s1];
    [reflexivity |].
  destruct (is_connection_error e); simpl; [| reflexivity].
  destruct (attempt_once (Some refresh) func s1) as [[v | e'] s2];
    [reflexivity |].
  destruct (is_connection_error e'); reflexivity.
Qed.

Lemma attempt_once_ok_inv (func : M S T) s v s' :
  attempt_once (Some refresh) func s = (Ok v, s') ->
  exists s0 s1, refresh s0 = (Ok tt, s1) /\ func s1 = (Ok v, s').
Proof.
  unfold attempt_once, bind.
  destruct (refresh s) as [[[] | e] s1] eqn:Hr; [| discriminate].
  intros H. exists s, s1. split; [exact Hr | exact H].
Qed.

(** A decorated call that returns went through a reacquisition followed by
    a run of the method that returned that value. *)
Lemma retry2_ok_inv (func : M S T) s v s' :
  retry_on_connection_error (Some refresh) func 2 s = (Ok v, s') ->
  exists s0 s1, refresh s0 = (Ok tt, s1) /\ func s1 = (Ok v, s').
Proof.
  rewrite retry2_unfold.
  destruct (attempt_once (Some refresh) func s) as [[v1 | e] s1] eqn:H1.
  - intros H; inversion H; subst. eapply attempt_once_ok_inv; eassumption.
  - destruct (is_connection_error e); [| discriminate].
    intros H. eapply attempt_once_ok_inv; eassumption.
Qed.

Lemma retry2_ext (f g : M S T) :
  (forall s, f s = g s) ->
  forall s, retry_on_connection_error (Some refresh) f 2 s =
            retry_on_connection_error (Some refresh) g 2 s.
Proof.
  intros Hfg s.
  assert (Ha : forall s, attempt_once (Some refresh) f s =
                         attempt_once (Some refresh) g s).
  { intros s0. unfold attempt_once, bind.
    destruct (refresh s0) as [[[] | e] s1]; [apply Hfg | reflexivity]. }
  rewrite !retry2_unfold, Ha.
  destruct (attempt_once (Some refresh) g s) as [[v | e] s1]; [reflexivity |].
  destruct (is_connection_error e); [apply Ha | reflexivity].
Qed.

(** When the reacquisition and the method succeed at once, so does the
    decorated call. *)
Lemma retry2_first_try (func : M S T) s s1 v s2 :
  refresh s = (Ok tt, s1) -> func s1 = (Ok v, s2) ->
  retry_on_connection_error (Some refresh) func 2 s = (Ok v, s2).
Proof.
  intros Hr Hf. rewrite retry2_unfold. unfold attempt_once, bind.
  rewrite Hr, Hf. reflexivity.
Qed.

End RetryShape.

(** ** Scanning *)

Lemma filter_all_rows (rows : list row) :
  List.filter (fun r => in_row_range None None (row_key r)) rows = rows.
Proof.
  induction rows as [| r rows IH]; simpl; [reflexivity |].
  f_equal. exact IH.
Qed.

Lemma decode_utf8_ok (b s : string) : decode_utf8 b = Ok s -> s = b.
Proof.
  unfold decode_utf8. destruct (first_fault b 0); [discriminate |].
  intros H; inversion H; reflexivity.
Qed.

(** The decoder reports a fault exactly for the bytes that are not
    well-formed. *)
Lemma first_fault_valid (b : string) (pos : N) :
  first_fault b pos = None <-> utf8_valid b = true.
Proof.
  assert (H : forall n b, (String.length b <= n)%nat ->
                forall pos, first_fault b pos = None <-> utf8_valid b = true).
  { clear b pos. induction n as [| n IH]; intros b Hlen pos.
    - destruct b; [simpl; tauto | simpl in Hlen; lia].
    - destruct b as [| c0 b1]; [simpl; tauto |].
      cbn [first_fault utf8_valid].
      unfold fault, second_of_three, second_of_four.
      destruct b1 as [| c1 [| c2 [| c3 b4]]]; cbn [String.length] in Hlen;
        repeat
          match goal with
          | |- context [byte_in ?lo ?hi ?c] => destruct (byte_in lo hi c)
          end;
        cbn [negb andb];
        try (split; [discriminate | discriminate]);
        try (split; reflexivity);
        try (apply IH; cbn [String.length]; lia). }
  apply (H (String.length b)). lia.
Qed.

Lemma decode_utf8_valid (b : string) : utf8_valid b = true -> decode_utf8 b = Ok b.
Proof.
  intros H. unfold decode_utf8.
  rewrite (proj2 (first_fault_valid b 0) H). reflexivity.
Qed.

(** Bytes that are not well-formed make the decoder raise. *)
Lemma decode_utf8_invalid (b : string) :
  utf8_valid b = false ->
  exists msg, decode_utf8 b = Raise (Exn "UnicodeDecodeError" msg).
Proof.
  intros H. unfold decode_utf8.
  destruct (first_fault b 0) as [f |] eqn:Hf; [eexists; reflexivity |].
  apply first_fault_valid in Hf. congruence.
Qed.

Section RepositoryShape.
Context {C : Type}.
Variable get_ratings_table : M C table_handle.

Local Abbreviation refresh := (_refresh_table get_ratings_table).

Lemma refresh_ok_inv (st st' : @repo C) :
  refresh st = (Ok tt, st') ->
  get_ratings_table (snd st) = (Ok (fst st'), snd st').
Proof.
  destruct st as [t c]. unfold _refresh_table. simpl.
  destruct (get_ratings_table c) as [[t' | e] c']; [| discriminate].
  intros H; inversion H; reflexivity.
Qed.

Lemma find_by_movie_id_body_eq movie_id limit (st : @repo C) :
  find_by_movie_id_body movie_id limit st =
  match fst st with
  | LiveTable rows => (movie_scan_loop movie_id limit rows [], st)
  | DeadTable e => (Raise e, st)
  end.
Proof.
  unfold find_by_movie_id_body. rewrite try_except_reraise.
  destruct st as [[rows | e] c]; unfold bind, self_table_scan, lift; simpl.
  - rewrite filter_all_rows. reflexivity.
  - reflexivity.
Qed.

Lemma find_by_user_id_body_eq user_id limit (st : @repo C) :
  find_by_user_id_body user_id limit st =
  match fst st with
  | LiveTable rows =>
      (user_scan_loop limit
         (List.filter
            (fun r => in_row_range (Some (String.append user_id "_"))
                        (Some (String.append user_id "_~")) (row_key r))
            rows) [], st)
  | DeadTable e => (Raise e, st)
  end.
Proof.
  unfold find_by_user_id_body. rewrite try_except_reraise.
  destruct st as [[rows | e] c]; unfold bind, self_table_scan, lift; simpl;
    reflexivity.
Qed.

(** A call of [find_by_movie_id] that returns has scanned the rows of the
    table that the repository holds afterwards. *)
Lemma find_by_movie_id_ok_inv movie_id limit (st st' : @repo C) rs :
  find_by_movie_id get_ratings_table movie_id limit st = (Ok rs, st') ->
  exists rows,
    fst st' = LiveTable rows /\ movie_scan_loop movie_id limit rows [] = Ok rs.
Proof.
  intros H. apply retry2_ok_inv in H. destruct H as [s0 [s1 [_ H]]].
  rewrite find_by_movie_id_body_eq in H.
  destruct (fst s1) as [rows | e] eqn:Ht; [| discriminate].
  inversion H; subst. exists rows. split; [exact Ht | reflexivity].
Qed.

Lemma find_by_user_id_ok_inv user_id limit (st st' : @repo C) rs :
  find_by_user_id get_ratings_table user_id limit st = (Ok rs, st') ->
  exists rows,
    fst st' = LiveTable rows /\
    user_scan_loop limit
      (List.filter
         (fun r => in_row_range (Some (String.append user_id "_"))
                     (Some (String.append user_id "_~")) (row_key r))
         rows) [] = Ok rs.
Proof.
  intros H. apply retry2_ok_inv in H. destruct H as [s0 [s1 [_ H]]].
  rewrite find_by_user_id_body_eq in H.
  destruct (fst s1) as [rows | e] eqn:Ht; [| discriminate].
  inversion H; subst. exists rows. split; [exact Ht | reflexivity].
Qed.

(** On a connection that hands out a live table, the decorated methods run
    their loop once over its rows. *)
Lemma find_by_movie_id_live movie_id limit (t : table_handle) (c c' : C) rows rs :
  get_ratings_table c = (Ok (LiveTable rows), c') ->
  movie_scan_loop movie_id limit rows [] = Ok rs ->
  find_by_movie_id get_ratings_table movie_id limit (t, c)
  = (Ok rs, (LiveTable rows, c')).
Proof.
  intros Hg Hl. unfold find_by_movie_id.
  apply retry2_first_try with (s1 := (LiveTable rows, c')).
  - unfold _refresh_table. rewrite Hg. reflexivity.
  - rewrite find_by_movie_id_body_eq. simpl. rewrite Hl. reflexivity.
Qed.

Lemma find_by_user_id_live user_id limit (t : table_handle) (c c' : C) rows rs :
  get_ratings_table c = (Ok (LiveTable rows), c') ->
  user_scan_loop limit
    (List.filter
       (fun r => in_row_range (Some (String.append user_id "_"))
                   (Some (String.append user_id "_~")) (row_key r))
       rows) [] = Ok rs ->
  find_by_user_id get_ratings_table user_id limit (t, c)
  = (Ok rs, (LiveTable rows, c')).
Proof.
  intros Hg Hl. unfold find_by_user_id.
  apply retry2_first_try with (s1 := (LiveTable rows, c')).
  - unfold _refresh_table. rewrite Hg. reflexivity.
  - rewrite find_by_user_id_body_eq. simpl. rewrite Hl. reflexivity.
Qed.

End RepositoryShape.

(** ** The loop of [find_by_movie_id] *)

Ltac loop_cases :=
  repeat match goal with
  | |- context [decode_utf8 ?b] =>
      let E := fresh "Hdec" in
      destruct (decode_utf8 b) eqn:E; simpl
  | |- context [get_decoded ?d ?c ?x] =>
      let E := fresh "Hget" in
      destruct (get_decoded d c x) eqn:E; simpl
  | |- context [split ?c ?s] =>
      let E := fresh "Hsplit" in
      destruct (split c s) as [| ? [| ? [| ? ?]]] eqn:E; simpl
  | |- context [String.eqb ?a ?b] =>
      let E := fresh "Heqb" in
      destruct (String.eqb a b) eqn:E; simpl
  end.

Lemma limit_reached_zero (ratings : list rating_dict) :
  limit_reached (Some 0) ratings = limit_reached None ratings.
Proof. reflexivity. Qed.

Lemma movie_scan_loop_limit0 movie_id rows acc :
  movie_scan_loop movie_id (Some 0) rows acc
  = movie_scan_loop movie_id None rows acc.
Proof.
  revert acc. induction rows as [| r rows IH]; intros acc; simpl;
    [reflexivity |].
  loop_cases; auto.
Qed.

Lemma limit_reached_pos n (ratings : list rating_dict) :
  0 < n ->
  limit_reached (Some n) ratings = (Z.of_nat (length ratings) >=? n).
Proof.
  intros Hn. unfold limit_reached.
  destruct (Z.eqb_spec n 0); [lia | reflexivity].
Qed.

Lemma movie_scan_loop_length movie_id n rows acc rs :
  0 < n -> Z.of_nat (length acc) < n ->
  movie_scan_loop movie_id (Some n) rows acc = Ok rs ->
  Z.of_nat (length rs) <= n.
Proof.
  intros Hn. revert acc.
  induction rows as [| r rows IH]; intros acc Hacc; simpl.
  - intros H; inversion H; subst. lia.
  - loop_cases; try discriminate; try (apply IH; exact Hacc).
    rewrite limit_reached_pos by exact Hn.
    match goal with
    | |- context [Z.of_nat (length ?l) >=? n] =>
        destruct (Z.geb_spec (Z.of_nat (length l)) n) as [Hge | Hlt]
    end.
    + intros H; inversion H; subst.
      rewrite length_app in *. simpl in *. lia.
    + apply IH. exact Hlt.
Qed.

Lemma movie_scan_loop_extends movie_id limit rows acc rs :
  movie_scan_loop movie_id limit rows acc = Ok rs ->
  exists tail, rs = acc ++ tail.
Proof.
  revert acc. induction rows as [| r rows IH]; intros acc; simpl.
  - intros H; inversion H. exists []. rewrite app_nil_r. reflexivity.
  - loop_cases; try discriminate; try apply IH.
    destruct (limit_reached limit _).
    + intros H; inversion H. eexists. reflexivity.
    + intros H. apply IH in H. destruct H as [tail ->].
      rewrite <- app_assoc. eexists. reflexivity.
Qed.

(** With a positive limit the loop returns the first [limit] entries of
    what the loop without limit returns. *)
Lemma movie_scan_loop_prefix movie_id n rows acc all :
  0 < n -> Z.of_nat (length acc) < n ->
  movie_scan_loop movie_id None rows acc = Ok all ->
  movie_scan_loop movie_id (Some n) rows acc = Ok (firstn (Z.to_nat n) all).
Proof.
  intros Hn. revert acc.
  induction rows as [| r rows IH]; intros acc Hacc; simpl.
  - intros H; inversion H; subst.
    rewrite firstn_all2 by lia. reflexivity.
  - loop_cases; try discriminate; try (apply IH; exact Hacc).
    rewrite limit_reached_pos by exact Hn.
    match goal with
    | |- context [Z.of_nat (length ?l) >=? n] =>
        destruct (Z.geb_spec (Z.of_nat (length l)) n) as [Hge | Hlt]
    end.
    + intros H. apply movie_scan_loop_extends in H. destruct H as [tail ->].
      rewrite length_app in Hge. simpl in Hge.
      rewrite firstn_app, length_app. simpl.
      replace (Z.to_nat n - (length acc + 1))%nat with O by lia.
      rewrite firstn_all2 by (rewrite length_app; simpl; lia).
      simpl. rewrite app_nil_r. reflexivity.
    + apply IH. exact Hlt.
Qed.

Lemma movie_scan_loop_movie movie_id limit rows acc rs :
  Forall (fun d => rd_movie_id d = movie_id) acc ->
  movie_scan_loop movie_id limit rows acc = Ok rs ->
  Forall (fun d => rd_movie_id d = movie_id) rs.
Proof.
  revert acc. induction rows as [| r rows IH]; intros acc Hacc; simpl.
  - intros H; inversion H; subst. exact Hacc.
  - loop_cases; try discriminate; try (apply IH; exact Hacc).
    apply String.eqb_eq in Heqb.
    match goal with
    | |- context [limit_reached limit ?l] =>
        assert (Hacc' : Forall (fun d => rd_movie_id d = movie_id) l)
    end.
    { apply Forall_app. split; [exact Hacc |].
      constructor; [exact Heqb | constructor]. }
    destruct (limit_reached limit _).
    + intros H; inversion H; subst. exact Hacc'.
    + apply IH. exact Hacc'.
Qed.

(** On rows that decode, the loop without limit returns the ratings of the
    movie as the specification describes them. *)
Lemma movie_scan_loop_refines movie_id rows acc :
  forallb row_decodable rows = true ->
  movie_scan_loop movie_id None rows acc
  = Ok (acc ++ ratings_of_movie movie_id rows).
Proof.
  revert acc. induction rows as [| r rows IH]; intros acc Hd; simpl.
  - unfold ratings_of_movie. simpl. rewrite app_nil_r. reflexivity.
  - simpl in Hd. apply andb_prop in Hd. destruct Hd as [Hr Hd].
    unfold row_decodable in Hr.
    apply andb_prop in Hr. destruct Hr as [Hr Hts].
    apply andb_prop in Hr. destruct Hr as [Hk Hrt].
    unfold get_decoded.
    rewrite (decode_utf8_valid _ Hk), (decode_utf8_valid _ Hrt),
      (decode_utf8_valid _ Hts). simpl.
    unfold ratings_of_movie, row_rating. simpl.
    destruct (split "_" (row_key r)) as [| a [| b [| c l]]] eqn:Hs; simpl;
      try (rewrite IH by exact Hd; reflexivity).
    destruct (String.eqb b movie_id) eqn:Hb; simpl.
    + rewrite IH by exact Hd. rewrite <- app_assoc. reflexivity.
    + rewrite IH by exact Hd. reflexivity.
Qed.

(** C9. [find_by_movie_id] with [limit=0] is [find_by_movie_id] with
    [limit=None]: on a table whose rows decode it returns every rating of
    the movie.  With a positive limit a call that returns has at most
    [limit] entries, and they are the first entries, in the order of the
    scan, of what the scan without limit collects. *)
Theorem find_by_movie_id_limit_zero_is_none {C : Type}
    (get_ratings_table : M C table_handle) (movie_id : string)
    (st : @repo C) :
  find_by_movie_id get_ratings_table movie_id (Some 0) st
  = find_by_movie_id get_ratings_table movie_id None st
  /\ (forall rows c',
        get_ratings_table (snd st) = (Ok (LiveTable rows), c') ->
        forallb row_decodable rows = true ->
        find_by_movie_id get_ratings_table movie_id (Some 0) st
        = (Ok (ratings_of_movie movie_id rows), (LiveTable rows, c')))
  /\ (forall n rs st',
        0 < n ->
        find_by_movie_id get_ratings_table movie_id (Some n) st = (Ok rs, st') ->
        Z.of_nat (length rs) <= n
        /\ exists rows,
             fst st' = LiveTable rows
             /\ forall all,
                  movie_scan_loop movie_id None rows [] = Ok all ->
                  rs = firstn (Z.to_nat n) all)
  /\ (forall n rows c',
        0 < n ->
        get_ratings_table (snd st) = (Ok (LiveTable rows), c') ->
        forallb row_decodable rows = true ->
        find_by_movie_id get_ratings_table movie_id (Some n) st
        = (Ok (firstn (Z.to_nat n) (ratings_of_movie movie_id rows)),
           (LiveTable rows, c'))).
Proof.
  split; [| split; [| split]].
  - unfold find_by_movie_id. apply retry2_ext. intros s.
    rewrite !find_by_movie_id_body_eq.
    destruct (fst s); [| reflexivity].
    rewrite movie_scan_loop_limit0. reflexivity.
  - intros rows c' Hg Hd. destruct st as [t c]. simpl in Hg.
    apply find_by_movie_id_live; [exact Hg |].
    rewrite movie_scan_loop_limit0.
    apply (movie_scan_loop_refines movie_id rows [] Hd).
  - intros n rs st' Hn H.
    apply find_by_movie_id_ok_inv in H. destruct H as [rows [Ht Hl]].
    split.
    + apply (movie_scan_loop_length movie_id n rows [] rs Hn);
        [simpl; lia | exact Hl].
    + exists rows. split; [exact Ht |]. intros all Hall.
      apply (movie_scan_loop_prefix movie_id n rows [] all Hn) in Hall;
        [| simpl; lia].
      rewrite Hall in Hl. inversion Hl. reflexivity.
  - intros n rows c' Hn Hg Hd. destruct st as [t c]. simpl in Hg.
    apply find_by_movie_id_live; [exact Hg |].
    apply movie_scan_loop_prefix; [exact Hn | simpl; lia |].
    apply (movie_scan_loop_refines movie_id rows [] Hd).
Qed.

Lemma find_by_movie_id_limit_zero_is_none_witness :
  find_by_movie_id (serving scenario_rows) "m1" (Some 0) (DeadTable broken_pipe, tt)
  = (Ok [RatingDict "u1" "m1" "5" ""; RatingDict "u2" "m1" "3" ""],
     (LiveTable scenario_rows, tt))
  /\ find_by_movie_id (serving scenario_rows) "m1" (Some 1) (DeadTable broken_pipe, tt)
     = (Ok [RatingDict "u1" "m1" "5" ""], (LiveTable scenario_rows, tt)).
Proof.
  split.
  - apply (proj1 (proj2 (find_by_movie_id_limit_zero_is_none
             (serving scenario_rows) "m1" (DeadTable broken_pipe, tt)))
             scenario_rows tt); reflexivity.
  - apply (proj2 (proj2 (proj2 (find_by_movie_id_limit_zero_is_none
             (serving scenario_rows) "m1" (DeadTable broken_pipe, tt))))
             1 scenario_rows tt); [lia | reflexivity | reflexivity].
Defined.

(** ** Malformed keys and missing columns *)

Lemma movie_scan_loop_skip movie_id limit (r : row) pre post acc :
  utf8_valid (row_key r) = true ->
  length (split "_" (row_key r)) <> 2%nat ->
  movie_scan_loop movie_id limit (pre ++ r :: post) acc
  = movie_scan_loop movie_id limit (pre ++ post) acc.
Proof.
  intros Hv Hlen. revert acc.
  induction pre as [| p pre IH]; intros acc; simpl.
  - rewrite (decode_utf8_valid _ Hv). simpl.
    destruct (split "_" (row_key r)) as [| a [| b [| c l]]]; simpl in *;
      try reflexivity.
    contradiction Hlen. reflexivity.
  - loop_cases; auto.
    destruct (limit_reached limit _); auto.
Qed.

Lemma user_scan_loop_skip limit (r : row) pre post acc :
  utf8_valid (row_key r) = true ->
  length (split "_" (row_key r)) <> 2%nat ->
  user_scan_loop limit (pre ++ r :: post) acc
  = user_scan_loop limit (pre ++ post) acc.
Proof.
  intros Hv Hlen. revert acc.
  induction pre as [| p pre IH]; intros acc; simpl.
  - rewrite (decode_utf8_valid _ Hv). simpl.
    destruct (split "_" (row_key r)) as [| a [| b [| c l]]]; simpl in *;
      try reflexivity.
    contradiction Hlen. reflexivity.
  - loop_cases; auto.
    destruct (_ >=? limit); auto.
Qed.

(** C8 (amended). In both scans a row whose key decodes and does not split
    on the delimiter into exactly two parts is skipped: the scan goes on
    and returns what it returns without that row.  A row whose key has two
    parts is kept, whether or not a part is empty, and its record takes
    "0" for a missing rating column and the empty string for a missing
    timestamp column. *)
Theorem scans_skip_keys_without_two_parts (r : row) :
  utf8_valid (row_key r) = true ->
  (length (split "_" (row_key r)) <> 2%nat ->
   forall pre post acc,
     (forall movie_id limit,
        movie_scan_loop movie_id limit (pre ++ r :: post) acc
        = movie_scan_loop movie_id limit (pre ++ post) acc)
     /\ (forall limit,
           user_scan_loop limit (pre ++ r :: post) acc
           = user_scan_loop limit (pre ++ post) acc))
  /\ (forall a b,
        split "_" (row_key r) = [a; b] ->
        utf8_valid (default "0" (row_data r !! "data:rating")) = true ->
        utf8_valid (default "" (row_data r !! "data:timestamp")) = true ->
        exists d,
          rd_user_id d = a /\ rd_movie_id d = b
          /\ (row_data r !! "data:rating" = None -> rd_rating d = "0")
          /\ (forall v, row_data r !! "data:rating" = Some v -> rd_rating d = v)
          /\ (row_data r !! "data:timestamp" = None -> rd_timestamp d = "")
          /\ (forall v, row_data r !! "data:timestamp" = Some v ->
                        rd_timestamp d = v)
          /\ (forall limit rows acc,
                movie_scan_loop b limit (r :: rows) acc
                = if limit_reached limit (acc ++ [d]) then Ok (acc ++ [d])
                  else movie_scan_loop b limit rows (acc ++ [d]))
          /\ (forall limit rows acc,
                user_scan_loop limit (r :: rows) acc
                = if Z.of_nat (length (acc ++ [d])) >=? limit
                  then Ok (acc ++ [d])
                  else user_scan_loop limit rows (acc ++ [d]))).
Proof.
  intros Hv. split.
  - intros Hlen pre post acc. split.
    + intros movie_id limit. apply movie_scan_loop_skip; assumption.
    + intros limit. apply user_scan_loop_skip; assumption.
  - intros a b Hs Hrt Hts.
    exists (RatingDict a b (default "0" (row_data r !! "data:rating"))
              (default "" (row_data r !! "data:timestamp"))).
    simpl. repeat split.
    + intros ->. reflexivity.
    + intros v ->. reflexivity.
    + intros ->. reflexivity.
    + intros v ->. reflexivity.
    + intros limit rows acc. unfold get_decoded.
      rewrite (decode_utf8_valid _ Hv), (decode_utf8_valid _ Hrt),
        (decode_utf8_valid _ Hts). simpl.
      rewrite Hs, String.eqb_refl. reflexivity.
    + intros limit rows acc. unfold get_decoded.
      rewrite (decode_utf8_valid _ Hv), (decode_utf8_valid _ Hrt),
        (decode_utf8_valid _ Hts). simpl.
      rewrite Hs. reflexivity.
Qed.

Lemma scans_skip_keys_without_two_parts_witness :
  (forall movie_id limit,
     movie_scan_loop movie_id limit
       ([Row "u1_m1" ∅] ++ Row "u1_m1_x" ∅ :: [Row "u2_m1" ∅]) []
     = movie_scan_loop movie_id limit ([Row "u1_m1" ∅] ++ [Row "u2_m1" ∅]) [])
  /\ movie_scan_loop "m1" None [Row "u1_m1" ∅] []
     = Ok [RatingDict "u1" "m1" "0" ""].
Proof.
  split.
  - apply (proj1 (scans_skip_keys_without_two_parts (Row "u1_m1_x" ∅)
                    eq_refl)).
    simpl. lia.
  - assert (Hrt : utf8_valid
                    (default "0" (row_data (Row "u1_m1" ∅) !! "data:rating"))
                  = true) by (vm_compute; reflexivity).
    assert (Hts : utf8_valid
                    (default "" (row_data (Row "u1_m1" ∅) !! "data:timestamp"))
                  = true) by (vm_compute; reflexivity).
    destruct (proj2 (scans_skip_keys_without_two_parts (Row "u1_m1" ∅)
                       eq_refl) "u1" "m1" eq_refl Hrt Hts)
      as [d [Hu [Hm [Hr [_ [Ht [_ [Hloop _]]]]]]]].
    rewrite (Hloop None [] []).
    destruct d as [du dm dr dt]. simpl in *.
    rewrite Hu, Hm, (Hr eq_refl), (Ht eq_refl). reflexivity.
Defined.

(** C8 as stated fails: the keys [_m1] and [u1_] do not split into two
    non-empty parts, yet their rows are returned, with an empty user and
    an empty movie. *)
Lemma rows_with_an_empty_key_part_are_kept :
  two_nonempty_parts "_m1" = false
  /\ fst (find_by_movie_id (serving [Row "_m1" {["data:rating" := "4"]}])
            "m1" None (DeadTable broken_pipe, tt))
     = Ok [RatingDict "" "m1" "4" ""]
  /\ two_nonempty_parts "u1_" = false
  /\ fst (find_by_user_id (serving [Row "u1_" {["data:rating" := "4"]}])
            "u1" 10 (DeadTable broken_pipe, tt))
     = Ok [RatingDict "u1" "" "4" ""].
Proof. repeat split; vm_compute; reflexivity. Qed.

(** ** Keys in the range of a user *)

Lemma split_not_nil sep s : split sep s <> [].
Proof.
  destruct s as [| c s]; simpl; [discriminate |].
  destruct (Ascii.eqb c sep); [discriminate |].
  destruct (split sep s); discriminate.
Qed.

Lemma split_singleton sep s x : split sep s = [x] -> x = s.
Proof.
  revert x. induction s as [| c s IH]; intros x; simpl.
  - intros H; inversion H; reflexivity.
  - destruct (Ascii.eqb c sep).
    + intros H; inversion H as [[Hx Hs]].
      exfalso. exact (split_not_nil sep s Hs).
    + destruct (split sep s) as [| p ps] eqn:Hs.
      * exfalso. exact (split_not_nil sep s Hs).
      * intros H; inversion H; subst. f_equal. apply IH. reflexivity.
Qed.

Lemma split_app sep a b :
  split sep (String.append a (String sep b)) = split sep a ++ split sep b.
Proof.
  induction a as [| c a IH]; simpl.
  - rewrite Ascii.eqb_refl. reflexivity.
  - destruct (Ascii.eqb c sep); [rewrite IH; reflexivity |].
    rewrite IH.
    destruct (split sep a) as [| p ps] eqn:Hs;
      [exfalso; exact (split_not_nil sep a Hs) | reflexivity].
Qed.

(** A key between [user_id + "_"] (inclusive) and [user_id + "_~"]
    (exclusive) starts with [user_id + "_"]. *)
Lemma range_prefix (u key : string) :
  String.leb (String.append u "_") key = true ->
  String.ltb key (String.append u "_~") = true ->
  exists rest, key = String.append u (String "_" rest).
Proof.
  unfold String.leb, String.ltb. revert key.
  induction u as [| a u IH]; intros key; simpl.
  - destruct key as [| c k]; simpl; [discriminate |].
    rewrite (Ascii.compare_antisym c "_").
    destruct (Ascii.compare "_" c) eqn:Hc; simpl; try discriminate.
    apply Ascii.compare_eq_iff in Hc. subst c. intros _ _.
    exists k. reflexivity.
  - destruct key as [| c k]; simpl; [discriminate |].
    rewrite (Ascii.compare_antisym c a).
    destruct (Ascii.compare a c) eqn:Hc; simpl; try discriminate.
    apply Ascii.compare_eq_iff in Hc. subst c. intros H1 H2.
    destruct (IH k H1 H2) as [rest ->]. exists rest. reflexivity.
Qed.

Lemma range_first_component (u key a b : string) :
  in_row_range (Some (String.append u "_")) (Some (String.append u "_~")) key
  = true ->
  split "_" key = [a; b] -> a = u.
Proof.
  unfold in_row_range. intros H. apply andb_prop in H. destruct H as [H1 H2].
  destruct (range_prefix u key H1 H2) as [rest ->].
  rewrite split_app. intros Hs.
  destruct (split "_" u) as [| p [| q ps]] eqn:Hu.
  - exfalso. exact (split_not_nil _ _ Hu).
  - simpl in Hs. inversion Hs; subst. apply split_singleton in Hu.
    exact Hu.
  - simpl in Hs. inversion Hs as [[Ha Hb Hnil]].
    apply app_eq_nil in Hnil. destruct Hnil as [_ Hnil].
    exfalso. exact (split_not_nil _ _ Hnil).
Qed.

(** ** The loop of [find_by_user_id] *)

Lemma user_scan_loop_user limit user_id rows acc rs :
  Forall (fun r => in_row_range (Some (String.append user_id "_"))
                     (Some (String.append user_id "_~")) (row_key r) = true)
    rows ->
  Forall (fun d => rd_user_id d = user_id) acc ->
  user_scan_loop limit rows acc = Ok rs ->
  Forall (fun d => rd_user_id d = user_id) rs.
Proof.
  intros Hrows. revert acc.
  induction Hrows as [| r rows Hr Hrows IH]; intros acc Hacc; simpl.
  - intros H; inversion H; subst. exact Hacc.
  - loop_cases; try discriminate; try (apply IH; exact Hacc).
    apply decode_utf8_ok in Hdec. subst.
    match goal with
    | |- context [Z.of_nat (length ?l) >=? limit] =>
        assert (Hacc' : Forall (fun d => rd_user_id d = user_id) l)
    end.
    { apply Forall_app. split; [exact Hacc |].
      constructor; [| constructor]. simpl.
      eapply range_first_component; eassumption. }
    destruct (_ >=? limit).
    + intros H; inversion H; subst. exact Hacc'.
    + apply IH. exact Hacc'.
Qed.

Lemma user_scan_loop_length limit rows acc rs :
  0 < limit -> Z.of_nat (length acc) < limit ->
  user_scan_loop limit rows acc = Ok rs ->
  Z.of_nat (length rs) <= limit.
Proof.
  intros Hn. revert acc.
  induction rows as [| r rows IH]; intros acc Hacc; simpl.
  - intros H; inversion H; subst. lia.
  - loop_cases; try discriminate; try (apply IH; exact Hacc).
    match goal with
    | |- context [Z.of_nat (length ?l) >=? limit] =>
        destruct (Z.geb_spec (Z.of_nat (length l)) limit) as [Hge | Hlt]
    end.
    + intros H; inversion H; subst.
      rewrite length_app in *. simpl in *. lia.
    + apply IH. exact Hlt.
Qed.

(** Once [limit] rows are collected the loop is over: what follows in the
    scan is not looked at. *)
Lemma user_scan_loop_stops limit pre post acc rs :
  Z.of_nat (length acc) < limit ->
  user_scan_loop limit pre acc = Ok rs ->
  limit <= Z.of_nat (length rs) ->
  user_scan_loop limit (pre ++ post) acc = Ok rs.
Proof.
  revert acc. induction pre as [| r pre IH]; intros acc Hacc; simpl.
  - intros H Hlen; inversion H; subst. lia.
  - loop_cases; try discriminate; try (apply IH; exact Hacc).
    match goal with
    | |- context [Z.of_nat (length ?l) >=? limit] =>
        destruct (Z.geb_spec (Z.of_nat (length l)) limit) as [Hge | Hlt]
    end.
    + intros H _. exact H.
    + apply IH. exact Hlt.
Qed.

Lemma filter_in_range lo hi (rows : list row) :
  Forall (fun r => in_row_range lo hi (row_key r) = true)
    (List.filter (fun r => in_row_range lo hi (row_key r)) rows).
Proof.
  apply List.Forall_forall. intros r Hin.
  apply List.filter_In in Hin. exact (proj2 Hin).
Qed.

(** C7. For a positive limit, a call of [find_by_user_id] that returns has
    run its loop over the rows of the table whose key lies between
    [user_id + "_"] (inclusive) and [user_id + "_~"] (exclusive) and over
    no others; every record it returns carries the queried user as its
    first key component; it returns at most [limit] records; and once
    [limit] records are collected the rows that follow are not looked at.
    On a connection that hands out a live table the call returns what
    that loop returns. *)
Theorem find_by_user_id_scans_user_range {C : Type}
    (get_ratings_table : M C table_handle) (user_id : string) (limit : Z)
    (st : @repo C) :
  0 < limit ->
  (forall rs st',
     find_by_user_id get_ratings_table user_id limit st = (Ok rs, st') ->
     (exists rows,
        fst st' = LiveTable rows
        /\ user_scan_loop limit
             (List.filter
                (fun r => in_row_range (Some (String.append user_id "_"))
                            (Some (String.append user_id "_~")) (row_key r))
                rows) [] = Ok rs)
     /\ Forall (fun d => rd_user_id d = user_id) rs
     /\ Z.of_nat (length rs) <= limit)
  /\ (forall pre post rs,
        user_scan_loop limit pre [] = Ok rs ->
        limit <= Z.of_nat (length rs) ->
        user_scan_loop limit (pre ++ post) [] = Ok rs)
  /\ (forall rows c' rs,
        get_ratings_table (snd st) = (Ok (LiveTable rows), c') ->
        user_scan_loop limit
          (List.filter
             (fun r => in_row_range (Some (String.append user_id "_"))
                         (Some (String.append user_id "_~")) (row_key r))
             rows) [] = Ok rs ->
        find_by_user_id get_ratings_table user_id limit st
        = (Ok rs, (LiveTable rows, c'))).
Proof.
  intros Hlimit. split; [| split].
  - intros rs st' H.
    apply find_by_user_id_ok_inv in H. destruct H as [rows [Ht Hl]].
    split; [| split].
    + exists rows. split; assumption.
    + eapply user_scan_loop_user; [apply filter_in_range | constructor | exact Hl].
    + eapply (user_scan_loop_length limit _ [] rs Hlimit); [simpl; lia | exact Hl].
  - intros pre post rs. apply user_scan_loop_stops. simpl. lia.
  - intros rows c' rs Hg Hl. destruct st as [t c]. simpl in Hg.
    apply find_by_user_id_live; assumption.
Qed.

Lemma find_by_user_id_scans_user_range_witness :
  find_by_user_id (serving users_rows) "u1" 10 (DeadTable broken_pipe, tt)
  = (Ok [RatingDict "u1" "m1" "5" ""; RatingDict "u1" "m2" "4.5" ""],
     (LiveTable users_rows, tt))
  /\ find_by_user_id (serving users_rows) "u1" 1 (DeadTable broken_pipe, tt)
     = (Ok [RatingDict "u1" "m1" "5" ""], (LiveTable users_rows, tt)).
Proof.
  split.
  - apply (proj2 (proj2 (find_by_user_id_scans_user_range
             (serving users_rows) "u1" 10 (DeadTable broken_pipe, tt)
             eq_refl))); vm_compute; reflexivity.
  - apply (proj2 (proj2 (find_by_user_id_scans_user_range
             (serving users_rows) "u1" 1 (DeadTable broken_pipe, tt)
             eq_refl))); vm_compute; reflexivity.
Defined.

(** ** Rounding *)

Lemma digits2_pos_size (p : positive) : digits2_pos p = Pos.size p.
Proof. induction p as [p IH | p IH |]; simpl; congruence. Qed.

Lemma Zdigits2_log2 (p : positive) : Zdigits2 (Zpos p) = Z.log2 (Zpos p) + 1.
Proof.
  simpl. rewrite digits2_pos_size. destruct p as [p | p |]; simpl; lia.
Qed.

Lemma shr_1_m (r : shr_record) :
  0 <= shr_m r -> shr_m (shr_1 r) = Z.shiftr (shr_m r) 1.
Proof.
  destruct r as [m r s]. simpl. intros Hm.
  destruct m as [| [p | p |] | p]; try reflexivity; lia.
Qed.

Lemma shr_m_iter (k : positive) (r : shr_record) :
  0 <= shr_m r -> shr_m (SpecFloat.iter_pos shr_1 k r) = Z.shiftr (shr_m r) (Zpos k).
Proof.
  revert r. induction k as [k IH | k IH |]; intros r Hr; cbn [SpecFloat.iter_pos].
  - assert (H1 : 0 <= shr_m (shr_1 r))
      by (rewrite shr_1_m by exact Hr; apply Z.shiftr_nonneg; exact Hr).
    assert (H2 : 0 <= shr_m (SpecFloat.iter_pos shr_1 k (shr_1 r)))
      by (rewrite IH by exact H1; apply Z.shiftr_nonneg; exact H1).
    rewrite IH by exact H2. rewrite IH by exact H1. rewrite shr_1_m by exact Hr.
    rewrite !Z.shiftr_shiftr by lia. f_equal. lia.
  - assert (H1 : 0 <= shr_m (SpecFloat.iter_pos shr_1 k r))
      by (rewrite IH by exact Hr; apply Z.shiftr_nonneg; exact Hr).
    rewrite IH by exact H1. rewrite IH by exact Hr.
    rewrite Z.shiftr_shiftr by lia. f_equal. lia.
  - apply shr_1_m. exact Hr.
Qed.

Lemma shr_record_of_loc_m m l : shr_m (shr_record_of_loc m l) = m.
Proof. destruct l as [| []]; reflexivity. Qed.

(** Shifting a positive mantissa to its format keeps it positive, and
    keeps the position of its leading digit, as long as that position is
    above the smallest exponent. *)
Lemma shr_fexp_pos (m e : Z) (l : location) :
  0 < m -> -1074 < Zdigits2 m + e ->
  0 < shr_m (fst (shr_fexp 53 1024 m e l))
  /\ Zdigits2 (shr_m (fst (shr_fexp 53 1024 m e l)))
     + snd (shr_fexp 53 1024 m e l) = Zdigits2 m + e.
Proof.
  intros Hm HD. unfold shr_fexp, shr.
  destruct m as [| p | p]; try lia.
  rewrite Zdigits2_log2 in *.
  pose proof (Z.log2_nonneg (Z.pos p)) as Hlog0.
  assert (Hf : fexp 53 1024 (Z.log2 (Z.pos p) + 1 + e) - e <= Z.log2 (Zpos p)).
  { unfold fexp, emin. lia. }
  destruct (fexp 53 1024 (Z.log2 (Z.pos p) + 1 + e) - e) as [| k | k] eqn:Hk;
    cbn [fst snd];
    try (rewrite shr_record_of_loc_m, Zdigits2_log2; split; lia).
  rewrite shr_m_iter by (rewrite shr_record_of_loc_m; lia).
  rewrite shr_record_of_loc_m.
  assert (Hlog : Z.log2 (Z.shiftr (Z.pos p) (Z.pos k))
                 = Z.log2 (Z.pos p) - Z.pos k).
  { rewrite Z.log2_shiftr by lia. lia. }
  assert (Hpos : 0 < Z.shiftr (Z.pos p) (Z.pos k)).
  { rewrite Z.shiftr_div_pow2 by lia. apply Z.div_str_pos. split; [lia |].
    apply Z.le_trans with (2 ^ Z.log2 (Z.pos p)).
    - apply Z.pow_le_mono_r; lia.
    - apply Z.log2_spec. lia. }
  split; [exact Hpos |].
  destruct (Z.shiftr (Z.pos p) (Z.pos k)) as [| q | q] eqn:Hq; try lia.
  rewrite Zdigits2_log2. lia.
Qed.

Lemma round_nearest_even_ge (m : Z) (l : location) :
  m <= round_nearest_even m l.
Proof.
  unfold round_nearest_even. destruct l as [| []]; try lia.
  destruct (Z.even m); lia.
Qed.

Lemma Zdigits2_mono (a b : Z) : 0 < a -> a <= b -> Zdigits2 a <= Zdigits2 b.
Proof.
  intros Ha Hab. destruct a as [| p | p]; try lia.
  destruct b as [| q | q]; try lia.
  rewrite !Zdigits2_log2. pose proof (Z.log2_le_mono (Z.pos p) (Z.pos q) Hab).
  lia.
Qed.

(** Rounding a positive mantissa whose leading digit is above the
    smallest exponent gives a positive float or the positive infinity. *)
Lemma binary_round_aux_pos (m e : Z) (l : location) :
  0 < m -> -1074 < Zdigits2 m + e ->
  (exists m' e', binary_round_aux 53 1024 false m e l = S754_finite false m' e')
  \/ binary_round_aux 53 1024 false m e l = S754_infinity false.
Proof.
  intros Hm HD. unfold binary_round_aux.
  destruct (shr_fexp_pos m e l Hm HD) as [H1 H2].
  destruct (shr_fexp 53 1024 m e l) as [mrs1 e1]. cbn [fst snd] in H1, H2.
  pose proof (round_nearest_even_ge (shr_m mrs1) (loc_of_shr_record mrs1)) as Hr.
  set (m2 := round_nearest_even (shr_m mrs1) (loc_of_shr_record mrs1)) in *.
  assert (Hm2 : 0 < m2) by lia.
  assert (HD2 : -1074 < Zdigits2 m2 + e1).
  { pose proof (Zdigits2_mono (shr_m mrs1) m2 H1 Hr). lia. }
  destruct (shr_fexp_pos m2 e1 loc_Exact Hm2 HD2) as [H3 _].
  destruct (shr_fexp 53 1024 m2 e1 loc_Exact) as [mrs2 e2]. cbn [fst] in H3.
  destruct (shr_m mrs2) as [| q | q]; try lia.
  destruct (e2 <=? 1024 - 53); [left; eexists _, _; reflexivity | right; reflexivity].
Qed.

Lemma digits2_pos_iter_xO (p k : positive) :
  Zpos (digits2_pos (Pos.iter xO p k)) = Zpos (digits2_pos p) + Zpos k.
Proof.
  rewrite <- Pos2Z.inj_add. f_equal.
  induction k as [| k IH] using Pos.peano_ind.
  - simpl. lia.
  - rewrite Pos.iter_succ. simpl. rewrite IH. lia.
Qed.

(** The float of a positive [int] is positive: finite or infinite. *)
Lemma float_of_int_pos (n : Z) :
  0 < n ->
  (exists m e, float_of_int n = S754_finite false m e)
  \/ float_of_int n = S754_infinity false.
Proof.
  intros Hn. destruct n as [| p | p]; try lia.
  unfold float_of_int, binary_normalize, binary_round.
  destruct (shl_align p 0 (fexp 53 1024 (Z.pos (digits2_pos p) + 0)))
    as [mz ez] eqn:Hs.
  apply binary_round_aux_pos; [lia |].
  unfold shl_align in Hs.
  destruct (fexp 53 1024 (Z.pos (digits2_pos p) + 0) - 0) as [| d | d] eqn:Hd;
    inversion Hs; subst; cbn [Zdigits2]; try lia.
  rewrite digits2_pos_iter_xO. unfold fexp, emin in *. lia.
Qed.

Lemma float_div_by_length (total : float) (n : Z) :
  0 < n -> float_div total (float_of_int n)
           = Ok (SFdiv 53 1024 total (float_of_int n)).
Proof.
  intros Hn. unfold float_div.
  destruct (float_of_int_pos n Hn) as [[m [e ->]] | ->]; reflexivity.
Qed.

(** Above zero, rounding toward zero is the floor. *)
Lemma quot_floor (q : Q) :
  (0 <= q)%Q -> Z.quot (Qnum q) (Zpos (Qden q)) = Qfloor q.
Proof.
  destruct q as [num den]. unfold Qle. simpl. intros H.
  apply Z.quot_div_nonneg; lia.
Qed.

Lemma float_geb_int_finite (x : float) (n : Z) :
  is_finite x = true ->
  float_geb_int x n = Qle_bool (inject_Z n) (float_rational x).
Proof. destruct x; try discriminate; reflexivity. Qed.

(** The bucket of the code is the bucket of the specification, for every
    rating but the positive infinity, which has no floor. *)
Lemma rating_key_bucket_label (x : float) :
  x <> S754_infinity false -> rating_key x = Ok (bucket_label x).
Proof.
  intros Hx. unfold rating_key, bucket_label.
  destruct (float_geb_int x 1) eqn:Hge; [| reflexivity].
  destruct x as [s | [] | | s m e]; try discriminate; try contradiction;
    unfold int_of_float; cbn [rbind]; do 2 f_equal; apply quot_floor;
    rewrite float_geb_int_finite in Hge by reflexivity;
    apply Qle_bool_iff in Hge; change (inject_Z 1) with 1%Q in Hge; lra.
Qed.

Lemma rating_key_ok (x : float) (k : string) :
  rating_key x = Ok k -> x <> S754_infinity false /\ k = bucket_label x.
Proof.
  intros H. assert (Hx : x <> S754_infinity false).
  { intros ->. discriminate H. }
  split; [exact Hx |]. rewrite (rating_key_bucket_label x Hx) in H.
  inversion H. reflexivity.
Qed.

(** ** Rating statistics *)

Lemma sum_counts_insert_fresh (d : gmap string Z) k n :
  d !! k = None -> sum_counts (<[k := n]> d) = n + sum_counts d.
Proof.
  intros Hk. unfold sum_counts.
  rewrite map_fold_insert_L; [reflexivity | | exact Hk].
  intros; lia.
Qed.

Lemma sum_counts_delete (d : gmap string Z) k n :
  d !! k = Some n -> sum_counts d = n + sum_counts (delete k d).
Proof.
  intros Hk. unfold sum_counts.
  rewrite (map_fold_delete_L _ _ k n d); [reflexivity | | exact Hk].
  intros; lia.
Qed.

(** [distribution[rating_key] += 1] adds one to the sum of the counts. *)
Lemma sum_counts_incr (d : gmap string Z) k :
  sum_counts (<[k := default 0 (d !! k) + 1]> d) = sum_counts d + 1.
Proof.
  destruct (d !! k) as [n |] eqn:Hk; simpl.
  - rewrite <- insert_delete_eq.
    rewrite sum_counts_insert_fresh by apply lookup_delete_eq.
    rewrite (sum_counts_delete d k n Hk). lia.
  - rewrite sum_counts_insert_fresh by exact Hk. lia.
Qed.

Lemma stats_loop_sum_counts all total d total' d' :
  stats_loop all total d = Ok (total', d') ->
  sum_counts d' = sum_counts d + Z.of_nat (length all).
Proof.
  revert total d. induction all as [| r all IH]; intros total d; simpl.
  - intros H; inversion H; subst. lia.
  - destruct (float_of_str (rd_rating r)) as [x | e]; simpl; [| discriminate].
    destruct (rating_key x) as [k | e]; simpl; [| discriminate].
    intros H. apply IH in H. rewrite H, sum_counts_incr. lia.
Qed.

Lemma sum_counts_empty : sum_counts ∅ = 0.
Proof. unfold sum_counts. apply map_fold_empty. Qed.

Lemma stats_of_ratings_sum_counts all stats :
  stats_of_ratings all = Ok stats ->
  sum_counts (rating_distribution stats) = total_count stats.
Proof.
  unfold stats_of_ratings. destruct all as [| r all].
  - intros H; inversion H; subst. simpl. apply sum_counts_empty.
  - destruct (stats_loop (r :: all) (S754_zero false) ∅) as [[total d] | e] eqn:Hl;
      simpl; [| discriminate].
    destruct (float_div total _) as [avg | e]; simpl; [| discriminate].
    intros H; inversion H; subst. simpl.
    apply stats_loop_sum_counts in Hl. rewrite Hl, sum_counts_empty.
    simpl. lia.
Qed.

Section StatsShape.
Context {C : Type}.
Variable get_ratings_table : M C table_handle.

(** A call of [get_rating_stats] that returns has reduced the ratings that
    the scan without limit collected from the table the repository holds
    afterwards. *)
Lemma get_rating_stats_ok_inv movie_id (st st' : @repo C) stats :
  get_rating_stats get_ratings_table movie_id st = (Ok stats, st') ->
  exists rows all,
    fst st' = LiveTable rows
    /\ movie_scan_loop movie_id None rows [] = Ok all
    /\ stats_of_ratings all = Ok stats.
Proof.
  intros H. apply retry2_ok_inv in H. destruct H as [s0 [s1 [_ H]]].
  unfold get_rating_stats_body in H. rewrite try_except_reraise in H.
  unfold bind, lift in H.
  destruct (find_by_movie_id get_ratings_table movie_id None s1)
    as [[all | e] s2] eqn:Hf; [| discriminate].
  inversion H; subst.
  apply find_by_movie_id_ok_inv in Hf. destruct Hf as [rows [Ht Hl]].
  exists rows, all. repeat split; assumption.
Qed.

(** On a connection that hands out a live table twice (once for
    [get_rating_stats], once for the [find_by_movie_id] it calls), the
    statistics are those of the ratings that the scan collects. *)
Lemma get_rating_stats_live movie_id (t : table_handle) (c c1 c2 : C)
    rows1 rows all stats :
  get_ratings_table c = (Ok (LiveTable rows1), c1) ->
  get_ratings_table c1 = (Ok (LiveTable rows), c2) ->
  movie_scan_loop movie_id None rows [] = Ok all ->
  stats_of_ratings all = Ok stats ->
  get_rating_stats get_ratings_table movie_id (t, c)
  = (Ok stats, (LiveTable rows, c2)).
Proof.
  intros Hg1 Hg2 Hl Hs. unfold get_rating_stats.
  apply retry2_first_try with (s1 := (LiveTable rows1, c1)).
  - unfold _refresh_table. rewrite Hg1. reflexivity.
  - unfold get_rating_stats_body. rewrite try_except_reraise.
    unfold bind, lift.
    rewrite (find_by_movie_id_live get_ratings_table movie_id None
               (LiveTable rows1) c1 c2 rows all Hg2 Hl).
    rewrite Hs. reflexivity.
Qed.

End StatsShape.

(** C10. In every result of [get_rating_stats] the counts of
    [rating_distribution] add up to [total_count]: each rating went into
    exactly one bucket. *)
Theorem rating_distribution_sums_to_total_count {C : Type}
    (get_ratings_table : M C table_handle) (movie_id : string)
    (st st' : @repo C) (stats : rating_stats) :
  get_rating_stats get_ratings_table movie_id st = (Ok stats, st') ->
  sum_counts (rating_distribution stats) = total_count stats.
Proof.
  intros H. apply get_rating_stats_ok_inv in H.
  destruct H as [rows [all [_ [_ Hs]]]].
  eapply stats_of_ratings_sum_counts. exact Hs.
Qed.

Lemma rating_distribution_sums_to_total_count_witness :
  sum_counts ({["5" := 1]} ∪ {["3" := 1]}) = 2.
Proof.
  pose proof (rating_distribution_sums_to_total_count
                (serving scenario_rows) "m1"
                (DeadTable broken_pipe, tt) (LiveTable scenario_rows, tt)
                (RatingStats (float_of_int 4) 2 ({["5" := 1]} ∪ {["3" := 1]})))
    as H.
  simpl in H. apply H. vm_compute. reflexivity.
Defined.

Lemma bucket_count_cons label x values :
  bucket_count label (x :: values)
  = (if String.eqb (bucket_label x) label then 1 else 0)
    + bucket_count label values.
Proof.
  unfold bucket_count. simpl.
  destruct (String.eqb (bucket_label x) label); simpl; lia.
Qed.

Lemma bucket_count_nonneg label values : 0 <= bucket_count label values.
Proof. unfold bucket_count. lia. Qed.

Lemma stats_loop_spec all total d total' d' :
  stats_loop all total d = Ok (total', d') ->
  exists values,
    map_result (fun r => float_of_str (rd_rating r)) all = Ok values
    /\ Forall (fun v => v <> S754_infinity false) values
    /\ total' = fold_left float_add values total
    /\ forall label,
         default 0 (d' !! label)
         = default 0 (d !! label) + bucket_count label values
         /\ (d' !! label = None <->
             d !! label = None /\ bucket_count label values = 0).
Proof.
  revert total d. induction all as [| r all IH]; intros total d; simpl.
  - intros H; inversion H; subst. exists []. split; [reflexivity |].
    split; [constructor |]. split; [reflexivity |].
    intros label. unfold bucket_count. simpl. split; [lia | tauto].
  - destruct (float_of_str (rd_rating r)) as [x | e]; simpl; [| discriminate].
    destruct (rating_key x) as [k | e] eqn:Hk; simpl; [| discriminate].
    apply rating_key_ok in Hk. destruct Hk as [Hx ->].
    intros H. apply IH in H. destruct H as [values [Hv [Hinf [Ht Hd]]]].
    exists (x :: values). rewrite Hv. simpl. split; [reflexivity |].
    split; [constructor; assumption |]. split; [exact Ht |].
    intros label. destruct (Hd label) as [Hd1 Hd2].
    rewrite bucket_count_cons.
    pose proof (bucket_count_nonneg label values) as Hnn.
    destruct (String.eqb_spec (bucket_label x) label) as [Heq | Hne].
    * subst label. rewrite lookup_insert_eq in Hd1, Hd2. simpl in Hd1.
      split; [lia |]. rewrite Hd2. split; [intros [Habs _]; discriminate |].
      intros [_ Habs]. lia.
    * rewrite lookup_insert_ne in Hd1, Hd2 by exact Hne.
      split; [lia |]. rewrite Hd2. split; intros [H1 H2]; split; auto; lia.
Qed.

Lemma stats_loop_total all total d values :
  map_result (fun r => float_of_str (rd_rating r)) all = Ok values ->
  Forall (fun v => v <> S754_infinity false) values ->
  exists total' d', stats_loop all total d = Ok (total', d').
Proof.
  revert total d values. induction all as [| r all IH]; intros total d values;
    simpl.
  - intros _ _. eexists _, _. reflexivity.
  - destruct (float_of_str (rd_rating r)) as [x | e]; simpl; [| discriminate].
    destruct (map_result _ all) as [vs | e] eqn:Hm; simpl; [| discriminate].
    intros H Hinf. inversion H; subst values. inversion Hinf; subst.
    rewrite rating_key_bucket_label by assumption. simpl.
    eapply IH; [reflexivity | assumption].
Qed.

Lemma map_result_length {A B} (f : A -> result B) l ys :
  map_result f l = Ok ys -> length ys = length l.
Proof.
  revert ys. induction l as [| x l IH]; intros ys; simpl.
  - intros H; inversion H; reflexivity.
  - destruct (f x) as [y | e]; simpl; [| discriminate].
    destruct (map_result f l) as [ys' | e]; simpl; [| discriminate].
    intros H; inversion H; subst. simpl. f_equal. apply IH. reflexivity.
Qed.

(** What [get_rating_stats] makes of the ratings it fetched. *)
Lemma stats_of_ratings_spec all stats :
  stats_of_ratings all = Ok stats ->
  exists values,
    map_result (fun r => float_of_str (rd_rating r)) all = Ok values
    /\ Forall (fun v => v <> S754_infinity false) values
    /\ total_count stats = Z.of_nat (length values)
    /\ (values = [] -> stats = RatingStats (S754_zero false) 0 ∅)
    /\ (values <> [] ->
        float_div (sum_floats values) (float_of_int (Z.of_nat (length values)))
        = Ok (avg_rating stats))
    /\ forall label,
         rating_distribution stats !! label
         = if bucket_count label values =? 0 then None
           else Some (bucket_count label values).
Proof.
  unfold stats_of_ratings. destruct all as [| r all].
  - intros H; inversion H; subst. exists []. simpl.
    split; [reflexivity |]. split; [constructor |]. split; [reflexivity |].
    split; [reflexivity |]. split; [intros Hne; contradiction Hne; reflexivity |].
    intros label. unfold bucket_count. simpl. apply lookup_empty.
  - destruct (stats_loop (r :: all) (S754_zero false) ∅) as [[total d] | e]
      eqn:Hl; [| discriminate].
    cbn [rbind].
    destruct (float_div total (float_of_int (Z.of_nat (length (r :: all)))))
      as [avg | e] eqn:Hdiv; [| discriminate].
    cbn [rbind]. intros H; inversion H; subst. clear H.
    apply stats_loop_spec in Hl. destruct Hl as [values [Hv [Hinf [Ht Hd]]]].
    exists values. split; [exact Hv |]. split; [exact Hinf |].
    pose proof (map_result_length _ _ _ Hv) as Hlen.
    cbn [avg_rating total_count rating_distribution].
    split; [rewrite Hlen; reflexivity |].
    split; [intros ->; simpl in Hlen; discriminate Hlen |].
    split.
    + intros _. unfold sum_floats. rewrite Hlen, <- Ht. exact Hdiv.
    + intros label. destruct (Hd label) as [Hd1 Hd2].
      rewrite lookup_empty in Hd1, Hd2. simpl in Hd1.
      destruct (Z.eqb_spec (bucket_count label values) 0) as [Hz | Hnz].
      * apply Hd2. split; [reflexivity | exact Hz].
      * destruct (d !! label) as [n |] eqn:Hn.
        -- simpl in Hd1. rewrite Hd1. reflexivity.
        -- exfalso. apply Hnz. apply Hd2. reflexivity.
Qed.

(** The statistics exist as soon as the ratings read as numbers other than
    the positive infinity. *)
Lemma stats_of_ratings_total all values :
  map_result (fun r => float_of_str (rd_rating r)) all = Ok values ->
  Forall (fun v => v <> S754_infinity false) values ->
  exists stats, stats_of_ratings all = Ok stats.
Proof.
  intros Hv Hinf. unfold stats_of_ratings.
  destruct all as [| r all]; [eexists; reflexivity |].
  destruct (stats_loop_total (r :: all) (S754_zero false) ∅ values Hv Hinf)
    as [total' [d' Hloop]].
  rewrite Hloop. cbn [rbind].
  rewrite float_div_by_length by (cbn [length]; lia).
  eexists. reflexivity.
Qed.

(** C2. A call of [get_rating_stats] that returns has fetched, with a scan
    without limit, the ratings whose second key component is the movie;
    [total_count] is their number and [avg_rating] is their sum, added up
    in floats from 0.0 in the order of the scan, divided in floats by their
    number; with no ratings the result is [0.0], [0] and the empty
    distribution; the distribution counts every rating that is 1 or more
    under the text of its floor and every other rating under "0.5".  On a
    connection that hands out a live table whose rows decode and whose
    ratings read as numbers other than the positive infinity, the call
    returns.  A rating that reads as a NaN or as the negative infinity
    goes to "0.5"; the positive infinity has no floor and makes [int]
    raise.  For the rows [u1_m1] rated 5 and [u2_m1] rated 3 the result is
    4.0, 2 and one rating in each of the buckets "5" and "3". *)
Theorem get_rating_stats_reduces_movie_ratings {C : Type}
    (get_ratings_table : M C table_handle) (movie_id : string)
    (st : @repo C) :
  (forall stats st',
     get_rating_stats get_ratings_table movie_id st = (Ok stats, st') ->
     exists rows all values,
       fst st' = LiveTable rows
       /\ movie_scan_loop movie_id None rows [] = Ok all
       /\ Forall (fun d => rd_movie_id d = movie_id) all
       /\ (forallb row_decodable rows = true ->
           all = ratings_of_movie movie_id rows)
       /\ map_result (fun r => float_of_str (rd_rating r)) all = Ok values
       /\ Forall (fun v => v <> S754_infinity false) values
       /\ total_count stats = Z.of_nat (length values)
       /\ (values = [] -> stats = RatingStats (S754_zero false) 0 ∅)
       /\ (values <> [] ->
           float_div (sum_floats values)
             (float_of_int (Z.of_nat (length values)))
           = Ok (avg_rating stats))
       /\ forall label,
            rating_distribution stats !! label
            = if bucket_count label values =? 0 then None
              else Some (bucket_count label values))
  /\ (forall rows1 rows c1 c2 values,
        get_ratings_table (snd st) = (Ok (LiveTable rows1), c1) ->
        get_ratings_table c1 = (Ok (LiveTable rows), c2) ->
        forallb row_decodable rows = true ->
        map_result (fun r => float_of_str (rd_rating r))
          (ratings_of_movie movie_id rows) = Ok values ->
        Forall (fun v => v <> S754_infinity false) values ->
        exists stats,
          get_rating_stats get_ratings_table movie_id st
          = (Ok stats, (LiveTable rows, c2)))
  /\ (forall x,
        is_finite x = true -> (1 <= float_rational x)%Q ->
        rating_key x = Ok (str_of_int (Qfloor (float_rational x))))
  /\ (forall x,
        is_finite x = true -> (float_rational x < 1)%Q ->
        rating_key x = Ok "0.5")
  /\ rating_key S754_nan = Ok "0.5"
  /\ rating_key (S754_infinity true) = Ok "0.5"
  /\ rating_key (S754_infinity false)
     = Raise (Exn "OverflowError" "cannot convert float infinity to integer")
  /\ get_rating_stats (serving scenario_rows) "m1" (DeadTable broken_pipe, tt)
     = (Ok (RatingStats (float_of_int 4) 2 {["5" := 1; "3" := 1]}),
        (LiveTable scenario_rows, tt))
  /\ (float_rational (float_of_int 4) == 4)%Q.
Proof.
  split; [| split; [| split; [| split; [| split; [| split; [| split; [| split]]]]]]].
  - intros stats st' H. apply get_rating_stats_ok_inv in H.
    destruct H as [rows [all [Ht [Hl Hs]]]].
    apply stats_of_ratings_spec in Hs.
    destruct Hs as [values [Hv [Hinf [Hn [Hnil [Havg Hdist]]]]]].
    exists rows, all, values.
    split; [exact Ht |]. split; [exact Hl |].
    split; [eapply movie_scan_loop_movie; [constructor | exact Hl] |].
    split.
    { intros Hd. rewrite (movie_scan_loop_refines movie_id rows [] Hd) in Hl.
      inversion Hl. reflexivity. }
    repeat split; assumption.
  - intros rows1 rows c1 c2 values Hg1 Hg2 Hd Hv Hinf.
    destruct st as [t c]. simpl in Hg1.
    pose proof (movie_scan_loop_refines movie_id rows [] Hd) as Hl.
    simpl in Hl.
    destruct (stats_of_ratings_total _ values Hv Hinf) as [stats Hs].
    exists stats. eapply get_rating_stats_live; eassumption.
  - intros x Hfin Hx.
    rewrite rating_key_bucket_label by (intros ->; discriminate Hfin).
    unfold bucket_label. rewrite float_geb_int_finite by exact Hfin.
    change (inject_Z 1) with 1%Q. apply Qle_bool_iff in Hx. rewrite Hx.
    reflexivity.
  - intros x Hfin Hx.
    rewrite rating_key_bucket_label by (intros ->; discriminate Hfin).
    unfold bucket_label. rewrite float_geb_int_finite by exact Hfin.
    change (inject_Z 1) with 1%Q.
    destruct (Qle_bool 1 (float_rational x)) eqn:Hle; [| reflexivity].
    apply Qle_bool_iff in Hle. exfalso. exact (Qlt_not_le _ _ Hx Hle).
  - reflexivity.
  - reflexivity.
  - reflexivity.
  - vm_compute. reflexivity.
  - vm_compute. reflexivity.
Qed.

Lemma get_rating_stats_reduces_movie_ratings_witness :
  exists stats,
    get_rating_stats (serving scenario_rows) "m1" (DeadTable broken_pipe, tt)
    = (Ok stats, (LiveTable scenario_rows, tt))
    /\ total_count stats = 2
    /\ float_div (float_add (float_add (S754_zero false) (float_of_int 5))
                    (float_of_int 3))
         (float_of_int 2)
       = Ok (avg_rating stats)
    /\ rating_key (S754_finite false 7 (-1)) = Ok "3"
    /\ rating_key (S754_finite false 1 (-1)) = Ok "0.5".
Proof.
  destruct (get_rating_stats_reduces_movie_ratings (serving scenario_rows)
              "m1" (DeadTable broken_pipe, tt))
    as [Hok [Hlive [Hge [Hlt _]]]].
  destruct (Hlive scenario_rows scenario_rows tt tt
              [float_of_int 5; float_of_int 3])
    as [stats Hs]; try (vm_compute; reflexivity).
  { repeat constructor; discriminate. }
  exists stats. split; [exact Hs |].
  destruct (Hok stats _ Hs)
    as [rows [all [values [Ht [Hl [_ [Hall [Hv [_ [Hn [_ [Havg _]]]]]]]]]]]].
  simpl in Ht. inversion Ht; subst rows.
  assert (Hd : forallb row_decodable scenario_rows = true)
    by (vm_compute; reflexivity).
  rewrite (Hall Hd) in Hv. vm_compute in Hv. inversion Hv; subst values.
  split; [exact Hn |].
  split; [apply Havg; discriminate |].
  split.
  - rewrite (Hge (S754_finite false 7 (-1))); [vm_compute; reflexivity
                                               | reflexivity |].
    unfold Qle. simpl. lia.
  - apply Hlt; [reflexivity |]. unfold Qlt. simpl. lia.
Defined.

(** Sums and quotients are rounded as the interpreter rounds them: the
    ratings 5, 3 and 3 have the average 3.6666666666666665 (the float
    8256599316845909 / 2^51), and a rating stored as "1e1" reads as 10. *)
Example get_rating_stats_rounds :
  fst (get_rating_stats
         (serving [Row "u1_m1" {["data:rating" := "5"]};
                   Row "u2_m1" {["data:rating" := "3"]};
                   Row "u3_m1" {["data:rating" := "3"]}])
         "m1" (DeadTable broken_pipe, tt))
  = Ok (RatingStats (S754_finite false 8256599316845909 (-51)) 3
          {["5" := 1; "3" := 2]})
  /\ fst (get_rating_stats (serving [Row "u1_m1" {["data:rating" := "1e1"]}])
            "m1" (DeadTable broken_pipe, tt))
     = Ok (RatingStats (float_of_int 10) 1 {["10" := 1]}).
Proof. split; vm_compute; reflexivity. Qed.

(** ** Sorting *)

Section SortProperties.
Context {A : Type}.
Variable lt : A -> A -> bool.

Lemma sort_insert_perm x l : Permutation (sort_insert lt x l) (x :: l).
Proof.
  induction l as [| y l IH]; simpl; [reflexivity |].
  destruct (lt y x).
  - rewrite IH. apply perm_swap.
  - reflexivity.
Qed.

Lemma py_sort_perm l : Permutation (py_sort lt l) l.
Proof.
  induction l as [| x l IH]; simpl; [reflexivity |].
  rewrite sort_insert_perm. constructor. exact IH.
Qed.

Lemma py_sort_length l : length (py_sort lt l) = length l.
Proof. apply Permutation_length, py_sort_perm. Qed.

(** [lt] is the strict part of a total preorder. *)
Hypothesis lt_asym : forall a b, lt a b = true -> lt b a = false.
Hypothesis le_trans :
  forall a b c, lt b a = false -> lt c b = false -> lt c a = false.

Lemma sort_insert_sorted x l :
  StronglySorted (fun a b => lt b a = false) l ->
  StronglySorted (fun a b => lt b a = false) (sort_insert lt x l).
Proof.
  induction l as [| y l IH]; simpl; intros Hs.
  - constructor; constructor.
  - inversion Hs as [| ? ? Hl Hy]; subst.
    destruct (lt y x) eqn:Hyx.
    + constructor; [apply IH; exact Hl |].
      apply List.Forall_forall. intros z Hz.
      apply (Permutation_in _ (sort_insert_perm x l)) in Hz.
      destruct Hz as [<- | Hz]; [apply lt_asym; exact Hyx |].
      rewrite List.Forall_forall in Hy. apply Hy. exact Hz.
    + constructor; [exact Hs |].
      constructor; [exact Hyx |].
      apply List.Forall_forall. intros z Hz.
      rewrite List.Forall_forall in Hy.
      apply (le_trans x y z); [exact Hyx | apply Hy; exact Hz].
Qed.

Lemma py_sort_sorted l :
  StronglySorted (fun a b => lt b a = false) (py_sort lt l).
Proof.
  induction l as [| x l IH]; simpl; [constructor |].
  apply sort_insert_sorted. exact IH.
Qed.

End SortProperties.

Lemma StronglySorted_weaken {A} (R1 R2 : A -> A -> Prop) (l : list A) :
  (forall a b, R1 a b -> R2 a b) ->
  StronglySorted R1 l -> StronglySorted R2 l.
Proof.
  intros HR. induction 1 as [| a l _ IH Hall]; constructor; [exact IH |].
  apply List.Forall_forall. intros b Hb.
  rewrite List.Forall_forall in Hall. apply HR, Hall, Hb.
Qed.

(** The reversed sort puts no element before a greater one. *)
Lemma py_sort_reverse_sorted {A} (lt : A -> A -> bool) l :
  (forall a b, lt a b = true -> lt b a = false) ->
  (forall a b c, lt a b = false -> lt b c = false -> lt a c = false) ->
  StronglySorted (fun a b => lt a b = false) (py_sort_reverse lt l).
Proof.
  intros Hasym Htrans. unfold py_sort_reverse.
  apply (py_sort_sorted (fun a b => lt b a)).
  - intros a b. apply Hasym.
  - intros a b c. apply Htrans.
Qed.

Lemma py_sort_reverse_perm {A} (lt : A -> A -> bool) l :
  Permutation (py_sort_reverse lt l) l.
Proof. apply py_sort_perm. Qed.

(** ** The three orders *)

Lemma score_ltb_spec a b :
  score_ltb a b = true <->
  (movie_avg_rating a < movie_avg_rating b)%Q
  \/ ((movie_avg_rating a == movie_avg_rating b)%Q
      /\ rating_count a < rating_count b).
Proof.
  unfold score_ltb.
  destruct (Qcompare_spec (movie_avg_rating a) (movie_avg_rating b))
    as [He | Hl | Hg].
  - rewrite Z.ltb_lt. split; [intros H; right; split; assumption |].
    intros [Hl | [_ H]]; [| exact H].
    rewrite He in Hl. exfalso. exact (Qlt_irrefl _ Hl).
  - split; [intros _; left; exact Hl | reflexivity].
  - split; [discriminate |].
    intros [Hl | [He _]].
    + exfalso. exact (Qlt_irrefl _ (Qlt_trans _ _ _ Hl Hg)).
    + rewrite He in Hg. exfalso. exact (Qlt_irrefl _ Hg).
Qed.

Lemma score_ltb_false a b :
  score_ltb a b = false <->
  (movie_avg_rating b < movie_avg_rating a)%Q
  \/ ((movie_avg_rating a == movie_avg_rating b)%Q
      /\ rating_count b <= rating_count a).
Proof.
  unfold score_ltb.
  destruct (Qcompare_spec (movie_avg_rating a) (movie_avg_rating b))
    as [He | Hl | Hg].
  - rewrite Z.ltb_ge. split; [intros H; right; split; assumption |].
    intros [Hl | [_ H]]; [| exact H].
    rewrite He in Hl. exfalso. exact (Qlt_irrefl _ Hl).
  - split; [discriminate |].
    intros [Hg | [He _]].
    + exfalso. exact (Qlt_irrefl _ (Qlt_trans _ _ _ Hl Hg)).
    + rewrite He in Hl. exfalso. exact (Qlt_irrefl _ Hl).
  - split; [intros _; left; exact Hg | reflexivity].
Qed.

Lemma score_ltb_asym a b : score_ltb a b = true -> score_ltb b a = false.
Proof.
  rewrite score_ltb_spec, score_ltb_false.
  intros [H | [He H]]; [left; exact H |].
  right. split; [symmetry; exact He | lia].
Qed.

Lemma score_ltb_trans a b c :
  score_ltb a b = false -> score_ltb b c = false -> score_ltb a c = false.
Proof.
  rewrite !score_ltb_false.
  intros [H1 | [E1 H1]] [H2 | [E2 H2]].
  - left. lra.
  - left. lra.
  - left. lra.
  - right. split; [lra | lia].
Qed.

(** ** Pages *)

(** A slice with non-negative bounds: skip [start], keep the next [n]. *)
Lemma py_slice_page {A} (l : list A) (start n : Z) :
  0 <= start -> 0 <= n ->
  py_slice l start (start + n)
  = firstn (Z.to_nat n) (skipn (Z.to_nat start) l).
Proof.
  intros Hs Hn. unfold py_slice, slice_index.
  destruct (Z.ltb_spec start 0) as [Hlt | _]; [lia |].
  destruct (Z.ltb_spec (start + n) 0) as [Hlt | _]; [lia |].
  set (len := Z.of_nat (length l)).
  destruct (Z.le_gt_cases len start) as [Hge | Hlt].
  - rewrite !Z.min_r by lia.
    rewrite (skipn_all2 l) by lia.
    rewrite skipn_all2 by lia. rewrite !firstn_nil. reflexivity.
  - rewrite (Z.min_l start len) by lia.
    destruct (Z.le_gt_cases (start + n) len) as [Hle | Hgt].
    + rewrite Z.min_l by lia. f_equal. lia.
    + rewrite Z.min_r by lia.
      rewrite (firstn_all2 (n := Z.to_nat n)) by (rewrite length_skipn; lia).
      apply firstn_all2. rewrite length_skipn. lia.
Qed.

Lemma firstn_add {A} (a b : nat) (l : list A) :
  firstn (a + b) l = firstn a l ++ firstn b (skipn a l).
Proof.
  revert l. induction a as [| a IH]; intros l; simpl; [reflexivity |].
  destruct l as [| x l]; simpl.
  - rewrite firstn_nil. reflexivity.
  - f_equal. apply IH.
Qed.

(** The first [k] pages of [size] items are the first [k * size] items. *)
Lemma concat_pages {A} (l : list A) (size k : nat) :
  concat (List.map (fun i => firstn size (skipn (i * size) l)) (seq 0 k))
  = firstn (k * size) l.
Proof.
  induction k as [| k IH]; [reflexivity |].
  rewrite seq_S, List.map_app, concat_app, IH.
  cbn [List.map concat Nat.add]. rewrite app_nil_r.
  replace (Datatypes.S k * size)%nat with (k * size + size)%nat by lia.
  rewrite firstn_add. reflexivity.
Qed.

(** [(total + page_size - 1) // page_size] is the ceiling of
    [total / page_size]: the least number of pages that hold [total]
    items. *)
Lemma ceil_div total page_size :
  0 <= total -> 1 <= page_size ->
  let total_pages := (total + page_size - 1) / page_size in
  (total_pages - 1) * page_size < total <= total_pages * page_size.
Proof.
  intros Ht Hp. cbv zeta.
  pose proof (Z.div_mod (total + page_size - 1) page_size ltac:(lia)) as Hd.
  pose proof (Z.mod_pos_bound (total + page_size - 1) page_size ltac:(lia))
    as Hm.
  nia.
Qed.

Lemma page_numbers_map {B} (f : Z -> B) total_pages :
  List.map f (page_numbers total_pages)
  = List.map (fun i => f (Z.of_nat i + 1)) (seq 0 (Z.to_nat total_pages)).
Proof. unfold page_numbers. rewrite List.map_map. reflexivity. Qed.

(** ** [get_movies_list] *)

Section MoviesList.
Context {V R : Type}.
Variable py_float : V -> result Q.
Variable py_int : V -> result Z.
Variable find_all : M R (list (@raw_movie V)).

Lemma get_movies_list_eq page page_size s data s' all :
  1 <= page -> 1 <= page_size ->
  find_all s = (Ok data, s') ->
  map_result (movie_of_raw py_float py_int) data = Ok all ->
  get_movies_list py_float py_int find_all page page_size s
  = (Ok (firstn (Z.to_nat page_size)
           (skipn (Z.to_nat ((page - 1) * page_size))
              (py_sort_reverse score_ltb all)),
         Z.of_nat (length all),
         (Z.of_nat (length all) + page_size - 1) / page_size),
     s').
Proof.
  intros Hp Hs Hf Hm. unfold get_movies_list.
  rewrite try_except_reraise. unfold bind, lift, ret.
  rewrite Hf, Hm. unfold py_floordiv.
  destruct (Z.eqb_spec page_size 0) as [Hz | _]; [lia |].
  rewrite py_slice_page by nia.
  unfold py_sort_reverse. rewrite py_sort_length. reflexivity.
Qed.

End MoviesList.

(** C4. For [page >= 1] and [page_size] in [1, 100], on a repository that
    returns the movie set, [get_movies_list] sorts the whole set so that no
    movie stands before one with a greater [(avg_rating, rating_count)]
    (the average first, the count on ties), returns the items from
    position [(page-1)*page_size] up to [page*page_size] of that order, at
    most [page_size] of them, with the total and with the ceiling of
    [total / page_size] as the number of pages; and the pages 1 to
    [total_pages], one after the other, are the whole sorted set: a
    rearrangement of the movie set. *)
Theorem get_movies_list_pages {V R : Type}
    (py_float : V -> result Q) (py_int : V -> result Z)
    (find_all : M R (list (@raw_movie V)))
    (page page_size : Z) (s s' : R)
    (data : list (@raw_movie V)) (all : list Movie) :
  1 <= page -> 1 <= page_size <= 100 ->
  find_all s = (Ok data, s') ->
  map_result (movie_of_raw py_float py_int) data = Ok all ->
  let sorted := py_sort_reverse score_ltb all in
  let total := Z.of_nat (length all) in
  let total_pages := (total + page_size - 1) / page_size in
  let items :=
    firstn (Z.to_nat page_size)
      (skipn (Z.to_nat ((page - 1) * page_size)) sorted) in
  StronglySorted (fun a b => score_ltb a b = false) sorted
  /\ (forall a b,
        score_ltb a b = false <->
        (movie_avg_rating b < movie_avg_rating a)%Q
        \/ ((movie_avg_rating a == movie_avg_rating b)%Q
            /\ rating_count b <= rating_count a))
  /\ Permutation sorted all
  /\ get_movies_list py_float py_int find_all page page_size s
     = (Ok (items, total, total_pages), s')
  /\ Z.of_nat (length items) <= page_size
  /\ (total_pages - 1) * page_size < total <= total_pages * page_size
  /\ concat
       (List.map
          (fun p =>
             page_items (get_movies_list py_float py_int find_all p page_size s))
          (page_numbers total_pages))
     = sorted.
Proof.
  intros Hp Hs Hf Hm. cbv zeta.
  split; [apply py_sort_reverse_sorted;
          [apply score_ltb_asym | apply score_ltb_trans] |].
  split; [apply score_ltb_false |].
  split; [apply py_sort_reverse_perm |].
  split; [apply (get_movies_list_eq py_float py_int find_all page page_size
                   s data s' all); [lia | lia | exact Hf | exact Hm] |].
  split; [rewrite length_firstn; lia |].
  pose proof (ceil_div (Z.of_nat (length all)) page_size ltac:(lia) ltac:(lia))
    as Hceil. cbv zeta in Hceil.
  split; [exact Hceil |].
  rewrite page_numbers_map.
  rewrite (List.map_ext _
             (fun i => firstn (Z.to_nat page_size)
                         (skipn (i * Z.to_nat page_size)
                            (py_sort_reverse score_ltb all)))).
  - rewrite concat_pages. apply firstn_all2.
    unfold py_sort_reverse. rewrite py_sort_length. nia.
  - intros i. unfold page_items.
    rewrite (get_movies_list_eq py_float py_int find_all (Z.of_nat i + 1)
               page_size s data s' all ltac:(lia) ltac:(lia) Hf Hm).
    simpl. do 2 f_equal. nia.
Qed.

Lemma get_movies_list_pages_witness :
  get_movies_list float_value int_value store_find_all 1 2 tt
  = (Ok ([mkMovie "7" "Dark City" ["Matrix-like"] (9 # 2) 50;
          mkMovie "3" "Heat" ["Crime"] (87 # 20) 1200], 3, 2), tt)
  /\ get_movies_list float_value int_value store_find_all 2 2 tt
     = (Ok ([mkMovie "42" "The Matrix" ["Action"; "Sci-Fi"] (87 # 20) 1000],
            3, 2), tt).
Proof.
  split.
  - apply (proj1 (proj2 (proj2 (proj2
      (get_movies_list_pages float_value int_value store_find_all 1 2 tt tt
         movie_store
         [mkMovie "7" "Dark City" ["Matrix-like"] (9 # 2) 50;
          mkMovie "42" "The Matrix" ["Action"; "Sci-Fi"] (87 # 20) 1000;
          mkMovie "3" "Heat" ["Crime"] (87 # 20) 1200]
         ltac:(lia) ltac:(lia) eq_refl eq_refl))))).
  - apply (proj1 (proj2 (proj2 (proj2
      (get_movies_list_pages float_value int_value store_find_all 2 2 tt tt
         movie_store
         [mkMovie "7" "Dark City" ["Matrix-like"] (9 # 2) 50;
          mkMovie "42" "The Matrix" ["Action"; "Sci-Fi"] (87 # 20) 1000;
          mkMovie "3" "Heat" ["Crime"] (87 # 20) 1200]
         ltac:(lia) ltac:(lia) eq_refl eq_refl))))).
Defined.

(** ** The order of timestamps *)

Lemma ascii_compare_N a b :
  Ascii.compare a b = N.compare (N_of_ascii a) (N_of_ascii b).
Proof. reflexivity. Qed.

Lemma string_compare_not_Lt_trans a b c :
  String.compare a b <> Lt -> String.compare b c <> Lt ->
  String.compare a c <> Lt.
Proof.
  revert b c. induction a as [| x a IH]; intros [| y b] [| z c]; simpl;
    try congruence.
  destruct (Ascii.compare x y) eqn:Hxy; try congruence;
    destruct (Ascii.compare y z) eqn:Hyz; try congruence.
  - apply Ascii.compare_eq_iff in Hxy, Hyz. subst.
    rewrite (proj2 (N.compare_eq_iff _ _) eq_refl : Ascii.compare z z = Eq).
    apply IH.
  - apply Ascii.compare_eq_iff in Hxy. subst. rewrite Hyz. congruence.
  - apply Ascii.compare_eq_iff in Hyz. subst. rewrite Hxy. congruence.
  - rewrite ascii_compare_N in *.
    apply N.compare_gt_iff in Hxy, Hyz.
    assert (H : N.compare (N_of_ascii x) (N_of_ascii z) = Gt)
      by (apply N.compare_gt_iff; lia).
    rewrite H. congruence.
Qed.

Lemma string_ltb_false a b : String.ltb a b = false <-> String.compare a b <> Lt.
Proof.
  unfold String.ltb. destruct (String.compare a b); split; congruence.
Qed.

Lemma timestamp_ltb_asym a b :
  timestamp_ltb a b = true -> timestamp_ltb b a = false.
Proof.
  unfold timestamp_ltb, String.ltb.
  rewrite (String.compare_antisym (timestamp b) (timestamp a)).
  destruct (String.compare (timestamp a) (timestamp b)); simpl; congruence.
Qed.

Lemma timestamp_ltb_trans a b c :
  timestamp_ltb a b = false -> timestamp_ltb b c = false ->
  timestamp_ltb a c = false.
Proof.
  unfold timestamp_ltb. rewrite !string_ltb_false.
  apply string_compare_not_Lt_trans.
Qed.

(** ** [get_movie_ratings] *)

Section MovieRatings.
Context {C : Type}.
Variable get_ratings_table : M C table_handle.

Lemma get_movie_ratings_ok_inv movie_id page page_size (st st' : @repo C)
    items total total_pages :
  get_movie_ratings get_ratings_table movie_id page page_size st
  = (Ok (items, total, total_pages), st') ->
  exists rows dicts all,
    fst st' = LiveTable rows
    /\ movie_scan_loop movie_id None rows [] = Ok dicts
    /\ map_result rating_of_dict dicts = Ok all
    /\ total = Z.of_nat (length all)
    /\ items = py_slice (py_sort_reverse timestamp_ltb all)
                 ((page - 1) * page_size) ((page - 1) * page_size + page_size)
    /\ (if total >? 0
        then py_floordiv (total + page_size - 1) page_size = Ok total_pages
        else total_pages = 0).
Proof.
  unfold get_movie_ratings. rewrite try_except_reraise.
  unfold bind, lift, ret.
  destruct (find_by_movie_id get_ratings_table movie_id None st)
    as [[dicts | e] s1] eqn:Hf; [| discriminate].
  destruct (map_result rating_of_dict dicts) as [all | e] eqn:Hm;
    [| discriminate].
  apply find_by_movie_id_ok_inv in Hf. destruct Hf as [rows [Ht Hl]].
  rewrite (py_sort_length (fun a b => timestamp_ltb b a) all
           : length (py_sort_reverse timestamp_ltb all) = length all).
  destruct (Z.of_nat (length all) >? 0) eqn:Hpos.
  - destruct (py_floordiv (Z.of_nat (length all) + page_size - 1) page_size)
      as [tp | e] eqn:Hd; [| discriminate].
    intros H; inversion H; subst.
    exists rows, dicts, all. rewrite Hpos. repeat split; assumption.
  - intros H; inversion H; subst.
    exists rows, dicts, all. rewrite Hpos. repeat split; assumption.
Qed.

Lemma get_movie_ratings_live movie_id page page_size (t : table_handle)
    (c c' : C) rows dicts all :
  1 <= page_size ->
  get_ratings_table c = (Ok (LiveTable rows), c') ->
  movie_scan_loop movie_id None rows [] = Ok dicts ->
  map_result rating_of_dict dicts = Ok all ->
  get_movie_ratings get_ratings_table movie_id page page_size (t, c)
  = (Ok (py_slice (py_sort_reverse timestamp_ltb all)
           ((page - 1) * page_size) ((page - 1) * page_size + page_size),
         Z.of_nat (length all),
         if Z.of_nat (length all) >? 0
         then (Z.of_nat (length all) + page_size - 1) / page_size
         else 0),
     (LiveTable rows, c')).
Proof.
  intros Hs Hg Hl Hm. unfold get_movie_ratings.
  rewrite try_except_reraise. unfold bind, lift, ret.
  rewrite (find_by_movie_id_live get_ratings_table movie_id None t c c'
             rows dicts Hg Hl).
  rewrite Hm.
  rewrite (py_sort_length (fun a b => timestamp_ltb b a) all
           : length (py_sort_reverse timestamp_ltb all) = length all).
  destruct (Z.of_nat (length all) >? 0); [| reflexivity].
  unfold py_floordiv.
  destruct (Z.eqb_spec page_size 0) as [Hz | _]; [lia | reflexivity].
Qed.

End MovieRatings.

(** C6. A call of [get_movie_ratings] that returns has fetched all ratings
    of the movie with a scan without limit, has sorted them so that no
    rating stands before one with a greater timestamp in the byte order of
    the strings, and returns the slice from [(page-1)*page_size] to
    [page*page_size] of that order together with the total; the number of
    pages is the ceiling of [total / page_size] when there are ratings and
    0 when there are none.  On a connection that hands out a live table
    whose rows decode and whose ratings read as numbers, the call
    returns. *)
Theorem get_movie_ratings_sorted_pages {C : Type}
    (get_ratings_table : M C table_handle) (movie_id : string)
    (page page_size : Z) (st : @repo C) :
  (forall items total total_pages st',
     get_movie_ratings get_ratings_table movie_id page page_size st
     = (Ok (items, total, total_pages), st') ->
     exists rows dicts all,
       fst st' = LiveTable rows
       /\ movie_scan_loop movie_id None rows [] = Ok dicts
       /\ map_result rating_of_dict dicts = Ok all
       /\ StronglySorted
            (fun a b => String.ltb (timestamp a) (timestamp b) = false)
            (py_sort_reverse timestamp_ltb all)
       /\ Permutation (py_sort_reverse timestamp_ltb all) all
       /\ total = Z.of_nat (length all)
       /\ items = py_slice (py_sort_reverse timestamp_ltb all)
                    ((page - 1) * page_size)
                    ((page - 1) * page_size + page_size)
       /\ (1 <= page -> 1 <= page_size ->
           items = firstn (Z.to_nat page_size)
                     (skipn (Z.to_nat ((page - 1) * page_size))
                        (py_sort_reverse timestamp_ltb all)))
       /\ (0 < total -> 1 <= page_size ->
           (total_pages - 1) * page_size < total <= total_pages * page_size)
       /\ (total = 0 -> total_pages = 0))
  /\ (forall rows c' all,
        1 <= page_size ->
        get_ratings_table (snd st) = (Ok (LiveTable rows), c') ->
        forallb row_decodable rows = true ->
        map_result rating_of_dict (ratings_of_movie movie_id rows) = Ok all ->
        exists total_pages,
          get_movie_ratings get_ratings_table movie_id page page_size st
          = (Ok (py_slice (py_sort_reverse timestamp_ltb all)
                   ((page - 1) * page_size)
                   ((page - 1) * page_size + page_size),
                 Z.of_nat (length all), total_pages),
             (LiveTable rows, c'))).
Proof.
  split.
  - intros items total total_pages st' H.
    apply get_movie_ratings_ok_inv in H.
    destruct H as [rows [dicts [all [Ht [Hl [Hm [Htot [Hitems Htp]]]]]]]].
    exists rows, dicts, all.
    split; [exact Ht |]. split; [exact Hl |]. split; [exact Hm |].
    split; [apply (py_sort_reverse_sorted timestamp_ltb);
            [apply timestamp_ltb_asym | apply timestamp_ltb_trans] |].
    split; [apply py_sort_reverse_perm |].
    split; [exact Htot |]. split; [exact Hitems |].
    split; [| split].
    + intros Hp Hs. rewrite Hitems. apply py_slice_page; nia.
    + intros Hpos Hs.
      destruct (Z.gtb_spec total 0) as [_ | Hle]; [| lia].
      unfold py_floordiv in Htp.
      destruct (Z.eqb_spec page_size 0) as [Hz | _]; [lia |].
      inversion Htp; subst total_pages.
      apply ceil_div; lia.
    + intros Hz. rewrite Hz in Htp. simpl in Htp. exact Htp.
  - intros rows c' all Hs Hg Hd Hm. destruct st as [t c]. simpl in Hg.
    eexists.
    apply (get_movie_ratings_live get_ratings_table movie_id page page_size
             t c c' rows (ratings_of_movie movie_id rows) all Hs Hg);
      [| exact Hm].
    apply (movie_scan_loop_refines movie_id rows [] Hd).
Qed.

Lemma get_movie_ratings_sorted_pages_witness :
  get_movie_ratings (serving dated_rows) "m1" 1 1 (DeadTable broken_pipe, tt)
  = (Ok ([mkRating "u2" "m1" (float_of_int 3) "2024-03-01"], 2, 2), (LiveTable dated_rows, tt)).
Proof.
  pose proof (get_movie_ratings_sorted_pages (serving dated_rows) "m1"
                1 1 (DeadTable broken_pipe, tt)) as [Hinv Hlive].
  assert (Hd : forallb row_decodable dated_rows = true)
    by (vm_compute; reflexivity).
  assert (Hm : map_result rating_of_dict (ratings_of_movie "m1" dated_rows)
               = Ok [mkRating "u1" "m1" (float_of_int 5) "2024-01-02";
                     mkRating "u2" "m1" (float_of_int 3) "2024-03-01"])
    by (vm_compute; reflexivity).
  destruct (Hlive dated_rows tt _ ltac:(lia) eq_refl Hd Hm)
    as [total_pages H].
  destruct (Hinv _ _ _ _ H)
    as [rows [dicts [all [_ [_ [_ [_ [_ [_ [_ [_ [Hceil _]]]]]]]]]]]].
  rewrite H. cbn [length Z.of_nat Pos.of_succ_nat Pos.succ] in Hceil.
  assert (total_pages = 2) as ->
    by (specialize (Hceil ltac:(lia) ltac:(lia)); lia).
  vm_compute. reflexivity.
Defined.

(** ** The order of search results *)

Lemma key_ltb_true b1 q1 n1 b2 q2 n2 :
  key_ltb (b1, q1, n1) (b2, q2, n2) = true <->
  (b1 = false /\ b2 = true)
  \/ (b1 = b2 /\ ((q1 < q2)%Q \/ ((q1 == q2)%Q /\ n1 < n2))).
Proof.
  unfold key_ltb.
  destruct b1, b2; simpl;
    try (split; [discriminate | intros [[? ?] | [? _]]; discriminate]);
    try (split; [intros _; left; split; reflexivity | reflexivity]).
  all: destruct (Qcompare_spec q1 q2) as [He | Hl | Hg];
    rewrite ?Z.ltb_lt;
    (split;
     [ intros H; right; split; [reflexivity |];
       first [ right; split; [exact He | exact H]
             | left; exact Hl
             | discriminate H ]
     | intros [[? ?] | [_ [H | [H1 H2]]]];
       first [ discriminate | exact H2 | reflexivity | exfalso; lra ] ]).
Qed.

Lemma key_ltb_false b1 q1 n1 b2 q2 n2 :
  key_ltb (b1, q1, n1) (b2, q2, n2) = false <->
  (b1 = true /\ b2 = false)
  \/ (b1 = b2 /\ ((q2 < q1)%Q \/ ((q1 == q2)%Q /\ n2 <= n1))).
Proof.
  unfold key_ltb.
  destruct b1, b2; simpl;
    try (split; [discriminate | intros [[? ?] | [? _]]; discriminate]);
    try (split; [intros _; left; split; reflexivity | reflexivity]).
  all: destruct (Qcompare_spec q1 q2) as [He | Hl | Hg];
    rewrite ?Z.ltb_ge;
    (split;
     [ intros H; right; split; [reflexivity |];
       first [ right; split; [exact He | exact H]
             | left; exact Hg
             | discriminate H ]
     | intros [[? ?] | [_ [H | [H1 H2]]]];
       first [ discriminate | exact H2 | reflexivity | exfalso; lra ] ]).
Qed.

Lemma key_ltb_asym k1 k2 : key_ltb k1 k2 = true -> key_ltb k2 k1 = false.
Proof.
  destruct k1 as [[b1 q1] n1], k2 as [[b2 q2] n2].
  rewrite key_ltb_true, key_ltb_false.
  intros [[-> ->] | [-> [H | [H1 H2]]]].
  - left. split; reflexivity.
  - right. split; [reflexivity | left; exact H].
  - right. split; [reflexivity | right; split; [lra | lia]].
Qed.

Lemma key_ltb_trans k1 k2 k3 :
  key_ltb k2 k1 = false -> key_ltb k3 k2 = false -> key_ltb k3 k1 = false.
Proof.
  destruct k1 as [[b1 q1] n1], k2 as [[b2 q2] n2], k3 as [[b3 q3] n3].
  rewrite !key_ltb_false.
  intros H1 H2.
  destruct b1, b2, b3;
    destruct H1 as [[? ?] | [? H1]], H2 as [[? ?] | [? H2]];
    try discriminate;
    try (left; split; reflexivity);
    (right; split; [reflexivity |];
     destruct H1 as [H1 | [E1 H1]], H2 as [H2 | [E2 H2]];
     [left; lra | left; lra | left; lra | right; split; [lra | lia]]).
Qed.

Lemma ranks_before_spec query a b :
  ranks_before query a b = true <->
  (title_match query a = true /\ title_match query b = false)
  \/ (title_match query a = title_match query b
      /\ ((movie_avg_rating b < movie_avg_rating a)%Q
          \/ ((movie_avg_rating a == movie_avg_rating b)%Q
              /\ rating_count b <= rating_count a))).
Proof.
  unfold ranks_before, sort_key. rewrite Bool.negb_true_iff, key_ltb_false.
  unfold float_neg.
  pose proof (Qred_correct (- movie_avg_rating a)) as Ha.
  pose proof (Qred_correct (- movie_avg_rating b)) as Hb.
  split.
  - intros [[H1 H2] | [H1 H2]].
    + left. apply Bool.negb_true_iff in H1. apply Bool.negb_false_iff in H2.
      split; assumption.
    + right. split.
      * destruct (title_match query a), (title_match query b);
          simpl in H1; congruence.
      * destruct H2 as [H2 | [H2 H3]]; [left; lra | right; split; [lra | lia]].
  - intros [[H1 H2] | [H1 H2]].
    + left. rewrite H1, H2. split; reflexivity.
    + right. rewrite H1. split; [reflexivity |].
      destruct H2 as [H2 | [H2 H3]]; [left; lra | right; split; [lra | lia]].
Qed.

(** ** [search_movies] *)

Lemma isdigit_not_empty q : isdigit q = true -> q <> "".
Proof. intros H ->. discriminate H. Qed.

Section Search.
Context {V R : Type}.
Variable py_float : V -> result Q.
Variable py_int : V -> result Z.
Variable find_by_id : string -> M R (option (@raw_movie V)).
Variable search_by_text : string -> Z -> M R (list (@raw_movie V)).

Local Abbreviation search :=
  (search_movies_traced py_float py_int find_by_id search_by_text).

Lemma search_empty query limit st :
  strip query = "" -> search query limit st = (Ok [], st).
Proof.
  intros Hq. unfold search_movies_traced, search_movies.
  rewrite try_except_reraise. rewrite Hq. reflexivity.
Qed.

Lemma search_by_id query limit log s :
  isdigit (strip query) = true ->
  search query limit (log, s)
  = match find_by_id (strip query) s with
    | (Ok (Some m), s') =>
        (match movie_of_raw py_float py_int m with
         | Ok mv => Ok [mv]
         | Raise e => Raise e
         end, (log ++ [CallFindById (strip query)], s'))
    | (Ok None, s') => (Ok [], (log ++ [CallFindById (strip query)], s'))
    | (Raise e, s') => (Raise e, (log ++ [CallFindById (strip query)], s'))
    end.
Proof.
  intros Hd. unfold search_movies_traced, search_movies.
  rewrite try_except_reraise.
  destruct (String.eqb_spec (strip query) "") as [He | _];
    [exfalso; exact (isdigit_not_empty _ Hd He) |].
  rewrite Hd. unfold bind, traced, lift, ret.
  destruct (find_by_id (strip query) s) as [[[m |] | e] s']; try reflexivity.
  destruct (movie_of_raw py_float py_int m); reflexivity.
Qed.

Lemma search_by_words query limit log s :
  strip query <> "" -> isdigit (strip query) = false ->
  search query limit (log, s)
  = match search_by_text (strip query) limit s with
    | (Ok data, s') =>
        (match map_result (movie_of_raw py_float py_int) data with
         | Ok matched =>
             Ok (py_sort
                   (fun a b =>
                      key_ltb (sort_key (strip query) a)
                        (sort_key (strip query) b))
                   matched)
         | Raise e => Raise e
         end,
         (log ++ [CallSearchByText (strip query) limit], s'))
    | (Raise e, s') =>
        (Raise e, (log ++ [CallSearchByText (strip query) limit], s'))
    end.
Proof.
  intros Hne Hd. unfold search_movies_traced, search_movies.
  rewrite try_except_reraise.
  destruct (String.eqb_spec (strip query) "") as [He | _];
    [contradiction |].
  rewrite Hd. unfold bind, traced, lift, ret.
  destruct (search_by_text (strip query) limit s) as [[data | e] s'];
    [| reflexivity].
  destruct (map_result (movie_of_raw py_float py_int) data); reflexivity.
Qed.

End Search.

(** C5. A query that is empty after trimming returns the empty list and
    no query reaches the repository.  A query that after trimming is
    non-empty and all digits makes one lookup by id and no text search: it
    returns at most one movie, the movie of the record found (whose id is
    the query when the repository answers with the record of that id), and
    the empty list when no record is found.  Any other query makes one
    text search with the trimmed query and returns the matches rearranged
    so that movies whose lower-cased title contains the lower-cased query
    stand before the others and, within each group, a higher average
    stands first and, on equal averages, a higher count. *)
Theorem search_movies_by_id_or_text {V R : Type}
    (py_float : V -> result Q) (py_int : V -> result Z)
    (find_by_id : string -> M R (option (@raw_movie V)))
    (search_by_text : string -> Z -> M R (list (@raw_movie V)))
    (query : string) (limit : Z) (s : R) :
  let run :=
    search_movies_traced py_float py_int find_by_id search_by_text
      query limit ([], s) in
  (strip query = "" -> run = (Ok [], ([], s)))
  /\ (isdigit (strip query) = true ->
      (forall movies st',
         run = (Ok movies, st') ->
         (length movies <= 1)%nat /\ fst st' = [CallFindById (strip query)])
      /\ (forall e st',
            run = (Raise e, st') -> fst st' = [CallFindById (strip query)])
      /\ (forall m s' mv,
            find_by_id (strip query) s = (Ok (Some m), s') ->
            movie_of_raw py_float py_int m = Ok mv ->
            run = (Ok [mv], ([CallFindById (strip query)], s'))
            /\ id mv = raw_id m)
      /\ (forall s',
            find_by_id (strip query) s = (Ok None, s') ->
            run = (Ok [], ([CallFindById (strip query)], s'))))
  /\ (strip query <> "" -> isdigit (strip query) = false ->
      forall data s' matched,
        search_by_text (strip query) limit s = (Ok data, s') ->
        map_result (movie_of_raw py_float py_int) data = Ok matched ->
        exists movies,
          run = (Ok movies, ([CallSearchByText (strip query) limit], s'))
          /\ Permutation movies matched
          /\ StronglySorted
               (fun a b => ranks_before (strip query) a b = true) movies)
  /\ (forall a b,
        ranks_before (strip query) a b = true <->
        (title_match (strip query) a = true
         /\ title_match (strip query) b = false)
        \/ (title_match (strip query) a = title_match (strip query) b
            /\ ((movie_avg_rating b < movie_avg_rating a)%Q
                \/ ((movie_avg_rating a == movie_avg_rating b)%Q
                    /\ rating_count b <= rating_count a)))).
Proof.
  cbv zeta. split; [| split; [| split]].
  - intros Hq. apply search_empty. exact Hq.
  - intros Hd. rewrite search_by_id by exact Hd. simpl.
    split; [| split; [| split]].
    + intros movies st'.
      destruct (find_by_id (strip query) s) as [[[m |] | e] s1].
      * destruct (movie_of_raw py_float py_int m); intros H; inversion H;
          subst. simpl. split; [lia | reflexivity].
      * intros H; inversion H; subst. simpl. split; [lia | reflexivity].
      * discriminate.
    + intros e st'.
      destruct (find_by_id (strip query) s) as [[[m |] | e1] s1].
      * destruct (movie_of_raw py_float py_int m); intros H; inversion H;
          subst. reflexivity.
      * discriminate.
      * intros H; inversion H; subst. reflexivity.
    + intros m s' mv Hf Hm. rewrite Hf, Hm. split; [reflexivity |].
      unfold movie_of_raw in Hm.
      destruct (py_float (raw_avg_rating m)); simpl in Hm; [| discriminate].
      destruct (py_int (raw_rating_count m)); simpl in Hm; [| discriminate].
      inversion Hm. reflexivity.
    + intros s' Hf. rewrite Hf. reflexivity.
  - intros Hne Hd data s' matched Hs Hm.
    rewrite search_by_words by assumption. rewrite Hs, Hm. simpl.
    eexists. split; [reflexivity |]. split; [apply py_sort_perm |].
    apply (StronglySorted_weaken
             (fun a b => key_ltb (sort_key (strip query) b)
                           (sort_key (strip query) a) = false)).
    + intros a b Hb. unfold ranks_before. rewrite Hb. reflexivity.
    + apply (py_sort_sorted
               (fun a b => key_ltb (sort_key (strip query) a)
                             (sort_key (strip query) b))).
      * intros a b. apply key_ltb_asym.
      * intros a b c. apply key_ltb_trans.
  - intros a b. apply ranks_before_spec.
Qed.

Lemma search_movies_by_id_or_text_witness :
  search_movies_traced float_value int_value store_find_by_id
    store_search_by_text "   " 50 ([], tt)
  = (Ok [], ([], tt))
  /\ search_movies_traced float_value int_value store_find_by_id
       store_search_by_text " 42 " 50 ([], tt)
     = (Ok [mkMovie "42" "The Matrix" ["Action"; "Sci-Fi"] (87 # 20) 1000],
        ([CallFindById "42"], tt))
  /\ search_movies_traced float_value int_value store_find_by_id
       store_search_by_text "99" 50 ([], tt)
     = (Ok [], ([CallFindById "99"], tt))
  /\ exists movies,
       search_movies_traced float_value int_value store_find_by_id
         store_search_by_text " Matrix" 50 ([], tt)
       = (Ok movies, ([CallSearchByText "Matrix" 50], tt))
       /\ Permutation movies
            [mkMovie "7" "Dark City" ["Matrix-like"] (9 # 2) 50;
             mkMovie "42" "The Matrix" ["Action"; "Sci-Fi"] (87 # 20) 1000]
       /\ StronglySorted (fun a b => ranks_before "Matrix" a b = true) movies.
Proof.
  split; [| split; [| split]].
  - apply (proj1 (search_movies_by_id_or_text float_value int_value
                    store_find_by_id store_search_by_text "   " 50 tt)).
    reflexivity.
  - destruct (proj1 (proj2 (search_movies_by_id_or_text float_value int_value
                    store_find_by_id store_search_by_text " 42 " 50 tt))
                eq_refl) as [_ [_ [Hfound _]]].
    apply (Hfound the_matrix tt); reflexivity.
  - destruct (proj1 (proj2 (search_movies_by_id_or_text float_value int_value
                    store_find_by_id store_search_by_text "99" 50 tt))
                eq_refl) as [_ [_ [_ Hnone]]].
    apply (Hnone tt). reflexivity.
  - apply (proj1 (proj2 (proj2 (search_movies_by_id_or_text float_value
                    int_value store_find_by_id store_search_by_text
                    " Matrix" 50 tt)))
             ltac:(discriminate) eq_refl [dark_city; the_matrix] tt);
      reflexivity.
Defined.

(** The scenario of the specification: "The Matrix" matches by title,
    "Dark City" by a genre tag and has the higher rating; the title match
    comes first. *)
Example search_matrix_title_first :
  fst (search_movies_traced float_value int_value store_find_by_id
         store_search_by_text "Matrix" 50 ([], tt))
  = Ok [mkMovie "42" "The Matrix" ["Action"; "Sci-Fi"] (87 # 20) 1000;
        mkMovie "7" "Dark City" ["Matrix-like"] (9 # 2) 50].
Proof. vm_compute. reflexivity. Qed.

(** The decorators nest: [get_rating_stats] is decorated and calls the
    decorated [find_by_movie_id].  On a connection that stays down, each of
    the two attempts of the outer method reacquires the table once and
    lets the inner method reacquire it twice: six reacquisitions, four
    scans, and the error of the last scan as it was raised. *)
Example get_rating_stats_nested_retries :
  get_rating_stats counting_dead "m1" (DeadTable broken_pipe, O)
  = (Raise broken_pipe, (DeadTable broken_pipe, 6%nat)).
Proof. vm_compute. reflexivity. Qed.

Example lower_kelvin_sign :
  lower (String (ascii_of_N 226) (String (ascii_of_N 132)
           (String (ascii_of_N 170) "ELVIN")))
  = "kelvin".
Proof. reflexivity. Qed.

(* ################################################################# *)
(** * Further properties *)

(** ** The decorator for any [max_retries] *)

Lemma count_event_app ev l1 l2 :
  count_event ev (l1 ++ l2) = (count_event ev l1 + count_event ev l2)%nat.
Proof. unfold count_event. rewrite List.filter_app, length_app. reflexivity. Qed.

Section RetryGeneral.
Context {S T : Type}.
Variable refresh : option (M S unit).
Variable func : M S T.

Local Abbreviation lrefresh := (option_map (logged Reacquire) refresh).
Local Abbreviation lfunc := (logged Attempt func).

(** One logged attempt adds at most one reacquisition and one attempt to
    the log and otherwise is the attempt without log. *)
Lemma logged_attempt_once log s :
  exists evs,
    attempt_once lrefresh lfunc (log, s)
    = (fst (attempt_once refresh func s),
       (log ++ evs, snd (attempt_once refresh func s)))
    /\ (count_event Attempt evs <= 1)%nat
    /\ (count_event Reacquire evs <= 1)%nat
    /\ (refresh = None -> count_event Reacquire evs = 0%nat)
    /\ (is_ok (fst (attempt_once refresh func s)) = true ->
        count_event Attempt evs = 1%nat).
Proof.
  unfold attempt_once, bind. destruct refresh as [r |]; simpl.
  - unfold logged at 1. destruct (r s) as [[[] | e] s1]; simpl.
    + unfold logged. destruct (func s1) as [res s2]. simpl.
      exists [Reacquire; Attempt]. rewrite <- app_assoc. simpl.
      repeat split; try (unfold count_event; simpl; lia). discriminate.
    + exists [Reacquire].
      repeat split; try (unfold count_event; simpl; lia); discriminate.
  - unfold ret, logged. destruct (func s) as [res s2]. simpl.
    exists [Attempt].
    repeat split; unfold count_event; simpl; lia.
Qed.

Lemma retry_loop_counts max_retries todo attempt last log s :
  let out := retry_loop lrefresh lfunc max_retries todo attempt last (log, s) in
  (count_event Attempt (fst (snd out))
   <= count_event Attempt log + todo)%nat
  /\ (count_event Reacquire (fst (snd out))
      <= count_event Reacquire log + todo)%nat
  /\ (refresh = None ->
      count_event Reacquire (fst (snd out)) = count_event Reacquire log).
Proof.
  cbv zeta. revert attempt last log s.
  induction todo as [| todo IH]; intros attempt last log s.
  - simpl. destruct last; simpl; repeat split; lia.
  - simpl. unfold try_except.
    destruct (logged_attempt_once log s) as [evs [Heq [Ha [Hr [Hn _]]]]].
    rewrite Heq.
    destruct (attempt_once refresh func s) as [[v | e] s1]; simpl.
    + rewrite !count_event_app. repeat split; try lia.
      intros Hnone. rewrite (Hn Hnone). lia.
    + destruct (is_connection_error e && (attempt <? max_retries - 1)).
      * destruct (IH (attempt + 1) (Some e) (log ++ evs) s1)
          as [IHa [IHr IHn]].
        rewrite !count_event_app in IHa, IHr, IHn.
        repeat split; try lia.
        intros Hnone. rewrite (IHn Hnone), (Hn Hnone). lia.
      * simpl. rewrite !count_event_app. repeat split; try lia.
        intros Hnone. rewrite (Hn Hnone). lia.
Qed.

End RetryGeneral.

(** X1. Whatever [max_retries] is, a decorated call attempts the method at
    most [max_retries] times and reacquires the table at most as often,
    and not at all on an object without [_refresh_table].  With
    [max_retries <= 0] the method is never called: the loop is empty and
    [raise last_error] with [None] raises a [TypeError]. *)
Theorem retry_attempts_bounded {S T : Type} (refresh : option (M S unit))
    (func : M S T) (max_retries : Z) (s : S) :
  let out := decorated_logged_n refresh func max_retries ([], s) in
  (count_event Attempt (fst (snd out)) <= Z.to_nat max_retries)%nat
  /\ (count_event Reacquire (fst (snd out)) <= Z.to_nat max_retries)%nat
  /\ (refresh = None -> count_event Reacquire (fst (snd out)) = 0%nat)
  /\ (max_retries <= 0 -> out = (Raise raise_None, ([], s))).
Proof.
  cbv zeta. unfold decorated_logged_n, retry_on_connection_error.
  destruct (retry_loop_counts refresh func max_retries (Z.to_nat max_retries)
              0 None [] s) as [Ha [Hr Hn]].
  cbv zeta in Ha, Hr, Hn. unfold count_event in Ha, Hr, Hn at 2.
  simpl in Ha, Hr, Hn.
  split; [exact Ha |]. split; [exact Hr |]. split; [exact Hn |].
  intros Hle. replace (Z.to_nat max_retries) with O by lia. reflexivity.
Qed.

Lemma retry_attempts_bounded_witness :
  decorated_logged_n (Some (ret tt)) flaky_once 0 ([], O)
  = (Raise raise_None, ([], O))
  /\ count_event Reacquire
       (fst (snd (decorated_logged_n None flaky_once 3 ([], O)))) = 0%nat.
Proof.
  split.
  - apply (proj2 (proj2 (proj2 (retry_attempts_bounded (Some (ret tt))
             flaky_once 0 O)))). lia.
  - apply (proj1 (proj2 (proj2 (retry_attempts_bounded None
             flaky_once 3 O)))). reflexivity.
Defined.

Section RetryOutcome.
Context {S T : Type}.
Variable refresh : option (M S unit).
Variable func : M S T.

Lemma retry_loop_outcome max_retries todo attempt last s res s' :
  (1 <= todo)%nat -> attempt + Z.of_nat todo = max_retries ->
  retry_loop refresh func max_retries todo attempt last s = (res, s') ->
  exists k,
    (k < todo)%nat
    /\ attempt_once refresh func (attempt_state refresh func k s) = (res, s')
    /\ (forall j, (j < k)%nat ->
          exists e,
            fst (attempt_once refresh func (attempt_state refresh func j s))
            = Raise e
            /\ is_connection_error e = true)
    /\ (forall e, res = Raise e -> is_connection_error e = true ->
                  k = (todo - 1)%nat).
Proof.
  revert attempt last s.
  induction todo as [| todo IH]; intros attempt last s Hpos Hsum; [lia |].
  cbn [retry_loop]. unfold try_except.
  destruct (attempt_once refresh func s) as [[v | e] s1] eqn:Ha.
  - intros H; inversion H; subst. exists O.
    split; [lia |]. split; [exact Ha |].
    split; [intros j Hj; lia | discriminate].
  - destruct (is_connection_error e) eqn:He; cbn [andb].
    + destruct (Z.ltb_spec attempt (max_retries - 1)) as [Hlt | Hge].
      * intros H. apply IH in H; [| lia | lia].
        destruct H as [k [Hk [Hrun [Hbefore Hlast]]]].
        exists (Datatypes.S k). cbn [attempt_state]. rewrite Ha. cbn [snd].
        split; [lia |]. split; [exact Hrun |]. split.
        -- intros [| j] Hj.
           ++ exists e. cbn [attempt_state]. rewrite Ha. split; [reflexivity | exact He].
           ++ cbn [attempt_state]. rewrite Ha. cbn [snd]. apply Hbefore. lia.
        -- intros e' Hres He'. rewrite (Hlast e' Hres He'). lia.
      * unfold raise. intros H; inversion H; subst. exists O.
        split; [lia |]. split; [exact Ha |].
        split; [intros j Hj; lia |]. intros _ _ _. lia.
    + unfold raise. intros H; inversion H; subst. exists O.
      split; [lia |]. split; [exact Ha |].
      split; [intros j Hj; lia |].
      intros e' He' Hc. inversion He'; subst. congruence.
Qed.

End RetryOutcome.

(** X2. For [max_retries >= 1], what a decorated call returns or raises,
    and the state it leaves, are those of one of its attempts (the
    reacquisition followed by the method), run in the state that the
    attempts before it left behind: a value is passed on as it is, an error
    is re-raised as it is, and nothing is wrapped or replaced.  It is the
    first attempt that does not fail with a transient error, or else the
    last of the [max_retries] attempts; every attempt before it failed
    with a transient error. *)
Theorem retry_outcome_is_an_attempt {S T : Type} (refresh : option (M S unit))
    (func : M S T) (max_retries : Z) (s s' : S) (res : result T) :
  1 <= max_retries ->
  retry_on_connection_error refresh func max_retries s = (res, s') ->
  exists k,
    Z.of_nat k < max_retries
    /\ attempt_once refresh func (attempt_state refresh func k s) = (res, s')
    /\ (forall j, (j < k)%nat ->
          exists e,
            fst (attempt_once refresh func (attempt_state refresh func j s))
            = Raise e
            /\ is_connection_error e = true)
    /\ (forall e, res = Raise e -> is_connection_error e = true ->
                  Z.of_nat k = max_retries - 1).
Proof.
  intros Hn H. unfold retry_on_connection_error in H.
  apply retry_loop_outcome in H; [| lia | lia].
  destruct H as [k [Hk [Hrun [Hbefore Hlast]]]].
  exists k. split; [lia |]. split; [exact Hrun |]. split; [exact Hbefore |].
  intros e Hres He. specialize (Hlast e Hres He). lia.
Qed.

Lemma retry_outcome_is_an_attempt_witness :
  exists k,
    Z.of_nat k < 3
    /\ attempt_once (Some (ret tt)) flaky_once
         (attempt_state (Some (ret tt)) flaky_once k O)
       = (Ok 42, 2%nat)
    /\ (forall j, (j < k)%nat ->
          exists e,
            fst (attempt_once (Some (ret tt)) flaky_once
                   (attempt_state (Some (ret tt)) flaky_once j O))
            = Raise e
            /\ is_connection_error e = true)
    /\ (forall e, Ok 42 = Raise e -> is_connection_error e = true ->
                  Z.of_nat k = 3 - 1).
Proof.
  apply (retry_outcome_is_an_attempt (Some (ret tt)) flaky_once 3 O 2%nat
           (Ok 42)); [lia | reflexivity].
Defined.

Section RetryExhaustion.
Context {S T : Type}.
Variable refresh : M S unit.
Variable func : M S T.
Hypothesis refresh_ok : forall s, fst (refresh s) = Ok tt.
Hypothesis func_down :
  forall s, exists e, fst (func s) = Raise e /\ is_connection_error e = true.

Lemma retry_loop_exhausts max_retries todo attempt last log s :
  (1 <= todo)%nat -> attempt + Z.of_nat todo = max_retries ->
  let out :=
    retry_loop (Some (logged Reacquire refresh)) (logged Attempt func)
      max_retries todo attempt last (log, s) in
  (exists e, fst out = Raise e /\ is_connection_error e = true)
  /\ count_event Attempt (fst (snd out))
     = (count_event Attempt log + todo)%nat
  /\ count_event Reacquire (fst (snd out))
     = (count_event Reacquire log + todo)%nat.
Proof.
  cbv zeta. revert attempt last log s.
  induction todo as [| todo IH]; intros attempt last log s Hpos Hsum; [lia |].
  simpl. unfold try_except, attempt_once, bind, logged.
  pose proof (refresh_ok s) as Hr.
  destruct (refresh s) as [r1 s1]. simpl in Hr. subst r1.
  destruct (func_down s1) as [e [Hf He]].
  destruct (func s1) as [r2 s2]. simpl in Hf. subst r2. rewrite He. simpl.
  destruct (Z.ltb_spec attempt (max_retries - 1)) as [Hlt | Hge].
  - destruct (IH (attempt + 1) (Some e) ((log ++ [Reacquire]) ++ [Attempt]) s2)
      as [Hres [Ha Hre]]; [lia | lia |].
    unfold logged in Hres, Ha, Hre.
    split; [exact Hres |].
    rewrite Ha, Hre, !count_event_app. unfold count_event. simpl. lia.
  - assert (todo = O) by lia. subst todo. unfold raise. simpl.
    split; [exists e; split; [reflexivity | exact He] |].
    rewrite !count_event_app. unfold count_event. simpl. lia.
Qed.

End RetryExhaustion.

(** X3. For [max_retries >= 1], when the reacquisition always succeeds and
    every run of the method raises a transient error, the decorated call
    makes exactly [max_retries] attempts, each after one reacquisition,
    and then raises a transient error of the method. *)
Theorem retry_exhausts_after_max_retries {S T : Type} (refresh : M S unit)
    (func : M S T) (max_retries : Z) (s : S) :
  1 <= max_retries ->
  (forall s, fst (refresh s) = Ok tt) ->
  (forall s, exists e,
     fst (func s) = Raise e /\ is_connection_error e = true) ->
  let out := decorated_logged_n (Some refresh) func max_retries ([], s) in
  (exists e, fst out = Raise e /\ is_connection_error e = true)
  /\ count_event Attempt (fst (snd out)) = Z.to_nat max_retries
  /\ count_event Reacquire (fst (snd out)) = Z.to_nat max_retries.
Proof.
  intros Hn Hr Hf. cbv zeta.
  unfold decorated_logged_n, retry_on_connection_error. simpl.
  destruct (retry_loop_exhausts refresh func Hr Hf max_retries
              (Z.to_nat max_retries) 0 None [] s) as [He [Ha Hre]];
    [lia | lia |].
  cbv zeta in He, Ha, Hre.
  split; [exact He |]. split; [exact Ha | exact Hre].
Qed.

Lemma retry_exhausts_after_max_retries_witness :
  count_event Attempt
    (fst (snd (decorated_logged_n (Some (ret tt)) always_down 5 ([], O))))
  = 5%nat.
Proof.
  apply (proj1 (proj2 (retry_exhausts_after_max_retries (ret tt) always_down
                         5 O ltac:(lia) (fun _ => eq_refl)
                         (fun _ => ex_intro _ broken_pipe
                                     (conj eq_refl eq_refl))))).
Defined.

(** ** The range of a user, exactly *)

Lemma ascii_compare_refl c : Ascii.compare c c = Eq.
Proof. rewrite ascii_compare_N. apply N.compare_refl. Qed.

Lemma string_compare_app p a b :
  String.compare (String.append p a) (String.append p b) = String.compare a b.
Proof.
  induction p as [| c p IH]; simpl; [reflexivity |].
  rewrite ascii_compare_refl. exact IH.
Qed.

(** A key of two parts is its parts joined by the delimiter. *)
Lemma split_join sep k a b :
  split sep k = [a; b] -> k = String.append a (String sep b).
Proof.
  revert a b. induction k as [| c k IH]; intros a b; simpl; [discriminate |].
  destruct (Ascii.eqb_spec c sep) as [-> | Hne].
  - intros H; inversion H as [[Ha Hb]]. apply split_singleton in Hb.
    subst. reflexivity.
  - destruct (split sep k) as [| p ps] eqn:Hs; [discriminate |].
    intros H; inversion H; subst.
    change (String c k = String c (String.append p (String sep b))).
    f_equal. apply IH. reflexivity.
Qed.

Lemma ltb_tilde (m : string) :
  String.ltb m "~" = true <->
  m = "" \/ exists c m', m = String c m' /\ (N_of_ascii c < 126)%N.
Proof.
  unfold String.ltb. destruct m as [| c m']; simpl.
  - split; [intros _; left; reflexivity | reflexivity].
  - rewrite ascii_compare_N.
    change (N_of_ascii "~") with 126%N.
    destruct (N.compare_spec (N_of_ascii c) 126) as [He | Hl | Hg].
    + split.
      * destruct m'; simpl; discriminate.
      * intros [H | [c' [m'' [H Hc]]]]; [discriminate |].
        inversion H; subst. lia.
    + split; [| reflexivity].
      intros _. right. exists c, m'. split; [reflexivity | exact Hl].
    + split; [discriminate |].
      intros [H | [c' [m'' [H Hc]]]]; [discriminate |].
      inversion H; subst. lia.
Qed.

Lemma user_range_key (u m : string) :
  in_row_range (Some (String.append u "_")) (Some (String.append u "_~"))
    (String.append u (String "_" m))
  = String.ltb m "~".
Proof.
  unfold in_row_range, String.leb, String.ltb.
  change (String.append u "_~") with (String.append u (String "_" "~")).
  change (String.append u "_") with (String.append u (String "_" "")).
  rewrite !string_compare_app. simpl.
  destruct m; reflexivity.
Qed.

Lemma user_scan_loop_below_tilde limit user_id rows acc rs :
  Forall (fun r => in_row_range (Some (String.append user_id "_"))
                     (Some (String.append user_id "_~")) (row_key r) = true)
    rows ->
  Forall (fun d => String.ltb (rd_movie_id d) "~" = true) acc ->
  user_scan_loop limit rows acc = Ok rs ->
  Forall (fun d => String.ltb (rd_movie_id d) "~" = true) rs.
Proof.
  intros Hrows. revert acc.
  induction Hrows as [| r rows Hr Hrows IH]; intros acc Hacc; simpl.
  - intros H; inversion H; subst. exact Hacc.
  - loop_cases; try discriminate; try (apply IH; exact Hacc).
    apply decode_utf8_ok in Hdec. subst.
    match goal with
    | |- context [Z.of_nat (length ?l) >=? limit] =>
        assert (Hacc' : Forall (fun d => String.ltb (rd_movie_id d) "~" = true) l)
    end.
    { apply Forall_app. split; [exact Hacc |].
      constructor; [| constructor]. simpl.
      pose proof (range_first_component _ _ _ _ Hr Hsplit) as Hu.
      apply split_join in Hsplit. rewrite Hsplit, Hu, user_range_key in Hr.
      exact Hr. }
    destruct (_ >=? limit).
    + intros H; inversion H; subst. exact Hacc'.
    + apply IH. exact Hacc'.
Qed.

(** X4. The range that [find_by_user_id] scans holds the key
    [user_id + "_" + movie_id] exactly when [movie_id] is empty or begins
    with a byte below 126 (the byte of "~").  So every record that a call
    returns has such a movie id: ratings of the user for a movie whose id
    begins with "~", with DEL or with a non-ASCII character are never
    returned. *)
Theorem find_by_user_id_range_excludes_tilde {C : Type}
    (get_ratings_table : M C table_handle) (user_id : string) (limit : Z)
    (st : @repo C) :
  (forall movie_id,
     in_row_range (Some (String.append user_id "_"))
       (Some (String.append user_id "_~"))
       (String.append user_id (String "_" movie_id)) = true
     <-> movie_id = ""
         \/ exists c m', movie_id = String c m' /\ (N_of_ascii c < 126)%N)
  /\ (forall rs st',
        find_by_user_id get_ratings_table user_id limit st = (Ok rs, st') ->
        Forall (fun d =>
                  rd_movie_id d = ""
                  \/ exists c m',
                       rd_movie_id d = String c m' /\ (N_of_ascii c < 126)%N)
          rs).
Proof.
  split.
  - intros movie_id. rewrite user_range_key. apply ltb_tilde.
  - intros rs st' H.
    apply find_by_user_id_ok_inv in H. destruct H as [rows [_ Hl]].
    eapply List.Forall_impl; [intros d Hd; apply ltb_tilde; exact Hd |].
    eapply user_scan_loop_below_tilde;
      [apply filter_in_range | constructor | exact Hl].
Qed.

Example find_by_user_id_misses_tilde_movie :
  fst (find_by_user_id
         (serving [Row "u1_~new" {["data:rating" := "4"]};
                   Row "u1_m1" {["data:rating" := "5"]}])
         "u1" 10 (DeadTable broken_pipe, tt))
  = Ok [RatingDict "u1" "m1" "5" ""].
Proof. vm_compute. reflexivity. Qed.

Lemma find_by_user_id_range_excludes_tilde_witness :
  Forall (fun d =>
            rd_movie_id d = ""
            \/ exists c m',
                 rd_movie_id d = String c m' /\ (N_of_ascii c < 126)%N)
    [RatingDict "u1" "m1" "5" ""].
Proof.
  apply (proj2 (find_by_user_id_range_excludes_tilde
                  (serving [Row "u1_~new" {["data:rating" := "4"]};
                            Row "u1_m1" {["data:rating" := "5"]}])
                  "u1" 10 (DeadTable broken_pipe, tt))
           _ (LiveTable [Row "u1_~new" {["data:rating" := "4"]};
                         Row "u1_m1" {["data:rating" := "5"]}], tt)).
  vm_compute. reflexivity.
Defined.

(** ** The scans on a table whose rows decode *)

(** The number of records at which a scan with this [limit] stops: the
    test [len(ratings) >= limit] comes after the first record is added. *)
Lemma user_scan_loop_refines limit rows acc :
  forallb row_decodable rows = true ->
  Z.of_nat (length acc) < Z.max limit 1 ->
  user_scan_loop limit rows acc
  = Ok (firstn (Z.to_nat (Z.max limit 1)) (acc ++ omap row_rating rows)).
Proof.
  revert acc. induction rows as [| r rows IH]; intros acc Hd Hacc.
  - simpl. rewrite app_nil_r, firstn_all2 by lia. reflexivity.
  - simpl in Hd. apply andb_prop in Hd. destruct Hd as [Hr Hd].
    unfold row_decodable in Hr.
    apply andb_prop in Hr. destruct Hr as [Hr Hts].
    apply andb_prop in Hr. destruct Hr as [Hk Hrt].
    change (omap row_rating (r :: rows))
      with (match row_rating r with
            | Some d => d :: omap row_rating rows
            | None => omap row_rating rows
            end).
    cbn [user_scan_loop]. unfold get_decoded.
    rewrite (decode_utf8_valid _ Hk), (decode_utf8_valid _ Hrt),
      (decode_utf8_valid _ Hts). cbn [rbind].
    unfold row_rating at 1.
    destruct (split "_" (row_key r)) as [| a [| b [| c l]]] eqn:Hs;
      try (apply IH; assumption).
    set (d := RatingDict a b (default "0" (row_data r !! "data:rating"))
                (default "" (row_data r !! "data:timestamp"))).
    replace (acc ++ d :: omap row_rating rows)
      with ((acc ++ [d]) ++ omap row_rating rows)
      by (rewrite <- app_assoc; reflexivity).
    assert (Hlen : length (acc ++ [d]) = Datatypes.S (length acc))
      by (rewrite length_app; simpl; lia).
    destruct (Z.geb_spec (Z.of_nat (length (acc ++ [d]))) limit)
      as [Hge | Hlt].
    + rewrite firstn_app.
      replace (Z.to_nat (Z.max limit 1) - length (acc ++ [d]))%nat
        with O by lia.
      rewrite firstn_all2 by lia.
      cbn [firstn]. rewrite app_nil_r. reflexivity.
    + apply IH; [exact Hd | lia].
Qed.

(** X5. On a connection that hands out a live table whose rows decode,
    [find_by_user_id] returns the ratings of the rows in the range of the
    user whose key has two parts, in the order of the scan, cut after
    [limit] records; as the limit is tested after a record is added, a
    limit of 0 or below returns one record (when there is one) rather than
    none. *)
Theorem find_by_user_id_on_live_table {C : Type}
    (get_ratings_table : M C table_handle) (user_id : string) (limit : Z)
    (t : table_handle) (c c' : C) (rows : list row) :
  get_ratings_table c = (Ok (LiveTable rows), c') ->
  forallb row_decodable rows = true ->
  let in_range :=
    List.filter
      (fun r => in_row_range (Some (String.append user_id "_"))
                  (Some (String.append user_id "_~")) (row_key r)) rows in
  find_by_user_id get_ratings_table user_id limit (t, c)
  = (Ok (firstn (Z.to_nat (Z.max limit 1)) (omap row_rating in_range)),
     (LiveTable rows, c'))
  /\ (limit <= 0 ->
      find_by_user_id get_ratings_table user_id limit (t, c)
      = (Ok (firstn 1 (omap row_rating in_range)), (LiveTable rows, c'))).
Proof.
  intros Hg Hd. cbv zeta.
  assert (Hd' : forallb row_decodable
                  (List.filter
                     (fun r => in_row_range (Some (String.append user_id "_"))
                                 (Some (String.append user_id "_~"))
                                 (row_key r)) rows) = true).
  { apply List.forallb_forall. intros r Hin.
    apply List.filter_In in Hin. destruct Hin as [Hin _].
    rewrite List.forallb_forall in Hd. apply Hd. exact Hin. }
  assert (Hmain :
    find_by_user_id get_ratings_table user_id limit (t, c)
    = (Ok (firstn (Z.to_nat (Z.max limit 1))
             (omap row_rating
                (List.filter
                   (fun r => in_row_range (Some (String.append user_id "_"))
                               (Some (String.append user_id "_~"))
                               (row_key r)) rows))),
       (LiveTable rows, c'))).
  { apply find_by_user_id_live; [exact Hg |].
    apply (user_scan_loop_refines limit _ [] Hd'). simpl. lia. }
  split; [exact Hmain |].
  intros Hle. rewrite Hmain.
  replace (Z.to_nat (Z.max limit 1)) with 1%nat by lia. reflexivity.
Qed.

Lemma find_by_user_id_on_live_table_witness :
  find_by_user_id (serving users_rows) "u1" 0 (DeadTable broken_pipe, tt)
  = (Ok [RatingDict "u1" "m1" "5" ""], (LiveTable users_rows, tt)).
Proof.
  apply (proj2 (find_by_user_id_on_live_table (serving users_rows) "u1" 0
                  (DeadTable broken_pipe) tt tt users_rows eq_refl
                  ltac:(vm_compute; reflexivity))).
  lia.
Defined.

Lemma movie_scan_loop_negative_limit movie_id n rows all :
  n < 0 ->
  movie_scan_loop movie_id None rows [] = Ok all ->
  movie_scan_loop movie_id (Some n) rows [] = Ok (firstn 1 all).
Proof.
  intros Hn. revert all. induction rows as [| r rows IH]; intros all; simpl.
  - intros H; inversion H; reflexivity.
  - loop_cases; try discriminate; try apply IH.
    unfold limit_reached. simpl length.
    destruct (Z.eqb_spec n 0) as [Hz | _]; [lia |].
    destruct (Z.geb_spec (Z.of_nat 1) n) as [_ | Hlt]; [| lia]. simpl.
    intros H. apply movie_scan_loop_extends in H. destruct H as [tail ->].
    reflexivity.
Qed.

(** X6. A negative [limit] is true in [limit and ...] and is reached by
    the first record: [find_by_movie_id] then returns at most one record,
    and on a connection that hands out a live table whose rows decode, the
    first rating of the movie in the order of the scan. *)
Theorem find_by_movie_id_negative_limit {C : Type}
    (get_ratings_table : M C table_handle) (movie_id : string) (n : Z)
    (st : @repo C) :
  n < 0 ->
  (forall rs st',
     find_by_movie_id get_ratings_table movie_id (Some n) st = (Ok rs, st') ->
     (length rs <= 1)%nat)
  /\ (forall rows c',
        get_ratings_table (snd st) = (Ok (LiveTable rows), c') ->
        forallb row_decodable rows = true ->
        find_by_movie_id get_ratings_table movie_id (Some n) st
        = (Ok (firstn 1 (ratings_of_movie movie_id rows)),
           (LiveTable rows, c'))).
Proof.
  intros Hn. split.
  - intros rs st' H.
    apply find_by_movie_id_ok_inv in H. destruct H as [rows [_ Hl]].
    clear st st'. revert Hl.
    induction rows as [| r rows IH]; simpl.
    + intros H; inversion H. simpl. lia.
    + loop_cases; try discriminate; try exact IH.
      unfold limit_reached. simpl length.
      destruct (Z.eqb_spec n 0) as [Hz | _]; [lia |].
      destruct (Z.geb_spec (Z.of_nat 1) n) as [_ | Hlt]; [| lia]. simpl.
      intros H; inversion H. simpl. lia.
  - intros rows c' Hg Hd. destruct st as [t c]. simpl in Hg.
    apply find_by_movie_id_live; [exact Hg |].
    apply movie_scan_loop_negative_limit; [exact Hn |].
    apply (movie_scan_loop_refines movie_id rows [] Hd).
Qed.

Lemma find_by_movie_id_negative_limit_witness :
  find_by_movie_id (serving scenario_rows) "m1" (Some (-3))
    (DeadTable broken_pipe, tt)
  = (Ok [RatingDict "u1" "m1" "5" ""], (LiveTable scenario_rows, tt)).
Proof.
  apply (proj2 (find_by_movie_id_negative_limit (serving scenario_rows) "m1"
                  (-3) (DeadTable broken_pipe, tt) ltac:(lia))
           scenario_rows tt eq_refl).
  vm_compute. reflexivity.
Defined.

(** ** Ids with the delimiter in them *)

Lemma contains_sep_split sep s :
  contains (String sep "") s = true -> (2 <= length (split sep s))%nat.
Proof.
  induction s as [| c s IH]; simpl; [discriminate |].
  pose proof (split_not_nil sep s) as Hnn.
  rewrite (Ascii.eqb_sym sep c).
  destruct (Ascii.eqb c sep); simpl.
  - intros _. destruct (split sep s); [contradiction | simpl; lia].
  - intros H. specialize (IH H).
    destruct (split sep s); [contradiction | exact IH].
Qed.

Lemma split_parts_no_sep sep s p :
  In p (split sep s) -> contains (String sep "") p = false.
Proof.
  revert p. induction s as [| c s IH]; intros p; simpl.
  - intros [<- | []]. reflexivity.
  - destruct (Ascii.eqb c sep) eqn:Hc.
    + intros [<- | Hin]; [reflexivity | apply IH; exact Hin].
    + destruct (split sep s) as [| q qs] eqn:Hs;
        [exfalso; exact (split_not_nil sep s Hs) |].
      intros [<- | Hin].
      * simpl. rewrite (Ascii.eqb_sym sep c), Hc. simpl.
        apply IH. left. reflexivity.
      * apply IH. right. exact Hin.
Qed.

Lemma user_scan_loop_no_pairs limit rows acc rs :
  Forall (fun r => length (split "_" (row_key r)) <> 2%nat) rows ->
  user_scan_loop limit rows acc = Ok rs -> rs = acc.
Proof.
  intros Hrows. revert acc.
  induction Hrows as [| r rows Hr Hrows IH]; intros acc; simpl.
  - intros H; inversion H; reflexivity.
  - destruct (decode_utf8 (row_key r)) as [k | e] eqn:Hdec; simpl;
      [| discriminate].
    apply decode_utf8_ok in Hdec. subst k.
    destruct (split "_" (row_key r)) as [| a [| b [| c l]]]; try apply IH.
    contradiction Hr. reflexivity.
Qed.

Lemma movie_scan_loop_no_match movie_id limit rows acc rs :
  contains "_" movie_id = true ->
  movie_scan_loop movie_id limit rows acc = Ok rs -> rs = acc.
Proof.
  intros Hm. revert acc. induction rows as [| r rows IH]; intros acc; simpl.
  - intros H; inversion H; reflexivity.
  - destruct (decode_utf8 (row_key r)) as [k | e] eqn:Hdec; simpl;
      [| discriminate].
    destruct (split "_" k) as [| a [| b [| c l]]] eqn:Hs; try apply IH.
    destruct (String.eqb_spec b movie_id) as [Heq | _]; [| apply IH].
    exfalso.
    assert (Hb : contains "_" b = false).
    { apply (split_parts_no_sep "_" k). rewrite Hs. right. left. reflexivity. }
    rewrite Heq, Hm in Hb. discriminate Hb.
Qed.

(** X7. An id that contains the delimiter cannot be found.  For a
    [user_id] with "_" in it every key in the scanned range has three or
    more parts, and for a [movie_id] with "_" in it no second key part is
    equal to it: every call of [find_by_user_id], respectively
    [find_by_movie_id], that returns, returns the empty list, whatever the
    table holds. *)
Theorem ids_with_delimiter_are_never_found {C : Type}
    (get_ratings_table : M C table_handle) (st : @repo C) :
  (forall user_id limit rs st',
     contains "_" user_id = true ->
     find_by_user_id get_ratings_table user_id limit st = (Ok rs, st') ->
     rs = [])
  /\ (forall movie_id limit rs st',
        contains "_" movie_id = true ->
        find_by_movie_id get_ratings_table movie_id limit st = (Ok rs, st') ->
        rs = []).
Proof.
  split.
  - intros user_id limit rs st' Hu H.
    apply find_by_user_id_ok_inv in H. destruct H as [rows [_ Hl]].
    eapply user_scan_loop_no_pairs; [| exact Hl].
    eapply List.Forall_impl; [| apply filter_in_range].
    intros r Hr. simpl in Hr. unfold in_row_range in Hr.
    apply andb_prop in Hr. destruct Hr as [H1 H2].
    destruct (range_prefix user_id (row_key r) H1 H2) as [rest ->].
    rewrite split_app, length_app.
    pose proof (contains_sep_split "_" user_id Hu) as Hlen.
    pose proof (split_not_nil "_" rest) as Hnn.
    destruct (split "_" rest); [contradiction | simpl; lia].
  - intros movie_id limit rs st' Hm H.
    apply find_by_movie_id_ok_inv in H. destruct H as [rows [_ Hl]].
    eapply movie_scan_loop_no_match; eassumption.
Qed.

Lemma ids_with_delimiter_are_never_found_witness :
  fst (find_by_user_id
         (serving [Row "a_b_m1" {["data:rating" := "4"]};
                   Row "u1_x_y" {["data:rating" := "5"]}])
         "a_b" 10 (DeadTable broken_pipe, tt)) = Ok []
  /\ fst (find_by_movie_id
            (serving [Row "a_b_m1" {["data:rating" := "4"]};
                      Row "u1_x_y" {["data:rating" := "5"]}])
            "x_y" None (DeadTable broken_pipe, tt)) = Ok [].
Proof.
  destruct (ids_with_delimiter_are_never_found
              (serving [Row "a_b_m1" {["data:rating" := "4"]};
                        Row "u1_x_y" {["data:rating" := "5"]}])
              (DeadTable broken_pipe, tt)) as [Hu Hm].
  split.
  - destruct (find_by_user_id _ "a_b" 10 _) as [[rs | e] st'] eqn:H.
    + rewrite (Hu "a_b" 10 rs st' eq_refl H). reflexivity.
    + vm_compute in H. discriminate H.
  - destruct (find_by_movie_id _ "x_y" None _) as [[rs | e] st'] eqn:H.
    + rewrite (Hm "x_y" None rs st' eq_refl H). reflexivity.
    + vm_compute in H. discriminate H.
Defined.

(** ** Every record stems from a row *)

Lemma movie_scan_loop_sound table movie_id limit rows acc rs :
  (forall r, In r rows -> In r table) ->
  Forall (fun d => exists r, In r table /\ record_of_row d r) acc ->
  movie_scan_loop movie_id limit rows acc = Ok rs ->
  Forall (fun d => exists r, In r table /\ record_of_row d r) rs.
Proof.
  revert acc. induction rows as [| r rows IH]; intros acc Hin Hacc; simpl.
  - intros H; inversion H; subst. exact Hacc.
  - assert (Hin' : forall r0, In r0 rows -> In r0 table)
      by (intros r0 H0; apply Hin; right; exact H0).
    loop_cases; try discriminate; try (apply IH; assumption).
    match goal with
    | |- context [limit_reached limit ?l] =>
        assert (Hacc' : Forall (fun d => exists r, In r table /\ record_of_row d r) l)
    end.
    { apply Forall_app. split; [exact Hacc |].
      constructor; [| constructor].
      exists r. split; [apply Hin; left; reflexivity |].
      apply decode_utf8_ok in Hdec. subst.
      unfold get_decoded in *.
      apply decode_utf8_ok in Hget, Hget0. subst.
      split; [apply split_join; exact Hsplit | split; reflexivity]. }
    destruct (limit_reached limit _).
    + intros H; inversion H; subst. exact Hacc'.
    + apply IH; assumption.
Qed.

Lemma user_scan_loop_sound table limit rows acc rs :
  (forall r, In r rows -> In r table) ->
  Forall (fun d => exists r, In r table /\ record_of_row d r) acc ->
  user_scan_loop limit rows acc = Ok rs ->
  Forall (fun d => exists r, In r table /\ record_of_row d r) rs.
Proof.
  revert acc. induction rows as [| r rows IH]; intros acc Hin Hacc; simpl.
  - intros H; inversion H; subst. exact Hacc.
  - assert (Hin' : forall r0, In r0 rows -> In r0 table)
      by (intros r0 H0; apply Hin; right; exact H0).
    loop_cases; try discriminate; try (apply IH; assumption).
    match goal with
    | |- context [Z.of_nat (length ?l) >=? limit] =>
        assert (Hacc' : Forall (fun d => exists r, In r table /\ record_of_row d r) l)
    end.
    { apply Forall_app. split; [exact Hacc |].
      constructor; [| constructor].
      exists r. split; [apply Hin; left; reflexivity |].
      apply decode_utf8_ok in Hdec. subst.
      unfold get_decoded in *.
      apply decode_utf8_ok in Hget, Hget0. subst.
      split; [apply split_join; exact Hsplit | split; reflexivity]. }
    destruct (_ >=? limit).
    + intros H; inversion H; subst. exact Hacc'.
    + apply IH; assumption.
Qed.

(** X8. The scans invent nothing.  Every record that [find_by_movie_id] or
    [find_by_user_id] returns stems from a row of the table that the
    repository holds after the call: the [user_id] and the [movie_id] of
    the record, joined by "_", are the key of that row, and the rating and
    the timestamp are its column values or the defaults "0" and "". *)
Theorem scan_records_stem_from_rows {C : Type}
    (get_ratings_table : M C table_handle) (st : @repo C) :
  (forall movie_id limit rs st',
     find_by_movie_id get_ratings_table movie_id limit st = (Ok rs, st') ->
     exists table,
       fst st' = LiveTable table
       /\ Forall (fun d => exists r, In r table /\ record_of_row d r) rs)
  /\ (forall user_id limit rs st',
        find_by_user_id get_ratings_table user_id limit st = (Ok rs, st') ->
        exists table,
          fst st' = LiveTable table
          /\ Forall (fun d => exists r, In r table /\ record_of_row d r) rs).
Proof.
  split.
  - intros movie_id limit rs st' H.
    apply find_by_movie_id_ok_inv in H. destruct H as [rows [Ht Hl]].
    exists rows. split; [exact Ht |].
    eapply movie_scan_loop_sound; [| constructor | exact Hl]. auto.
  - intros user_id limit rs st' H.
    apply find_by_user_id_ok_inv in H. destruct H as [rows [Ht Hl]].
    exists rows. split; [exact Ht |].
    eapply user_scan_loop_sound; [| constructor | exact Hl].
    intros r Hin. apply List.filter_In in Hin. exact (proj1 Hin).
Qed.

Lemma scan_records_stem_from_rows_witness :
  exists table,
    LiveTable scenario_rows = LiveTable table
    /\ Forall (fun d => exists r, In r table /\ record_of_row d r)
         [RatingDict "u1" "m1" "5" ""; RatingDict "u2" "m1" "3" ""].
Proof.
  apply (proj1 (scan_records_stem_from_rows (serving scenario_rows)
                  (DeadTable broken_pipe, tt))
           "m1" None _ (LiveTable scenario_rows, tt)).
  vm_compute. reflexivity.
Defined.

(** ** Invariants of the statistics *)

Lemma bucket_count_le label values :
  bucket_count label values <= Z.of_nat (length values).
Proof.
  unfold bucket_count. apply inj_le.
  induction values as [| v values IH]; simpl; [lia |].
  destruct (String.eqb (bucket_label v) label); simpl; lia.
Qed.

Lemma bucket_count_pos label values :
  0 < bucket_count label values ->
  exists v, In v values /\ bucket_label v = label.
Proof.
  unfold bucket_count.
  induction values as [| v values IH]; simpl; [lia |].
  destruct (String.eqb_spec (bucket_label v) label) as [Heq | Hne].
  - intros _. exists v. split; [left; reflexivity | exact Heq].
  - intros H. destruct (IH H) as [w [Hin Hw]].
    exists w. split; [right; exact Hin | exact Hw].
Qed.

Lemma bucket_label_below_6 (v : float) :
  float_geb_int v 6 = false ->
  In (bucket_label v) ["0.5"; "1"; "2"; "3"; "4"; "5"].
Proof.
  intros H6. unfold bucket_label.
  destruct (float_geb_int v 1) eqn:H1; [| left; reflexivity].
  assert (Hfin : is_finite v = true).
  { destruct v as [s | [] | | s m e]; try reflexivity; discriminate. }
  rewrite float_geb_int_finite in H1, H6 by exact Hfin.
  apply Qle_bool_iff in H1. change (inject_Z 1) with 1%Q in H1.
  assert (Hlt : (float_rational v < 6)%Q).
  { apply Qnot_le_lt. intros Hle. apply Qle_bool_iff in Hle.
    change (inject_Z 6) with 6%Q in H6. congruence. }
  pose proof (Qfloor_resp_le _ _ H1) as Hlo. change (Qfloor 1) with 1 in Hlo.
  assert (Hhi : Qfloor (float_rational v) < 6).
  { rewrite Zlt_Qlt. eapply Qle_lt_trans; [apply Qfloor_le | exact Hlt]. }
  assert (Hc : Qfloor (float_rational v) = 1 \/ Qfloor (float_rational v) = 2
               \/ Qfloor (float_rational v) = 3
               \/ Qfloor (float_rational v) = 4
               \/ Qfloor (float_rational v) = 5) by lia.
  destruct Hc as [-> | [-> | [-> | [-> | ->]]]]; simpl; tauto.
Qed.

(** X10. The distribution has no empty and no foreign bucket: in a result
    of [get_rating_stats], whose ratings are those that the scan without
    limit collected from the table the repository holds afterwards, every
    label of [rating_distribution] has a count between 1 and [total_count]
    and is the bucket of one of these ratings; when none of them reaches 6
    the labels are among "0.5", "1", "2", "3", "4" and "5". *)
Theorem rating_distribution_buckets {C : Type}
    (get_ratings_table : M C table_handle) (movie_id : string)
    (st st' : @repo C) (stats : rating_stats) :
  get_rating_stats get_ratings_table movie_id st = (Ok stats, st') ->
  exists rows all values,
    fst st' = LiveTable rows
    /\ movie_scan_loop movie_id None rows [] = Ok all
    /\ map_result (fun r => float_of_str (rd_rating r)) all = Ok values
    /\ forall label n,
         rating_distribution stats !! label = Some n ->
         1 <= n <= total_count stats
         /\ (exists v, In v values /\ bucket_label v = label)
         /\ (Forall (fun v => float_geb_int v 6 = false) values ->
             In label ["0.5"; "1"; "2"; "3"; "4"; "5"]).
Proof.
  intros H. apply get_rating_stats_ok_inv in H.
  destruct H as [rows [all [Ht [Hl Hs]]]].
  apply stats_of_ratings_spec in Hs.
  destruct Hs as [values [Hv [_ [Hn [_ [_ Hdist]]]]]].
  exists rows, all, values. split; [exact Ht |]. split; [exact Hl |].
  split; [exact Hv |].
  intros label n Hlook. rewrite Hdist in Hlook.
  destruct (Z.eqb_spec (bucket_count label values) 0) as [Hz | Hnz];
    [discriminate |].
  inversion Hlook; subst n. clear Hlook.
  pose proof (bucket_count_nonneg label values) as Hnn.
  pose proof (bucket_count_le label values) as Hle.
  destruct (bucket_count_pos label values ltac:(lia)) as [v [Hin Hlab]].
  split; [lia |]. split; [exists v; split; assumption |].
  intros Hall. rewrite <- Hlab. apply bucket_label_below_6.
  rewrite List.Forall_forall in Hall. apply Hall. exact Hin.
Qed.

Lemma rating_distribution_buckets_witness :
  exists rows all values,
    LiveTable scenario_rows = LiveTable rows
    /\ movie_scan_loop "m1" None rows [] = Ok all
    /\ map_result (fun r => float_of_str (rd_rating r)) all = Ok values
    /\ forall label n,
         ({["5" := 1; "3" := 1]} : gmap string Z) !! label = Some n ->
         1 <= n <= 2
         /\ (exists v, In v values /\ bucket_label v = label)
         /\ (Forall (fun v => float_geb_int v 6 = false) values ->
             In label ["0.5"; "1"; "2"; "3"; "4"; "5"]).
Proof.
  pose proof (rating_distribution_buckets (serving scenario_rows) "m1"
                (DeadTable broken_pipe, tt) (LiveTable scenario_rows, tt)
                (RatingStats (float_of_int 4) 2 {["5" := 1; "3" := 1]})) as H.
  cbn [rating_distribution total_count fst] in H.
  apply H. vm_compute. reflexivity.
Defined.

(** ** [get_movie_by_id] *)

Lemma map_result_rating_of_dict dicts rs movie :
  map_result rating_of_dict dicts = Ok rs ->
  Forall (fun d => rd_movie_id d = movie) dicts ->
  Forall (fun x => movie_id x = movie) rs.
Proof.
  revert rs. induction dicts as [| d dicts IH]; intros rs; simpl.
  - intros H _; inversion H. constructor.
  - unfold rating_of_dict at 1.
    destruct (float_of_str (rd_rating d)) as [x | e]; simpl; [| discriminate].
    destruct (map_result rating_of_dict dicts) as [rs' | e]; simpl;
      [| discriminate].
    intros H Hall; inversion H; subst. inversion Hall; subst.
    constructor; [reflexivity | apply IH; [reflexivity | assumption]].
Qed.

(** X11. [get_movie_by_id] returns [None] for a movie that the movie
    repository does not know, and then leaves the rating repository alone:
    no reacquisition and no scan.  A detail that it returns carries the
    fields of the record found and at most 10 ratings, all of this movie;
    they are the ratings at which a scan with limit 10 stopped, so on a
    table whose rows decode the first 10 in the order of the scan, whatever
    their timestamps. *)
Theorem get_movie_by_id_recent_ratings {V R C : Type}
    (py_float : V -> result Q) (py_int : V -> result Z)
    (find_by_id : string -> M R (option (@raw_movie V)))
    (get_ratings_table : M C table_handle)
    (movie : string) (r : R) (st : @repo C) :
  (forall r',
     find_by_id movie r = (Ok None, r') ->
     get_movie_by_id py_float py_int find_by_id get_ratings_table movie (r, st)
     = (Ok None, (r', st)))
  /\ (forall detail r' st',
        get_movie_by_id py_float py_int find_by_id get_ratings_table movie
          (r, st) = (Ok (Some detail), (r', st')) ->
        exists m rows dicts,
          find_by_id movie r = (Ok (Some m), r')
          /\ detail_id detail = raw_id m
          /\ detail_title detail = raw_title m
          /\ detail_genres detail = raw_genres m
          /\ py_float (raw_avg_rating m) = Ok (detail_avg_rating detail)
          /\ py_int (raw_rating_count m) = Ok (detail_rating_count detail)
          /\ (length (recent_ratings detail) <= 10)%nat
          /\ Forall (fun x => movie_id x = movie) (recent_ratings detail)
          /\ fst st' = LiveTable rows
          /\ movie_scan_loop movie (Some 10) rows [] = Ok dicts
          /\ map_result rating_of_dict dicts = Ok (recent_ratings detail)
          /\ (forallb row_decodable rows = true ->
              dicts = firstn 10 (ratings_of_movie movie rows))).
Proof.
  split.
  - intros r' Hf. unfold get_movie_by_id. rewrite try_except_reraise.
    unfold bind, on_movies. rewrite Hf. reflexivity.
  - intros detail r' st'. unfold get_movie_by_id.
    rewrite try_except_reraise. unfold bind, on_movies, on_ratings, lift, ret.
    destruct (find_by_id movie r) as [[[m |] | e] r1] eqn:Hf;
      [| discriminate | discriminate].
    destruct (find_by_movie_id get_ratings_table movie (Some 10) st)
      as [[dicts | e] st1] eqn:Hs; [| discriminate].
    destruct (map_result rating_of_dict dicts) as [rs | e] eqn:Hm;
      [| discriminate].
    destruct (py_float (raw_avg_rating m)) as [a | e] eqn:Ha; [| discriminate].
    destruct (py_int (raw_rating_count m)) as [n | e] eqn:Hn; [| discriminate].
    intros H; inversion H; subst. simpl.
    apply find_by_movie_id_ok_inv in Hs. destruct Hs as [rows [Ht Hl]].
    exists m, rows, dicts.
    repeat (split; [first [reflexivity | assumption] |]).
    split.
    { rewrite (map_result_length _ _ _ Hm).
      pose proof (movie_scan_loop_length movie 10 rows [] dicts
                    ltac:(lia) ltac:(simpl; lia) Hl). lia. }
    split.
    { eapply map_result_rating_of_dict; [exact Hm |].
      eapply movie_scan_loop_movie; [constructor | exact Hl]. }
    split; [exact Ht |]. split; [exact Hl |]. split; [exact Hm |].
    intros Hd.
    pose proof (movie_scan_loop_prefix movie 10 rows [] _ ltac:(lia)
                  ltac:(simpl; lia)
                  (movie_scan_loop_refines movie rows [] Hd)) as Hp.
    rewrite Hp in Hl. inversion Hl. reflexivity.
Qed.

Lemma get_movie_by_id_recent_ratings_witness :
  get_movie_by_id float_value int_value store_find_by_id (serving rows_of_42)
    "99" (tt, (DeadTable broken_pipe, tt))
  = (Ok None, (tt, (DeadTable broken_pipe, tt)))
  /\ exists m rows dicts,
       store_find_by_id "42" tt = (Ok (Some m), tt)
       /\ "42" = raw_id m
       /\ "The Matrix" = raw_title m
       /\ ["Action"; "Sci-Fi"] = raw_genres m
       /\ float_value (raw_avg_rating m) = Ok (87 # 20)
       /\ int_value (raw_rating_count m) = Ok 1000
       /\ (2 <= 10)%nat
       /\ Forall (fun x => movie_id x = "42")
            [mkRating "u1" "42" (float_of_int 5) "2024-01-02";
             mkRating "u2" "42" (float_of_int 3) "2024-03-01"]
       /\ LiveTable rows_of_42 = LiveTable rows
       /\ movie_scan_loop "42" (Some 10) rows [] = Ok dicts
       /\ map_result rating_of_dict dicts
          = Ok [mkRating "u1" "42" (float_of_int 5) "2024-01-02";
                mkRating "u2" "42" (float_of_int 3) "2024-03-01"]
       /\ (forallb row_decodable rows = true ->
           dicts = firstn 10 (ratings_of_movie "42" rows)).
Proof.
  pose proof (get_movie_by_id_recent_ratings float_value int_value
                store_find_by_id (serving rows_of_42) "99" tt
                (DeadTable broken_pipe, tt)) as [Hnone _].
  pose proof (get_movie_by_id_recent_ratings float_value int_value
                store_find_by_id (serving rows_of_42) "42" tt
                (DeadTable broken_pipe, tt)) as [_ Hsome].
  split.
  - apply Hnone. reflexivity.
  - apply (Hsome (mkMovieDetail "42" "The Matrix" ["Action"; "Sci-Fi"]
                    (87 # 20) 1000
                    [mkRating "u1" "42" (float_of_int 5) "2024-01-02";
                     mkRating "u2" "42" (float_of_int 3) "2024-03-01"])
                 tt (LiveTable rows_of_42, tt)).
    vm_compute. reflexivity.
Defined.

(** ** Pages outside the list *)

Lemma py_slice_page_zero {A} (l : list A) (page_size : Z) :
  1 <= page_size -> py_slice l (- page_size) (- page_size + page_size) = [].
Proof.
  intros Hs. unfold py_slice, slice_index.
  replace (- page_size + page_size) with 0 by lia.
  destruct (Z.ltb_spec (- page_size) 0) as [_ | Hge]; [| lia].
  destruct (Z.ltb_spec 0 0) as [Habs | _]; [lia |].
  replace (Z.to_nat (Z.min 0 (Z.of_nat (length l))
                     - Z.max 0 (- page_size + Z.of_nat (length l))))
    with O by lia.
  reflexivity.
Qed.

(** X12. [get_movies_list] does not treat a page outside the list as an
    error.  On a repository that returns the movie set, for
    [page_size >= 1], a page after the last one and the page 0 are empty,
    with the same total and the same number of pages as every other page;
    with [page_size = 0] the call raises [ZeroDivisionError] whatever the
    page and the movie set are. *)
Theorem get_movies_list_outside_pages {V R : Type}
    (py_float : V -> result Q) (py_int : V -> result Z)
    (find_all : M R (list (@raw_movie V)))
    (s s' : R) (data : list (@raw_movie V)) (all : list Movie) :
  find_all s = (Ok data, s') ->
  map_result (movie_of_raw py_float py_int) data = Ok all ->
  let total := Z.of_nat (length all) in
  (forall page page_size,
     1 <= page_size ->
     (total + page_size - 1) / page_size < page ->
     get_movies_list py_float py_int find_all page page_size s
     = (Ok ([], total, (total + page_size - 1) / page_size), s'))
  /\ (forall page_size,
        1 <= page_size ->
        get_movies_list py_float py_int find_all 0 page_size s
        = (Ok ([], total, (total + page_size - 1) / page_size), s'))
  /\ (forall page,
        get_movies_list py_float py_int find_all page 0 s
        = (Raise (Exn "ZeroDivisionError"
                    "integer division or modulo by zero"), s')).
Proof.
  intros Hf Hm. cbv zeta. split; [| split].
  - intros page page_size Hs Hp.
    pose proof (ceil_div (Z.of_nat (length all)) page_size ltac:(lia) Hs)
      as Hceil. cbv zeta in Hceil.
    assert (H1 : 1 <= page).
    { assert (0 <= (Z.of_nat (length all) + page_size - 1) / page_size)
        by (apply Z.div_pos; lia). lia. }
    rewrite (get_movies_list_eq py_float py_int find_all page page_size
               s data s' all H1 Hs Hf Hm).
    rewrite skipn_all2; [rewrite firstn_nil; reflexivity |].
    unfold py_sort_reverse. rewrite py_sort_length. nia.
  - intros page_size Hs. unfold get_movies_list.
    rewrite try_except_reraise. unfold bind, lift, ret.
    rewrite Hf, Hm. unfold py_floordiv.
    destruct (Z.eqb_spec page_size 0) as [Hz | _]; [lia |].
    replace ((0 - 1) * page_size) with (- page_size) by lia.
    rewrite py_slice_page_zero by exact Hs.
    unfold py_sort_reverse. rewrite py_sort_length. reflexivity.
  - intros page. unfold get_movies_list.
    rewrite try_except_reraise. unfold bind, lift, ret.
    rewrite Hf, Hm. reflexivity.
Qed.

Lemma get_movies_list_outside_pages_witness :
  get_movies_list float_value int_value store_find_all 3 2 tt
  = (Ok ([], 3, 2), tt)
  /\ get_movies_list float_value int_value store_find_all 1 0 tt
     = (Raise (Exn "ZeroDivisionError" "integer division or modulo by zero"),
        tt).
Proof.
  destruct (get_movies_list_outside_pages float_value int_value store_find_all
              tt tt movie_store
              [mkMovie "7" "Dark City" ["Matrix-like"] (9 # 2) 50;
               mkMovie "42" "The Matrix" ["Action"; "Sci-Fi"] (87 # 20) 1000;
               mkMovie "3" "Heat" ["Crime"] (87 # 20) 1200]
              eq_refl eq_refl) as [Hafter [_ Hzero]].
  split.
  - apply (Hafter 3 2); [lia | reflexivity].
  - apply (Hzero 1).
Defined.

Lemma py_slice_nil {A} (start stop : Z) : py_slice (@nil A) start stop = [].
Proof. unfold py_slice. rewrite skipn_nil, firstn_nil. reflexivity. Qed.

Section MovieRatingsPages.
Context {C : Type}.
Variable get_ratings_table : M C table_handle.

Lemma get_movie_ratings_live_any movie page page_size (t : table_handle)
    (c c' : C) rows dicts all :
  get_ratings_table c = (Ok (LiveTable rows), c') ->
  movie_scan_loop movie None rows [] = Ok dicts ->
  map_result rating_of_dict dicts = Ok all ->
  get_movie_ratings get_ratings_table movie page page_size (t, c)
  = match
      (if Z.of_nat (length all) >? 0
       then py_floordiv (Z.of_nat (length all) + page_size - 1) page_size
       else Ok 0)
    with
    | Ok total_pages =>
        (Ok (py_slice (py_sort_reverse timestamp_ltb all)
               ((page - 1) * page_size) ((page - 1) * page_size + page_size),
             Z.of_nat (length all), total_pages),
         (LiveTable rows, c'))
    | Raise e => (Raise e, (LiveTable rows, c'))
    end.
Proof.
  intros Hg Hl Hm. unfold get_movie_ratings.
  rewrite try_except_reraise. unfold bind, lift, ret.
  rewrite (find_by_movie_id_live get_ratings_table movie None t c c'
             rows dicts Hg Hl).
  rewrite Hm.
  rewrite (py_sort_length (fun a b => timestamp_ltb b a) all
           : length (py_sort_reverse timestamp_ltb all) = length all).
  destruct (Z.of_nat (length all) >? 0); [| reflexivity].
  destruct (py_floordiv _ _); reflexivity.
Qed.

End MovieRatingsPages.

(** X13. [get_movie_ratings] tests [total > 0] before it divides, so with
    [page_size = 0] it returns an empty page, total 0 and 0 pages for a
    movie without ratings, and raises [ZeroDivisionError] for a movie with
    ratings.  For [page_size >= 1] a page after the last one is empty,
    with the total and the number of pages of every other page. *)
Theorem get_movie_ratings_outside_pages {C : Type}
    (get_ratings_table : M C table_handle) (movie : string)
    (t : table_handle) (c c' : C) (rows : list row)
    (all : list Rating) :
  get_ratings_table c = (Ok (LiveTable rows), c') ->
  forallb row_decodable rows = true ->
  map_result rating_of_dict (ratings_of_movie movie rows) = Ok all ->
  let total := Z.of_nat (length all) in
  (forall page,
     all = [] ->
     get_movie_ratings get_ratings_table movie page 0 (t, c)
     = (Ok ([], 0, 0), (LiveTable rows, c')))
  /\ (forall page,
        all <> [] ->
        get_movie_ratings get_ratings_table movie page 0 (t, c)
        = (Raise (Exn "ZeroDivisionError"
                    "integer division or modulo by zero"),
           (LiveTable rows, c')))
  /\ (forall page page_size,
        1 <= page_size ->
        (total + page_size - 1) / page_size < page ->
        get_movie_ratings get_ratings_table movie page page_size (t, c)
        = (Ok ([], total,
               if total >? 0 then (total + page_size - 1) / page_size else 0),
           (LiveTable rows, c'))).
Proof.
  intros Hg Hd Hm. cbv zeta.
  pose proof (movie_scan_loop_refines movie rows [] Hd) as Hl. simpl in Hl.
  split; [| split].
  - intros page ->.
    rewrite (get_movie_ratings_live_any get_ratings_table movie page 0 t c c'
               rows _ [] Hg Hl Hm).
    change (py_sort_reverse timestamp_ltb []) with (@nil Rating).
    rewrite py_slice_nil. reflexivity.
  - intros page Hne.
    rewrite (get_movie_ratings_live_any get_ratings_table movie page 0 t c c'
               rows _ all Hg Hl Hm).
    destruct all as [| x all]; [contradiction |]. reflexivity.
  - intros page page_size Hs Hp.
    rewrite (get_movie_ratings_live_any get_ratings_table movie page page_size
               t c c' rows _ all Hg Hl Hm).
    pose proof (ceil_div (Z.of_nat (length all)) page_size ltac:(lia) Hs)
      as Hceil. cbv zeta in Hceil.
    assert (H1 : 1 <= page).
    { assert (0 <= (Z.of_nat (length all) + page_size - 1) / page_size)
        by (apply Z.div_pos; lia). lia. }
    unfold py_floordiv.
    destruct (Z.eqb_spec page_size 0) as [Hz | _]; [lia |].
    rewrite py_slice_page by nia.
    rewrite skipn_all2
      by (unfold py_sort_reverse; rewrite py_sort_length; nia).
    rewrite firstn_nil.
    destruct (Z.of_nat (length all) >? 0); reflexivity.
Qed.

Lemma get_movie_ratings_outside_pages_witness :
  get_movie_ratings (serving dated_rows) "m9" 1 0 (DeadTable broken_pipe, tt)
  = (Ok ([], 0, 0), (LiveTable dated_rows, tt))
  /\ get_movie_ratings (serving dated_rows) "m1" 1 0
       (DeadTable broken_pipe, tt)
     = (Raise (Exn "ZeroDivisionError" "integer division or modulo by zero"),
        (LiveTable dated_rows, tt)).
Proof.
  split.
  - apply (proj1 (get_movie_ratings_outside_pages (serving dated_rows) "m9"
                    (DeadTable broken_pipe) tt tt dated_rows []
                    eq_refl ltac:(vm_compute; reflexivity)
                    ltac:(vm_compute; reflexivity))).
    reflexivity.
  - apply (proj1 (proj2 (get_movie_ratings_outside_pages
                    (serving dated_rows) "m1"
                    (DeadTable broken_pipe) tt tt dated_rows
                    [mkRating "u1" "m1" (float_of_int 5) "2024-01-02";
                     mkRating "u2" "m1" (float_of_int 3) "2024-03-01"]
                    eq_refl ltac:(vm_compute; reflexivity)
                    ltac:(vm_compute; reflexivity)))).
    discriminate.
Defined.

(** ** The sort is stable *)

Section SortStable.
Context {A : Type}.
Variable lt : A -> A -> bool.
Variable p : A -> bool.

Lemma sort_insert_stable x l :
  (forall y, In y l -> p x = true -> p y = true -> lt y x = false) ->
  List.filter p (sort_insert lt x l) = List.filter p (x :: l).
Proof.
  induction l as [| y l IH]; intros H; [reflexivity |].
  cbn [sort_insert]. destruct (lt y x) eqn:Hyx; [| reflexivity].
  cbn [List.filter]. rewrite IH by (intros z Hz; apply H; right; exact Hz).
  cbn [List.filter].
  destruct (p x) eqn:Hx, (p y) eqn:Hy; try reflexivity.
  rewrite (H y (or_introl eq_refl) eq_refl Hy) in Hyx. discriminate Hyx.
Qed.

Lemma py_sort_stable l :
  (forall a b, In a l -> In b l -> p a = true -> p b = true ->
               lt a b = false) ->
  List.filter p (py_sort lt l) = List.filter p l.
Proof.
  induction l as [| x l IH]; intros H; [reflexivity |].
  cbn [py_sort]. rewrite sort_insert_stable.
  - cbn [List.filter]. rewrite IH; [reflexivity |].
    intros a b Ha Hb. apply H; right; assumption.
  - intros y Hy Hpx Hpy.
    apply (Permutation_in _ (py_sort_perm lt l)) in Hy.
    apply H; [right; exact Hy | left; reflexivity | exact Hpy | exact Hpx].
Qed.

End SortStable.

(** X14. The sort of [get_movies_list] is stable: movies with the same
    average and the same count keep the order in which the repository
    returned them.  For every movie [x], the movies of the sorted list
    whose key equals the key of [x] are, in this order, those of the
    repository's list; and every page is cut from that sorted list. *)
Theorem get_movies_list_keeps_order_of_ties {V R : Type}
    (py_float : V -> result Q) (py_int : V -> result Z)
    (find_all : M R (list (@raw_movie V)))
    (s s' : R) (data : list (@raw_movie V)) (all : list Movie) :
  find_all s = (Ok data, s') ->
  map_result (movie_of_raw py_float py_int) data = Ok all ->
  exists sorted,
    (forall page page_size,
       1 <= page -> 1 <= page_size ->
       page_items (get_movies_list py_float py_int find_all page page_size s)
       = firstn (Z.to_nat page_size)
           (skipn (Z.to_nat ((page - 1) * page_size)) sorted))
    /\ forall x,
         List.filter (same_score x) sorted = List.filter (same_score x) all.
Proof.
  intros Hf Hm. exists (py_sort_reverse score_ltb all). split.
  - intros page page_size Hp Hs. unfold page_items.
    rewrite (get_movies_list_eq py_float py_int find_all page page_size
               s data s' all Hp Hs Hf Hm).
    reflexivity.
  - intros x. unfold py_sort_reverse. apply py_sort_stable.
    intros a b _ _ Ha Hb. unfold same_score in Ha, Hb.
    apply andb_prop in Ha, Hb. destruct Ha as [Ha1 Ha2], Hb as [Hb1 Hb2].
    apply Bool.negb_true_iff in Ha1, Ha2, Hb1, Hb2.
    apply (score_ltb_trans b x a); assumption.
Qed.

Lemma get_movies_list_keeps_order_of_ties_witness :
  exists sorted,
    (forall page page_size,
       1 <= page -> 1 <= page_size ->
       page_items (get_movies_list float_value int_value
                     (ret [heat; dark_city; heat]) page page_size tt)
       = firstn (Z.to_nat page_size)
           (skipn (Z.to_nat ((page - 1) * page_size)) sorted))
    /\ forall x,
         List.filter (same_score x) sorted
         = List.filter (same_score x)
             [mkMovie "3" "Heat" ["Crime"] (87 # 20) 1200;
              mkMovie "7" "Dark City" ["Matrix-like"] (9 # 2) 50;
              mkMovie "3" "Heat" ["Crime"] (87 # 20) 1200].
Proof.
  apply (get_movies_list_keeps_order_of_ties float_value int_value
           (ret [heat; dark_city; heat]) tt tt [heat; dark_city; heat]);
    reflexivity.
Defined.

(** X15. The pages of [get_movie_ratings] are the whole list.  On a
    connection that hands out a live table whose rows decode and whose
    ratings read as numbers, for [page_size >= 1], the pages 1 to
    [total_pages], one after the other, are all ratings of the movie,
    newest timestamp first: a rearrangement of the ratings, none lost and
    none twice; and every page has at most [page_size] ratings. *)
Theorem get_movie_ratings_pages_concat {C : Type}
    (get_ratings_table : M C table_handle) (movie : string)
    (page_size : Z) (t : table_handle) (c c' : C) (rows : list row)
    (all : list Rating) :
  1 <= page_size ->
  get_ratings_table c = (Ok (LiveTable rows), c') ->
  forallb row_decodable rows = true ->
  map_result rating_of_dict (ratings_of_movie movie rows) = Ok all ->
  let total := Z.of_nat (length all) in
  let total_pages :=
    if total >? 0 then (total + page_size - 1) / page_size else 0 in
  concat
    (List.map
       (fun p =>
          page_items
            (get_movie_ratings get_ratings_table movie p page_size (t, c)))
       (page_numbers total_pages))
  = py_sort_reverse timestamp_ltb all
  /\ Permutation (py_sort_reverse timestamp_ltb all) all
  /\ forall page,
       1 <= page ->
       (length (page_items
                  (get_movie_ratings get_ratings_table movie page page_size
                     (t, c))) <= Z.to_nat page_size)%nat.
Proof.
  intros Hs Hg Hd Hm. cbv zeta.
  pose proof (movie_scan_loop_refines movie rows [] Hd) as Hl. simpl in Hl.
  assert (Hpage : forall page,
            1 <= page ->
            page_items
              (get_movie_ratings get_ratings_table movie page page_size (t, c))
            = firstn (Z.to_nat page_size)
                (skipn (Z.to_nat ((page - 1) * page_size))
                   (py_sort_reverse timestamp_ltb all))).
  { intros page Hp. unfold page_items.
    rewrite (get_movie_ratings_live get_ratings_table movie page page_size
               t c c' rows _ all Hs Hg Hl Hm).
    simpl. apply py_slice_page; nia. }
  split; [| split].
  - rewrite page_numbers_map.
    rewrite (List.map_ext_in _
               (fun i => firstn (Z.to_nat page_size)
                           (skipn (i * Z.to_nat page_size)
                              (py_sort_reverse timestamp_ltb all)))).
    + rewrite concat_pages. apply firstn_all2.
      unfold py_sort_reverse. rewrite py_sort_length.
      destruct (Z.gtb_spec (Z.of_nat (length all)) 0) as [Hpos | Hz].
      * pose proof (ceil_div (Z.of_nat (length all)) page_size
                      ltac:(lia) Hs) as Hceil. cbv zeta in Hceil. nia.
      * lia.
    + intros i _. rewrite Hpage by lia. do 2 f_equal. nia.
  - apply py_sort_reverse_perm.
  - intros page Hp. rewrite Hpage by exact Hp. rewrite length_firstn. lia.
Qed.

Lemma get_movie_ratings_pages_concat_witness :
  concat
    (List.map
       (fun p =>
          page_items
            (get_movie_ratings (serving dated_rows) "m1" p 1
               (DeadTable broken_pipe, tt)))
       (page_numbers 2))
  = [mkRating "u2" "m1" (float_of_int 3) "2024-03-01"; mkRating "u1" "m1" (float_of_int 5) "2024-01-02"].
Proof.
  apply (proj1 (get_movie_ratings_pages_concat (serving dated_rows) "m1" 1
                  (DeadTable broken_pipe) tt tt dated_rows
                  [mkRating "u1" "m1" (float_of_int 5) "2024-01-02";
                   mkRating "u2" "m1" (float_of_int 3) "2024-03-01"]
                  ltac:(lia) eq_refl ltac:(vm_compute; reflexivity)
                  ltac:(vm_compute; reflexivity))).
Defined.

(** ** Code points *)

Lemma N_of_ascii_of_N (k : N) : (k < 256)%N -> N_of_ascii (ascii_of_N k) = k.
Proof. apply N_ascii_embedding. Qed.

(** Linear arithmetic with quotients and remainders by constants. *)
Ltac lia_div := zify; Z.to_euclidean_division_equations; lia.

(** Decoding what was encoded gives the code point back. *)
Lemma code_points_encode_cp (n : N) (s : string) :
  (n < 2097152)%N ->
  code_points (String.append (utf8_encode_cp n) s) = n :: code_points s.
Proof.
  intros Hn. unfold utf8_encode_cp.
  destruct (N.ltb_spec n 128) as [H1 | H1];
    [| destruct (N.ltb_spec n 2048) as [H2 | H2];
       [| destruct (N.ltb_spec n 65536) as [H3 | H3]]];
    repeat
      match goal with
      | |- context [String.append (String ?a ?t) s] =>
          change (String.append (String a t) s)
            with (String a (String.append t s))
      end;
    change (String.append "" s) with s;
    cbn [code_points]; unfold continuation_bits;
    rewrite !N_of_ascii_of_N by lia_div.
  - destruct (N.ltb_spec n 192); [reflexivity | lia].
  - destruct (N.ltb_spec (192 + n / 64) 192); [lia_div |].
    destruct (N.ltb_spec (192 + n / 64) 224); [| lia_div].
    f_equal. lia_div.
  - destruct (N.ltb_spec (224 + n / 4096) 192); [lia_div |].
    destruct (N.ltb_spec (224 + n / 4096) 224); [lia_div |].
    destruct (N.ltb_spec (224 + n / 4096) 240); [| lia_div].
    f_equal. lia_div.
  - destruct (N.ltb_spec (240 + n / 262144) 192); [lia_div |].
    destruct (N.ltb_spec (240 + n / 262144) 224); [lia_div |].
    destruct (N.ltb_spec (240 + n / 262144) 240); [lia_div |].
    destruct (N.ltb_spec (240 + n / 262144) 248); [| lia_div].
    f_equal. lia_div.
Qed.

Lemma code_points_encode (l : list N) :
  Forall (fun n => (n < 2097152)%N) l -> code_points (utf8_encode l) = l.
Proof.
  induction 1 as [| n l Hn _ IH]; [reflexivity |].
  cbn [utf8_encode]. rewrite code_points_encode_cp by exact Hn.
  f_equal. exact IH.
Qed.

Lemma N_of_ascii_bound (c : ascii) : (N_of_ascii c < 256)%N.
Proof. apply N_ascii_bounded. Qed.

Lemma code_points_bound (s : string) :
  Forall (fun n => (n < 2097152)%N) (code_points s).
Proof.
  assert (H : forall k s, (String.length s <= k)%nat ->
                Forall (fun n => (n < 2097152)%N) (code_points s)).
  { clear s. induction k as [| k IH]; intros s Hlen.
    - destruct s; [constructor | simpl in Hlen; lia].
    - destruct s as [| c0 s1]; [constructor |].
      pose proof (N_of_ascii_bound c0).
      cbn [code_points]. unfold continuation_bits.
      destruct s1 as [| c1 [| c2 [| c3 s4]]]; cbn [String.length] in Hlen;
        repeat match goal with
               | |- context [(?a <? ?b)%N] => destruct (N.ltb_spec a b)
               end;
        (constructor; [lia_div | apply IH; cbn [String.length]; lia]). }
  apply (H (String.length s)). lia.
Qed.

(** ** Trimming *)

Lemma lstrip_points_bound (P : N -> Prop) l :
  Forall P l -> Forall P (lstrip_points l).
Proof.
  induction 1 as [| c l Hc Hl IH]; simpl; [constructor |].
  destruct (Unicode.isspace c); [exact IH | constructor; assumption].
Qed.

Lemma rstrip_points_bound (P : N -> Prop) l :
  Forall P l -> Forall P (rstrip_points l).
Proof.
  induction 1 as [| c l Hc Hl IH]; simpl; [constructor |].
  destruct (rstrip_points l) as [| d u].
  - destruct (Unicode.isspace c); repeat constructor; assumption.
  - constructor; assumption.
Qed.

Lemma rstrip_points_keeps_head c t :
  Unicode.isspace c = false -> exists u, rstrip_points (c :: t) = c :: u.
Proof.
  intros Hc. simpl. destruct (rstrip_points t) as [| d u].
  - rewrite Hc. exists []. reflexivity.
  - exists (d :: u). reflexivity.
Qed.

Lemma lstrip_points_head l :
  lstrip_points l = []
  \/ exists c t, lstrip_points l = c :: t /\ Unicode.isspace c = false.
Proof.
  induction l as [| c l IH]; simpl; [left; reflexivity |].
  destruct (Unicode.isspace c) eqn:Hc; [exact IH |].
  right. exists c, l. split; [reflexivity | exact Hc].
Qed.

Lemma rstrip_points_idempotent t :
  rstrip_points (rstrip_points t) = rstrip_points t.
Proof.
  induction t as [| c t IH]; [reflexivity |].
  cbn [rstrip_points]. destruct (rstrip_points t) as [| d u] eqn:Hr.
  - destruct (Unicode.isspace c) eqn:Hc; [reflexivity |].
    cbn [rstrip_points]. rewrite Hc. reflexivity.
  - change (rstrip_points (c :: d :: u))
      with (match rstrip_points (d :: u) with
            | [] => if Unicode.isspace c then [] else [c]
            | x :: y => c :: x :: y
            end).
    rewrite IH. reflexivity.
Qed.

(** Trimming the code points of a trimmed text changes nothing. *)
Lemma strip_points_idempotent l :
  rstrip_points (lstrip_points (rstrip_points (lstrip_points l)))
  = rstrip_points (lstrip_points l).
Proof.
  destruct (lstrip_points_head l) as [-> | [c [t [-> Hc]]]]; [reflexivity |].
  destruct (rstrip_points_keeps_head c t Hc) as [u Hu].
  rewrite Hu. cbn [lstrip_points]. rewrite Hc, <- Hu.
  apply rstrip_points_idempotent.
Qed.

(** [strip] of a trimmed string changes nothing. *)
Lemma strip_idempotent s : strip (strip s) = strip s.
Proof.
  unfold strip. rewrite code_points_encode.
  - rewrite strip_points_idempotent. reflexivity.
  - apply rstrip_points_bound, lstrip_points_bound, code_points_bound.
Qed.

(** X16. [search_movies] sees only the trimmed query: whitespace around
    the query changes neither the result nor the queries that reach the
    movie repository. *)
Theorem search_movies_ignores_surrounding_whitespace {V R : Type}
    (py_float : V -> result Q) (py_int : V -> result Z)
    (find_by_id : string -> M R (option (@raw_movie V)))
    (search_by_text : string -> Z -> M R (list (@raw_movie V)))
    (query : string) (limit : Z) (st : list store_call * R) :
  search_movies_traced py_float py_int find_by_id search_by_text
    query limit st
  = search_movies_traced py_float py_int find_by_id search_by_text
      (strip query) limit st.
Proof.
  unfold search_movies_traced, search_movies.
  rewrite strip_idempotent. reflexivity.
Qed.

(** ** The endpoint [get_movie] *)

Section MovieDetailShape.
Context {V R C : Type}.
Variable py_float : V -> result Q.
Variable py_int : V -> result Z.
Variable find_by_id : string -> M R (option (@raw_movie V)).
Variable get_ratings_table : M C table_handle.

Lemma get_movie_by_id_live movie (r r' : R) (t : table_handle) (c c' : C)
    m rows recent a n :
  find_by_id movie r = (Ok (Some m), r') ->
  get_ratings_table c = (Ok (LiveTable rows), c') ->
  forallb row_decodable rows = true ->
  map_result rating_of_dict (firstn 10 (ratings_of_movie movie rows))
  = Ok recent ->
  py_float (raw_avg_rating m) = Ok a ->
  py_int (raw_rating_count m) = Ok n ->
  get_movie_by_id py_float py_int find_by_id get_ratings_table movie
    (r, (t, c))
  = (Ok (Some (mkMovieDetail (raw_id m) (raw_title m) (raw_genres m) a n
                 recent)),
     (r', (LiveTable rows, c'))).
Proof.
  intros Hf Hg Hd Hm Ha Hn. unfold get_movie_by_id.
  rewrite try_except_reraise. unfold bind, on_movies, on_ratings, lift, ret.
  rewrite Hf.
  rewrite (find_by_movie_id_live get_ratings_table movie (Some 10) t c c' rows
             (firstn 10 (ratings_of_movie movie rows)) Hg).
  - rewrite Hm, Ha, Hn. reflexivity.
  - apply (movie_scan_loop_prefix movie 10 rows [] _ ltac:(lia)
             ltac:(simpl; lia) (movie_scan_loop_refines movie rows [] Hd)).
Qed.

Lemma get_movie_by_id_none movie (r : R) (st : @repo C) r' :
  find_by_id movie r = (Ok None, r') ->
  get_movie_by_id py_float py_int find_by_id get_ratings_table movie (r, st)
  = (Ok None, (r', st)).
Proof.
  intros Hf. unfold get_movie_by_id. rewrite try_except_reraise.
  unfold bind, on_movies. rewrite Hf. reflexivity.
Qed.

End MovieDetailShape.

(** Rewrites the computation that a [let (_, _) := ... in] of the goal
    inspects with an equation for it. *)
Ltac scrutinee_is E :=
  match goal with
  | |- (let (_, _) := ?X in _) = _ =>
      let H := fresh "Hscrutinee" in
      assert (H : X = _) by exact E; rewrite H; clear H
  end.

(** X17. The endpoint [get_movie] answers 404 exactly when the service
    finds no movie, and then the rating repository is not touched; every
    other failure, of the service or of building the response, is the
    status 500 with a fixed detail.  On a connection that hands out live
    tables the table is acquired three times for one request: the recent
    ratings are read from the first table, the statistics from the third,
    and the second (acquired by [get_rating_stats] before it calls
    [find_by_movie_id]) is never scanned. *)
Theorem endpoint_get_movie_statuses {V R C DetailSchema : Type}
    (py_float : V -> result Q) (py_int : V -> result Z)
    (find_by_id : string -> M R (option (@raw_movie V)))
    (get_ratings_table : M C table_handle)
    (detail_schema : MovieDetail -> rating_stats -> result DetailSchema)
    (movie : string) (r : R) (t : table_handle) (c : C) :
  let run :=
    endpoint_get_movie py_float py_int find_by_id get_ratings_table
      detail_schema movie (r, (t, c)) in
  (forall r',
     find_by_id movie r = (Ok None, r') ->
     run = (HTTPException 404 "电影不存在", (r', (t, c))))
  /\ (forall status_code detail s',
        run = (HTTPException status_code detail, s') ->
        (status_code = 404 /\ detail = "电影不存在"
         /\ fst (get_movie_by_id py_float py_int find_by_id get_ratings_table
                   movie (r, (t, c))) = Ok None)
        \/ (status_code = 500 /\ detail = "获取电影详情失败"))
  /\ (forall r' m a n rows1 rows2 rows3 c1 c2 c3 recent stats response,
        find_by_id movie r = (Ok (Some m), r') ->
        py_float (raw_avg_rating m) = Ok a ->
        py_int (raw_rating_count m) = Ok n ->
        get_ratings_table c = (Ok (LiveTable rows1), c1) ->
        get_ratings_table c1 = (Ok (LiveTable rows2), c2) ->
        get_ratings_table c2 = (Ok (LiveTable rows3), c3) ->
        forallb row_decodable rows1 = true ->
        forallb row_decodable rows3 = true ->
        map_result rating_of_dict (firstn 10 (ratings_of_movie movie rows1))
        = Ok recent ->
        stats_of_ratings (ratings_of_movie movie rows3) = Ok stats ->
        detail_schema
          (mkMovieDetail (raw_id m) (raw_title m) (raw_genres m) a n recent)
          stats = Ok response ->
        run = (Respond response, (r', (LiveTable rows3, c3)))).
Proof.
  cbv zeta. split; [| split].
  - intros r' Hf. unfold endpoint_get_movie. cbv beta.
    pose proof (get_movie_by_id_none py_float py_int find_by_id
                  get_ratings_table movie r (t, c) r' Hf) as E.
    scrutinee_is E. reflexivity.
  - intros status_code detail s'. unfold endpoint_get_movie. cbv beta.
    match goal with
    | |- (let (_, _) := ?X in _) = _ -> _ =>
        destruct X as [[[d |] | e] s1]
    end.
    + destruct (on_ratings (service_get_rating_stats get_ratings_table movie)
                  s1) as [[stats | e] s2].
      * destruct (detail_schema d stats); intros H; inversion H.
        right. split; reflexivity.
      * intros H; inversion H. right. split; reflexivity.
    + intros H; inversion H. left. repeat split.
    + intros H; inversion H. right. split; reflexivity.
  - intros r' m a n rows1 rows2 rows3 c1 c2 c3 recent stats response
      Hf Ha Hn Hg1 Hg2 Hg3 Hd1 Hd3 Hrecent Hstats Hresp.
    unfold endpoint_get_movie. cbv beta.
    pose proof (get_movie_by_id_live py_float py_int find_by_id
                  get_ratings_table movie r r' t c c1 m rows1 recent a n
                  Hf Hg1 Hd1 Hrecent Ha Hn) as E.
    scrutinee_is E.
    unfold on_ratings, service_get_rating_stats.
    rewrite try_except_reraise.
    rewrite (get_rating_stats_live get_ratings_table movie (LiveTable rows1)
               c1 c2 c3 rows2 rows3 _ stats Hg2 Hg3
               (movie_scan_loop_refines movie rows3 [] Hd3) Hstats).
    rewrite Hresp. reflexivity.
Qed.

Lemma endpoint_get_movie_statuses_witness :
  endpoint_get_movie float_value int_value store_find_by_id
    (serving rows_of_42) plain_detail_schema "99"
    (tt, (DeadTable broken_pipe, tt))
  = (HTTPException 404 "电影不存在", (tt, (DeadTable broken_pipe, tt)))
  /\ endpoint_get_movie float_value int_value store_find_by_id
       (serving rows_of_42) plain_detail_schema "42"
       (tt, (DeadTable broken_pipe, tt))
     = (Respond
          (mkMovieDetail "42" "The Matrix" ["Action"; "Sci-Fi"] (87 # 20) 1000
             [mkRating "u1" "42" (float_of_int 5) "2024-01-02";
              mkRating "u2" "42" (float_of_int 3) "2024-03-01"],
           RatingStats (float_of_int 4) 2 {["5" := 1; "3" := 1]}),
        (tt, (LiveTable rows_of_42, tt))).
Proof.
  split.
  - apply (proj1 (endpoint_get_movie_statuses float_value int_value
                    store_find_by_id (serving rows_of_42) plain_detail_schema
                    "99" tt (DeadTable broken_pipe) tt)).
    reflexivity.
  - apply (proj2 (proj2 (endpoint_get_movie_statuses float_value int_value
                    store_find_by_id (serving rows_of_42) plain_detail_schema
                    "42" tt (DeadTable broken_pipe) tt))
             tt the_matrix (87 # 20)%Q 1000 rows_of_42 rows_of_42 rows_of_42
             tt tt tt
             [mkRating "u1" "42" (float_of_int 5) "2024-01-02";
              mkRating "u2" "42" (float_of_int 3) "2024-03-01"]
             (RatingStats (float_of_int 4) 2 {["5" := 1; "3" := 1]}));
      vm_compute; reflexivity.
Defined.

(** ** The endpoint [get_movie_ratings] *)

(** [float] raises nothing but the [ValueError] that shows its argument. *)
Lemma float_of_str_raises s e :
  float_of_str s = Raise e ->
  e = Exn "ValueError"
        (String.append "could not convert string to float: " (repr s)).
Proof.
  unfold float_of_str.
  destruct (drop_underscores 0 (float_text s)) as [text |];
    [| intros H; inversion H; reflexivity].
  match goal with
  | |- match ?X with _ => _ end = _ -> _ =>
      destruct X as [[x [| c rest]] |]
  end; intros H; inversion H; reflexivity.
Qed.

(** The comprehension over the ratings raises what [float] raises on the
    text of one of them. *)
Lemma map_result_rating_of_dict_raises dicts e :
  map_result rating_of_dict dicts = Raise e ->
  exists d, In d dicts /\ float_of_str (rd_rating d) = Raise e.
Proof.
  induction dicts as [| d dicts IH]; simpl; [discriminate |].
  unfold rating_of_dict at 1.
  destruct (float_of_str (rd_rating d)) as [x | e'] eqn:Hx; simpl.
  - destruct (map_result rating_of_dict dicts) as [rs | e'']; simpl;
      [discriminate |].
    intros H; inversion H; subst. destruct (IH eq_refl) as [d' [Hin Hd']].
    exists d'. split; [right; exact Hin | exact Hd'].
  - intros H; inversion H; subst. exists d. split; [left; reflexivity | exact Hx].
Qed.

Section RatingsEndpointShape.
Context {C : Type}.
Variable get_ratings_table : M C table_handle.

Lemma get_movie_ratings_bad_rating movie page page_size (t : table_handle)
    (c c' : C) rows e :
  get_ratings_table c = (Ok (LiveTable rows), c') ->
  forallb row_decodable rows = true ->
  map_result rating_of_dict (ratings_of_movie movie rows) = Raise e ->
  get_movie_ratings get_ratings_table movie page page_size (t, c)
  = (Raise e, (LiveTable rows, c')).
Proof.
  intros Hg Hd Hm. unfold get_movie_ratings.
  rewrite try_except_reraise. unfold bind, lift, ret.
  rewrite (find_by_movie_id_live get_ratings_table movie None t c c' rows _
             Hg (movie_scan_loop_refines movie rows [] Hd)).
  simpl app. rewrite Hm. reflexivity.
Qed.

Lemma find_by_movie_id_no_table movie limit (st : @repo C) e0 :
  (forall c, fst (get_ratings_table c) = Raise e0) ->
  fst (find_by_movie_id get_ratings_table movie limit st) = Raise e0.
Proof.
  intros Hdown. unfold find_by_movie_id. rewrite retry2_unfold.
  assert (Ha : forall s : @repo C,
            fst (attempt_once (Some (_refresh_table get_ratings_table))
                   (find_by_movie_id_body movie limit) s) = Raise e0).
  { intros [t c]. unfold attempt_once, bind, _refresh_table.
    pose proof (Hdown c) as Hc.
    destruct (get_ratings_table c) as [[t' | e] c1]; simpl in Hc;
      [discriminate |].
    inversion Hc. reflexivity. }
  pose proof (Ha st) as H1.
  destruct (attempt_once _ _ st) as [[v | e] s1]; simpl in H1;
    [discriminate |].
  inversion H1; subst e.
  destruct (is_connection_error e0); [apply Ha | reflexivity].
Qed.

End RatingsEndpointShape.

(** X18. The endpoint [get_movie_ratings] fails only with what the service
    or the response model raised: a [ValueError] becomes the status 422
    "参数错误" with the text of the error, every other exception 500 with a
    fixed detail.  A rating in the table whose text [float] does not read
    makes [float] raise a [ValueError] that shows the text: the request,
    whatever its parameters, gets a 422 with that message.  When the table
    cannot be acquired and the error is no [ValueError], the status is
    500. *)
Theorem endpoint_get_movie_ratings_statuses {C RatingListResponse : Type}
    (get_ratings_table : M C table_handle)
    (rating_list_response :
       list Rating -> Z -> Z -> Z -> Z -> result RatingListResponse)
    (isinstance_ValueError : exn -> bool)
    (movie : string) (page page_size : Z) (t : table_handle) (c : C) :
  let run :=
    endpoint_get_movie_ratings get_ratings_table rating_list_response
      isinstance_ValueError movie page page_size (t, c) in
  (forall status_code detail s',
     run = (HTTPException status_code detail, s') ->
     exists e,
       (fst (get_movie_ratings get_ratings_table movie page page_size (t, c))
        = Raise e
        \/ exists ratings total total_pages,
             fst (get_movie_ratings get_ratings_table movie page page_size
                    (t, c))
             = Ok (ratings, total, total_pages)
             /\ rating_list_response ratings total page page_size total_pages
                = Raise e)
       /\ ((status_code = 422 /\ isinstance_ValueError e = true
            /\ detail = String.append "参数错误: " (exn_msg e))
           \/ (status_code = 500 /\ isinstance_ValueError e = false
               /\ detail = "获取评分列表失败")))
  /\ (forall rows c' e,
        (forall e', exn_class e' = "ValueError" ->
                    isinstance_ValueError e' = true) ->
        get_ratings_table c = (Ok (LiveTable rows), c') ->
        forallb row_decodable rows = true ->
        map_result rating_of_dict (ratings_of_movie movie rows) = Raise e ->
        run = (HTTPException 422 (String.append "参数错误: " (exn_msg e)),
               (LiveTable rows, c'))
        /\ exists d,
             In d (ratings_of_movie movie rows)
             /\ float_of_str (rd_rating d) = Raise e
             /\ exn_msg e
                = String.append "could not convert string to float: "
                    (repr (rd_rating d)))
  /\ (forall e0,
        (forall c0, fst (get_ratings_table c0) = Raise e0) ->
        isinstance_ValueError e0 = false ->
        fst run = HTTPException 500 "获取评分列表失败").
Proof.
  cbv zeta. split; [| split].
  - intros status_code detail s'. unfold endpoint_get_movie_ratings.
    cbv beta.
    match goal with
    | |- (let (_, _) := ?X in _) = _ -> _ =>
        destruct X as [[[[items total] total_pages] | e] s1]
    end.
    + destruct (rating_list_response items total page page_size total_pages)
        as [resp | e] eqn:Hresp; [discriminate |].
      unfold ratings_error.
      destruct (isinstance_ValueError e) eqn:He; intros H; inversion H;
        exists e; (split; [right; exists items, total, total_pages;
                           split; [reflexivity | exact Hresp] |]);
        [left | right]; repeat split; assumption.
    + unfold ratings_error.
      destruct (isinstance_ValueError e) eqn:He; intros H; inversion H;
        exists e; (split; [left; reflexivity |]);
        [left | right]; repeat split; assumption.
  - intros rows c' e Hsub Hg Hd Hm. unfold endpoint_get_movie_ratings.
    cbv beta.
    pose proof (get_movie_ratings_bad_rating get_ratings_table movie page
                  page_size t c c' rows e Hg Hd Hm) as E.
    destruct (map_result_rating_of_dict_raises _ e Hm) as [d [Hin Hfl]].
    pose proof (float_of_str_raises _ _ Hfl) as He.
    split.
    + scrutinee_is E. unfold ratings_error.
      rewrite (Hsub e) by (rewrite He; reflexivity). reflexivity.
    + exists d. split; [exact Hin |]. split; [exact Hfl |].
      rewrite He. reflexivity.
  - intros e0 Hdown Hno. unfold endpoint_get_movie_ratings. cbv beta.
    pose proof (find_by_movie_id_no_table get_ratings_table movie None (t, c)
                  e0 Hdown) as Hfind.
    assert (Hsvc : fst (get_movie_ratings get_ratings_table movie page
                          page_size (t, c)) = Raise e0).
    { unfold get_movie_ratings. rewrite try_except_reraise. unfold bind.
      destruct (find_by_movie_id get_ratings_table movie None (t, c))
        as [[v | e] s1]; simpl in Hfind; [discriminate |].
      inversion Hfind. reflexivity. }
    match goal with
    | |- fst (let (_, _) := ?X in _) = _ =>
        assert (HX : fst X = Raise e0) by exact Hsvc;
        destruct X as [[v | e] s1]
    end; simpl in HX; [discriminate |].
    inversion HX; subst e. unfold ratings_error. rewrite Hno. reflexivity.
Qed.

Lemma endpoint_get_movie_ratings_statuses_witness :
  endpoint_get_movie_ratings (serving rows_with_bad_rating) plain_rating_list
    builtin_ValueError "m1" 1 20 (DeadTable broken_pipe, tt)
  = (HTTPException 422 "参数错误: could not convert string to float: 'abc'",
     (LiveTable rows_with_bad_rating, tt))
  /\ fst (endpoint_get_movie_ratings (fun n : nat => (Raise broken_pipe, n))
            plain_rating_list builtin_ValueError "m1" 1 20
            (DeadTable broken_pipe, O))
     = HTTPException 500 "获取评分列表失败".
Proof.
  split.
  - refine (proj1 (proj1 (proj2 (endpoint_get_movie_ratings_statuses
                    (serving rows_with_bad_rating) plain_rating_list
                    builtin_ValueError "m1" 1 20 (DeadTable broken_pipe) tt))
             rows_with_bad_rating tt
             (Exn "ValueError" "could not convert string to float: 'abc'")
             _ _ _ _)).
    + intros e' He'. unfold builtin_ValueError. rewrite He'. reflexivity.
    + reflexivity.
    + vm_compute. reflexivity.
    + vm_compute. reflexivity.
  - apply (proj2 (proj2 (endpoint_get_movie_ratings_statuses
                    (fun n : nat => (Raise broken_pipe, n)) plain_rating_list
                    builtin_ValueError "m1" 1 20 (DeadTable broken_pipe) O))
             broken_pipe).
    + intros c0. reflexivity.
    + reflexivity.
Defined.

(** ** A key that does not decode *)

Lemma movie_scan_loop_undecodable movie pre bad post acc e :
  forallb row_decodable pre = true ->
  decode_utf8 (row_key bad) = Raise e ->
  movie_scan_loop movie None (pre ++ bad :: post) acc = Raise e.
Proof.
  intros Hd Hbad. revert acc.
  induction pre as [| r pre IH]; intros acc.
  - cbn [app movie_scan_loop]. rewrite Hbad. reflexivity.
  - simpl in Hd. apply andb_prop in Hd. destruct Hd as [Hr Hd].
    unfold row_decodable in Hr.
    apply andb_prop in Hr. destruct Hr as [Hr Hts].
    apply andb_prop in Hr. destruct Hr as [Hk Hrt].
    cbn [app movie_scan_loop]. unfold get_decoded.
    rewrite (decode_utf8_valid _ Hk), (decode_utf8_valid _ Hrt),
      (decode_utf8_valid _ Hts). cbn [rbind].
    destruct (split "_" (row_key r)) as [| a [| b [| x l]]];
      try (apply IH; exact Hd).
    destruct (String.eqb b movie); apply IH; exact Hd.
Qed.

Lemma movie_scan_loop_stops movie n pre post acc rs :
  0 < n -> Z.of_nat (length acc) < n ->
  movie_scan_loop movie (Some n) pre acc = Ok rs ->
  n <= Z.of_nat (length rs) ->
  movie_scan_loop movie (Some n) (pre ++ post) acc = Ok rs.
Proof.
  intros Hn. revert acc. induction pre as [| r pre IH]; intros acc Hacc; simpl.
  - intros H Hlen; inversion H; subst. lia.
  - loop_cases; try discriminate; try (apply IH; exact Hacc).
    rewrite limit_reached_pos by exact Hn.
    match goal with
    | |- context [Z.of_nat (length ?l) >=? n] =>
        destruct (Z.geb_spec (Z.of_nat (length l)) n) as [Hge | Hlt]
    end.
    + intros H _. exact H.
    + apply IH. exact Hlt.
Qed.

(** X19. A row key that is no UTF-8 is not skipped: it ends the scan with
    a [UnicodeDecodeError].  On a connection that always hands out the same
    table, in which the rows before that row decode, [find_by_movie_id]
    without limit raises; with a positive limit that the ratings of the
    rows before it already fill, the scan stops before the row and the
    call returns. *)
Theorem undecodable_key_aborts_scan {C : Type}
    (get_ratings_table : M C table_handle) (movie : string)
    (pre post : list row) (bad : row) (st : @repo C) :
  (forall c, fst (get_ratings_table c) = Ok (LiveTable (pre ++ bad :: post))) ->
  forallb row_decodable pre = true ->
  utf8_valid (row_key bad) = false ->
  (exists e,
     fst (find_by_movie_id get_ratings_table movie None st) = Raise e
     /\ exn_class e = "UnicodeDecodeError")
  /\ (forall n,
        0 < n -> n <= Z.of_nat (length (ratings_of_movie movie pre)) ->
        fst (find_by_movie_id get_ratings_table movie (Some n) st)
        = Ok (firstn (Z.to_nat n) (ratings_of_movie movie pre))).
Proof.
  intros Hserve Hd Hbad.
  assert (Hfirst : forall limit (s : @repo C),
            fst (attempt_once (Some (_refresh_table get_ratings_table))
                   (find_by_movie_id_body movie limit) s)
            = movie_scan_loop movie limit (pre ++ bad :: post) []).
  { intros limit s. unfold attempt_once, bind, _refresh_table.
    destruct s as [t c]. pose proof (Hserve c) as Hc.
    destruct (get_ratings_table c) as [[t1 | e1] c1]; simpl in Hc;
      [| discriminate].
    inversion Hc; subst t1.
    rewrite find_by_movie_id_body_eq. reflexivity. }
  split.
  - destruct (decode_utf8_invalid _ Hbad) as [msg Hmsg].
    exists (Exn "UnicodeDecodeError" msg). split; [| reflexivity].
    pose proof (movie_scan_loop_undecodable movie pre bad post [] _ Hd Hmsg)
      as Hloop.
    unfold find_by_movie_id. rewrite retry2_unfold.
    pose proof (Hfirst None st) as H1. rewrite Hloop in H1.
    destruct (attempt_once _ _ st) as [[v | e] s1]; simpl in H1;
      [discriminate |].
    inversion H1; subst e.
    destruct (is_connection_error _); [| reflexivity].
    rewrite (Hfirst None s1). exact Hloop.
  - intros n Hn Hlen.
    unfold find_by_movie_id. rewrite retry2_unfold.
    pose proof (Hfirst (Some n) st) as H1.
    rewrite (movie_scan_loop_stops movie n pre (bad :: post) []
               (firstn (Z.to_nat n) (ratings_of_movie movie pre)) Hn
               ltac:(simpl; lia)) in H1.
    + destruct (attempt_once _ _ st) as [[v | e] s1]; simpl in H1;
        [| discriminate].
      inversion H1. reflexivity.
    + apply movie_scan_loop_prefix; [exact Hn | simpl; lia |].
      apply (movie_scan_loop_refines movie pre [] Hd).
    + rewrite length_firstn. lia.
Qed.

Lemma undecodable_key_aborts_scan_witness :
  (exists e,
     fst (find_by_movie_id (serving rows_with_bad_key) "m1" None
            (DeadTable broken_pipe, tt)) = Raise e
     /\ exn_class e = "UnicodeDecodeError")
  /\ fst (find_by_movie_id (serving rows_with_bad_key) "m1" (Some 1)
            (DeadTable broken_pipe, tt))
     = Ok [RatingDict "u1" "m1" "5" ""].
Proof.
  destruct (undecodable_key_aborts_scan (serving rows_with_bad_key) "m1"
              [Row "u1_m1" {["data:rating" := "5"]}]
              [Row "u3_m1" {["data:rating" := "3"]}]
              (Row (String (ascii_of_N 255) "_m1") {["data:rating" := "4"]})
              (DeadTable broken_pipe, tt)
              (fun _ => eq_refl) ltac:(vm_compute; reflexivity) eq_refl)
    as [Hnone Hsome].
  split; [exact Hnone |].
  apply (Hsome 1); [lia | change (1 <= 1); lia].
Defined.

(** The message of the error shows the offset of the fault, and the
    decorator reads the message: a fault at the offset 10053 of a key
    looks like the reset code "10053", so the scan is attempted twice
    before the error is raised. *)
Example decode_error_at_10053_looks_transient :
  exists e,
    decode_utf8
      (String.append (String.concat "" (repeat "x" (Z.to_nat 10053)))
         (String (ascii_of_N 255) ""))
    = Raise e
    /\ exn_msg e
       = "'utf-8' codec can't decode byte 0xff in position 10053: invalid start byte"
    /\ is_connection_error e = true.
Proof. eexists. split; [vm_compute; reflexivity |]. split; vm_compute; reflexivity. Qed.

(** ** Ratings without a rating column *)

Lemma ratings_of_movie_without_column movie rows :
  Forall (fun r => row_data r !! "data:rating" = None) rows ->
  Forall (fun d => rd_rating d = "0") (ratings_of_movie movie rows).
Proof.
  unfold ratings_of_movie. induction 1 as [| r rows Hr _ IH]; [constructor |].
  change (omap row_rating (r :: rows))
    with (match row_rating r with
          | Some d => d :: omap row_rating rows
          | None => omap row_rating rows
          end).
  unfold row_rating at 1.
  destruct (split "_" (row_key r)) as [| a [| b [| x l]]]; try exact IH.
  cbn [List.filter rd_movie_id].
  destruct (String.eqb b movie); [| exact IH].
  constructor; [| exact IH]. simpl. rewrite Hr. reflexivity.
Qed.

Lemma stats_loop_zeros all (d : gmap string Z) :
  Forall (fun r => rd_rating r = "0") all ->
  stats_loop all (S754_zero false) d
  = Ok (S754_zero false,
        match all with
        | [] => d
        | _ => <["0.5" := default 0 (d !! "0.5") + Z.of_nat (length all)]> d
        end).
Proof.
  intros Hall. revert d.
  induction Hall as [| r rest Hr _ IH]; intros d; [reflexivity |].
  cbn [stats_loop]. rewrite Hr.
  replace (float_of_str "0") with (@Ok float (S754_zero false))
    by (vm_compute; reflexivity).
  cbn [rbind].
  change (float_add (S754_zero false) (S754_zero false))
    with (S754_zero false).
  change (rating_key (S754_zero false)) with (@Ok string "0.5").
  cbn [rbind]. rewrite IH. f_equal. f_equal.
  destruct rest as [| r' rest'].
  - reflexivity.
  - rewrite lookup_insert_eq. cbn [default]. rewrite insert_insert_eq.
    f_equal. cbn [length]. unfold Datatypes.id. lia.
Qed.

(** 0.0 divided by a number of ratings is 0.0. *)
Lemma float_div_zero (n : Z) :
  0 < n ->
  float_div (S754_zero false) (float_of_int n) = Ok (S754_zero false).
Proof.
  intros Hn. unfold float_div.
  destruct (float_of_int_pos n Hn) as [[m [e ->]] | ->]; reflexivity.
Qed.

(** X20. A rating without a rating column counts as the rating 0.  On a
    connection that hands out live tables in which no row has the column,
    [get_rating_stats] for a movie with ratings returns the average 0.0,
    the number of its ratings, and all of them in the bucket "0.5". *)
Theorem ratings_without_column_count_as_zero {C : Type}
    (get_ratings_table : M C table_handle) (movie : string)
    (t : table_handle) (c c1 c2 : C) (rows1 rows : list row) :
  get_ratings_table c = (Ok (LiveTable rows1), c1) ->
  get_ratings_table c1 = (Ok (LiveTable rows), c2) ->
  forallb row_decodable rows = true ->
  Forall (fun r => row_data r !! "data:rating" = None) rows ->
  ratings_of_movie movie rows <> [] ->
  let n := Z.of_nat (length (ratings_of_movie movie rows)) in
  get_rating_stats get_ratings_table movie (t, c)
  = (Ok (RatingStats (S754_zero false) n {["0.5" := n]}),
     (LiveTable rows, c2)).
Proof.
  intros Hg1 Hg2 Hd Hnone Hne. cbv zeta.
  apply (get_rating_stats_live get_ratings_table movie t c c1 c2 rows1 rows
           (ratings_of_movie movie rows) _ Hg1 Hg2
           (movie_scan_loop_refines movie rows [] Hd)).
  pose proof (ratings_of_movie_without_column movie rows Hnone) as Hz.
  unfold stats_of_ratings.
  destruct (ratings_of_movie movie rows) as [| r all] eqn:Hall;
    [contradiction |].
  rewrite (stats_loop_zeros (r :: all) ∅ Hz). cbn [rbind].
  rewrite float_div_zero by (cbn [length]; lia).
  rewrite lookup_empty. reflexivity.
Qed.

Lemma ratings_without_column_count_as_zero_witness :
  get_rating_stats
    (serving [Row "u1_m1" {["data:timestamp" := "2024-01-02"]};
              Row "u2_m1" ∅])
    "m1" (DeadTable broken_pipe, tt)
  = (Ok (RatingStats (S754_zero false) 2 {["0.5" := 2]}),
     (LiveTable [Row "u1_m1" {["data:timestamp" := "2024-01-02"]};
                 Row "u2_m1" ∅], tt)).
Proof.
  apply (ratings_without_column_count_as_zero
           (serving [Row "u1_m1" {["data:timestamp" := "2024-01-02"]};
                     Row "u2_m1" ∅])
           "m1" (DeadTable broken_pipe) tt tt tt
           [Row "u1_m1" {["data:timestamp" := "2024-01-02"]}; Row "u2_m1" ∅]
           [Row "u1_m1" {["data:timestamp" := "2024-01-02"]}; Row "u2_m1" ∅]
           eq_refl eq_refl).
  - vm_compute. reflexivity.
  - repeat constructor.
  - vm_compute. discriminate.
Defined.
